(** * Swarm: CSV time series to unified JSON packets

    A shallow embedding of [swarm/app.py]: the two CSV parsers, the
    [TimeserieProcessor] pipeline (padding and shift, electrification,
    packaging) and the [send] loop, with the properties of the
    specification stated and settled on them.

    Python raises exceptions; every fallible function returns a [result].
    A Python [dict] keeps its keys in insertion order and [json.dumps]
    writes them in that order, so a dict is an association list with unique
    keys.  Floats are IEEE binary64 numbers, modelled by the [spec_float]
    of the Standard Library at precision 53. *)

From Stdlib Require Import ZArith String Ascii Bool Lia DecimalString.
From Stdlib Require Import Floats.SpecFloat.
From stdpp Require Import base option list strings.

Local Open Scope string_scope.
Local Open Scope list_scope.
Local Open Scope Z_scope.

(** ** Exceptions and results *)

Inductive exn : Type :=
| IndexError
| KeyError (key : string)
| TypeError
| ValueError
| OverflowError
| AttributeError
| ExhaustedFuel.
(* [ExhaustedFuel] is no exception of Python: it ends a loop of the store
   model below that was allowed too few steps. *)

Inductive result (A : Type) : Type :=
| Ok (a : A)
| Raise (e : exn).
Arguments Ok {A} a.
Arguments Raise {A} e.

#[global] Instance result_ret : MRet result := fun _ a => Ok a.
#[global] Instance result_bind : MBind result := fun _ _ f m =>
  match m with
  | Ok a => f a
  | Raise e => Raise e
  end.

Definition is_ok {A} (r : result A) : bool :=
  match r with Ok _ => true | Raise _ => false end.

Definition or_raise {A} (o : option A) (e : exn) : result A :=
  match o with Some a => Ok a | None => Raise e end.

(** ** Floats: binary64 *)

Definition float := spec_float.
Definition b64_of_Z (z : Z) : float := binary_normalize 53 1024 z 0 false.
Definition b64_mul : float -> float -> float := SFmul 53 1024.
Definition b64_div : float -> float -> float := SFdiv 53 1024.
Definition b64_eqb : float -> float -> bool := SFeqb.

(** ** Naive datetimes, as [datetime.datetime] stores them *)

Record datetime : Type := mkdatetime {
  year : Z; month : Z; day : Z;
  hour : Z; minute : Z; second : Z; microsecond : Z
}.

(** The proleptic Gregorian calendar of the [datetime] module. *)

Definition _MAXORDINAL : Z := 3652059.

Definition _is_leap (y : Z) : bool :=
  (y mod 4 =? 0) && (negb (y mod 100 =? 0) || (y mod 400 =? 0)).

Definition _days_before_year (y : Z) : Z :=
  let y := y - 1 in y * 365 + y / 4 - y / 100 + y / 400.

Definition _DAYS_IN_MONTH (m : Z) : Z :=
  match m with
  | 1 => 31 | 2 => 28 | 3 => 31 | 4 => 30 | 5 => 31 | 6 => 30
  | 7 => 31 | 8 => 31 | 9 => 30 | 10 => 31 | 11 => 30 | 12 => 31
  | _ => -1
  end.

Definition _DAYS_BEFORE_MONTH (m : Z) : Z :=
  match m with
  | 1 => 0 | 2 => 31 | 3 => 59 | 4 => 90 | 5 => 120 | 6 => 151
  | 7 => 181 | 8 => 212 | 9 => 243 | 10 => 273 | 11 => 304 | 12 => 334
  | _ => -1
  end.

Definition _days_in_month (y m : Z) : Z :=
  if (m =? 2) && _is_leap y then 29 else _DAYS_IN_MONTH m.

Definition _days_before_month (y m : Z) : Z :=
  _DAYS_BEFORE_MONTH m + (if (2 <? m) && _is_leap y then 1 else 0).

Definition _ymd2ord (y m d : Z) : Z :=
  _days_before_year y + _days_before_month y m + d.

Definition _DI400Y : Z := 146097.
Definition _DI100Y : Z := 36524.
Definition _DI4Y : Z := 1461.

Definition _ord2ymd (n : Z) : Z * Z * Z :=
  let n := n - 1 in
  let n400 := n / _DI400Y in
  let n := n mod _DI400Y in
  let y := n400 * 400 + 1 in
  let n100 := n / _DI100Y in
  let n := n mod _DI100Y in
  let n4 := n / _DI4Y in
  let n := n mod _DI4Y in
  let n1 := n / 365 in
  let n := n mod 365 in
  let y := y + n100 * 100 + n4 * 4 + n1 in
  if (n1 =? 4) || (n100 =? 4) then (y - 1, 12, 31)
  else
    let leapyear := (n1 =? 3) && (negb (n4 =? 24) || (n100 =? 3)) in
    let m := Z.shiftr (n + 50) 5 in
    let preceding := _DAYS_BEFORE_MONTH m + (if (2 <? m) && leapyear then 1 else 0) in
    if n <? preceding then
      let m := m - 1 in
      let preceding :=
        preceding - (_DAYS_IN_MONTH m + (if (m =? 2) && leapyear then 1 else 0)) in
      (y, m, n - preceding + 1)
    else (y, m, n - preceding + 1).

(** The checks of the [datetime] constructor: a datetime object always
    satisfies them. *)
Definition valid_datetime (d : datetime) : bool :=
  (1 <=? year d) && (year d <=? 9999) &&
  (1 <=? month d) && (month d <=? 12) &&
  (1 <=? day d) && (day d <=? _days_in_month (year d) (month d)) &&
  (0 <=? hour d) && (hour d <=? 23) &&
  (0 <=? minute d) && (minute d <=? 59) &&
  (0 <=? second d) && (second d <=? 59) &&
  (0 <=? microsecond d) && (microsecond d <=? 999999).

Definition toordinal (d : datetime) : Z := _ymd2ord (year d) (month d) (day d).

(** [timedelta]: days, seconds and microseconds, normalised by the
    constructor, which refuses more than 999999999 days. *)
Record timedelta : Type := mktimedelta {
  td_days : Z; td_seconds : Z; td_microseconds : Z
}.

Definition new_timedelta (days seconds microseconds : Z) : result timedelta :=
  let s := seconds + microseconds / 1000000 in
  let us := microseconds mod 1000000 in
  let d := days + s / 86400 in
  let s := s mod 86400 in
  if 999999999 <? Z.abs d then Raise OverflowError
  else Ok (mktimedelta d s us).

(** [datetime.timedelta(minutes=m)] *)
Definition timedelta_of_minutes (m : Z) : result timedelta :=
  new_timedelta 0 (m * 60) 0.

(** [datetime.__add__]: the datetime is turned into a timedelta since
    ordinal 0, the two are added, and the sum is turned back. *)
Definition datetime_add (d : datetime) (other : timedelta) : result datetime :=
  delta ← new_timedelta (toordinal d)
            (hour d * 3600 + minute d * 60 + second d) (microsecond d);
  delta ← new_timedelta (td_days delta + td_days other)
            (td_seconds delta + td_seconds other)
            (td_microseconds delta + td_microseconds other);
  let h := td_seconds delta / 3600 in
  let rem := td_seconds delta mod 3600 in
  let mi := rem / 60 in
  let s := rem mod 60 in
  if (0 <? td_days delta) && (td_days delta <=? _MAXORDINAL) then
    let '(y, m, dd) := _ord2ymd (td_days delta) in
    Ok (mkdatetime y m dd h mi s (td_microseconds delta))
  else Raise OverflowError.

(** ** Values and dicts *)

#[warnings="-register-all"]
Inductive pyval : Type :=
| VNone
| VFloat (f : float)
| VDatetime (d : datetime)
| VStr (s : string)
| VDict (items : list (string * pyval)).

Abbreviation dict := (list (string * pyval)).

(** The dict operations do not look at the values, so they are written
    once for any type of values. *)
Section Dict.
Context {V : Type}.

Fixpoint dict_get (k : string) (d : list (string * V)) : option V :=
  match d with
  | [] => None
  | (k', v) :: rest => if String.eqb k k' then Some v else dict_get k rest
  end.

(** [d[k]]: raises [KeyError] when the key is absent. *)
Definition getitem (d : list (string * V)) (k : string) : result V :=
  or_raise (dict_get k d) (KeyError k).

(** [d[k] = v]: an existing key keeps its position, a new key goes last. *)
Fixpoint dict_set (k : string) (v : V) (d : list (string * V))
    : list (string * V) :=
  match d with
  | [] => [(k, v)]
  | (k', v') :: rest =>
      if String.eqb k k' then (k, v) :: rest else (k', v') :: dict_set k v rest
  end.

(** [{**a, **b}]: a copy of [a] updated with the items of [b], in order. *)
Definition dict_merge (a b : list (string * V)) : list (string * V) :=
  fold_left (fun acc kv => dict_set (fst kv) (snd kv) acc) b a.

(** [dict(pairs)] *)
Definition dict_of_pairs (pairs : list (string * V)) : list (string * V) :=
  dict_merge [] pairs.

Definition keys (d : list (string * V)) : list string := map fst d.
End Dict.

Abbreviation timeserie := (list dict).

(** ** Text: digits, blanks, [strftime] and [strptime] *)

Definition digit_char (n : Z) : ascii := ascii_of_N (Z.to_N (48 + n mod 10)).

Definition zfill2 (n : Z) : string :=
  String (digit_char (n / 10)) (String (digit_char n) EmptyString).

Definition zfill4 (n : Z) : string :=
  String (digit_char (n / 1000)) (String (digit_char (n / 100)) (zfill2 n)).

(** [%d] of the C library: the decimal digits, with no padding. *)
Definition decimal (n : Z) : string := NilZero.string_of_int (Z.to_int n).

Definition strftime_directive (c : ascii) (d : datetime) : string :=
  match c with
  | "Y"%char => decimal (year d)
  | "m"%char => zfill2 (month d)
  | "d"%char => zfill2 (day d)
  | "H"%char => zfill2 (hour d)
  | "M"%char => zfill2 (minute d)
  | "S"%char => zfill2 (second d)
  | _ => String "%"%char (String c EmptyString)
  end.

(** [d.strftime(fmt)] for the directives the program uses, as the C
    library of Linux writes them: the month, the day and the time on two
    digits each, the year in decimal with no padding, so that a year
    below 1000 has fewer than four digits. *)
Fixpoint strftime (d : datetime) (fmt : string) : string :=
  match fmt with
  | EmptyString => EmptyString
  | String "%"%char (String c rest) =>
      (strftime_directive c d ++ strftime d rest)%string
  | String c rest => String c (strftime d rest)
  end.

Definition is_digit (c : ascii) : bool :=
  let n := N_of_ascii c in ((48 <=? n) && (n <=? 57))%N.

Definition digit_val (c : ascii) : Z := Z.of_N (N_of_ascii c) - 48.

Definition in_range (lo hi c : ascii) : bool :=
  ((N_of_ascii lo <=? N_of_ascii c) && (N_of_ascii c <=? N_of_ascii hi))%N.

(** [str.isspace] on one ASCII character; [\s] of [re] is the same set. *)
Definition py_isspace (c : ascii) : bool :=
  let n := N_of_ascii c in
  (((9 <=? n) && (n <=? 13)) || ((28 <=? n) && (n <=? 32)))%N.

Fixpoint lstrip (s : list ascii) : list ascii :=
  match s with
  | c :: rest => if py_isspace c then lstrip rest else s
  | [] => []
  end.

Definition chars (s : string) : list ascii := list_ascii_of_string s.

(** [s.strip()] *)
Definition strip (s : string) : string :=
  string_of_list_ascii (rev (lstrip (rev (lstrip (chars s))))).

(** One field of the pattern [strptime] builds from
    ['%Y-%m-%d %H:%M:%S']: a two-character alternative is tried before a
    one-character one, as the alternation of the regular expression does;
    what follows a field is never a digit, so no alternative is retried. *)
Definition two_or_one (two : ascii -> ascii -> bool) (one : ascii -> bool)
    (s : list ascii) : option (Z * list ascii) :=
  match s with
  | a :: b :: rest =>
      if two a b then Some (digit_val a * 10 + digit_val b, rest)
      else if one a then Some (digit_val a, b :: rest) else None
  | [a] => if one a then Some (digit_val a, []) else None
  | [] => None
  end.

(** [%m]: [1[0-2]|0[1-9]|[1-9]] *)
Definition re_m : list ascii -> option (Z * list ascii) :=
  two_or_one
    (fun a b => (Ascii.eqb a "1" && in_range "0" "2" b)
                || (Ascii.eqb a "0" && in_range "1" "9" b))
    (in_range "1" "9").

(** [%d]: [3[0-1]|[1-2]\d|0[1-9]|[1-9]| [1-9]] *)
Definition re_d (s : list ascii) : option (Z * list ascii) :=
  match two_or_one
    (fun a b => (Ascii.eqb a "3" && in_range "0" "1" b)
                || (in_range "1" "2" a && is_digit b)
                || (Ascii.eqb a "0" && in_range "1" "9" b))
    (in_range "1" "9") s with
  | Some r => Some r
  | None =>
      match s with
      | a :: b :: rest =>
          if Ascii.eqb a " " && in_range "1" "9" b
          then Some (digit_val b, rest) else None
      | _ => None
      end
  end.

(** [%H]: [2[0-3]|[0-1]\d|\d] *)
Definition re_H : list ascii -> option (Z * list ascii) :=
  two_or_one
    (fun a b => (Ascii.eqb a "2" && in_range "0" "3" b)
                || (in_range "0" "1" a && is_digit b))
    is_digit.

(** [%M]: [[0-5]\d|\d] *)
Definition re_M : list ascii -> option (Z * list ascii) :=
  two_or_one (fun a b => in_range "0" "5" a && is_digit b) is_digit.

(** [%S]: [6[0-1]|[0-5]\d|\d] *)
Definition re_S : list ascii -> option (Z * list ascii) :=
  two_or_one
    (fun a b => (Ascii.eqb a "6" && in_range "0" "1" b)
                || (in_range "0" "5" a && is_digit b))
    is_digit.

(** [%Y]: [\d\d\d\d] *)
Definition re_Y (s : list ascii) : option (Z * list ascii) :=
  match s with
  | a :: b :: c :: d :: rest =>
      if is_digit a && is_digit b && is_digit c && is_digit d
      then Some (((digit_val a * 10 + digit_val b) * 10 + digit_val c) * 10
                 + digit_val d, rest)
      else None
  | _ => None
  end.

Definition re_lit (c : ascii) (s : list ascii) : option (list ascii) :=
  match s with
  | a :: rest => if Ascii.eqb a c then Some rest else None
  | [] => None
  end.

(** [\s+] *)
Definition re_spaces (s : list ascii) : option (list ascii) :=
  match s with
  | a :: rest => if py_isspace a then Some (lstrip rest) else None
  | [] => None
  end.

(** [datetime.datetime.strptime(s, '%Y-%m-%d %H:%M:%S')] on ASCII text:
    [None] stands for the [ValueError] of a text that does not match, that
    has characters left over, or whose fields are no date. *)
Definition strptime_ascii (s : string) : option datetime :=
  '(y, s) ← re_Y (chars s);
  s ← re_lit "-" s;
  '(m, s) ← re_m s;
  s ← re_lit "-" s;
  '(d, s) ← re_d s;
  s ← re_spaces s;
  '(h, s) ← re_H s;
  s ← re_lit ":" s;
  '(mi, s) ← re_M s;
  s ← re_lit ":" s;
  '(sec, s) ← re_S s;
  match s with
  | [] =>
      let dt := mkdatetime y m d h mi sec 0 in
      if valid_datetime dt then Some dt else None
  | _ => None
  end.

(** ** The builtin [float] on ASCII literals

    [float_literal] reads the literals [float] accepts when the text is
    ASCII: blanks around, a sign, then [inf], [infinity] or [nan] in any
    case, or decimal digits with an optional fraction and exponent,
    underscores allowed between digits.  The decimal value [m * 10^e] is
    rounded once to binary64.  [None] stands for [ValueError]. *)

(** [Py_ISSPACE]: the blanks [float] strips from an ASCII text; the
    separators 28 to 31, blanks for [str.strip], are none for it. *)
Definition c_isspace (c : ascii) : bool :=
  let n := N_of_ascii c in (((9 <=? n) && (n <=? 13)) || (n =? 32))%N.

Fixpoint c_lstrip (s : list ascii) : list ascii :=
  match s with
  | c :: rest => if c_isspace c then c_lstrip rest else s
  | [] => []
  end.

(** The digit separators: an underscore stands between two digits and
    nowhere else; the text is read without them.  [prev] is the character
    before [s], if any. *)
Fixpoint drop_underscores (prev : option ascii) (s : list ascii)
    : option (list ascii) :=
  let after_digit :=
    match prev with Some p => is_digit p | None => false end in
  let after_underscore :=
    match prev with Some p => Ascii.eqb p "_" | None => false end in
  match s with
  | [] => if after_underscore then None else Some []
  | c :: rest =>
      if Ascii.eqb c "_" then
        if after_digit then drop_underscores (Some c) rest else None
      else if after_underscore && negb (is_digit c) then None
      else r ← drop_underscores (Some c) rest; Some (c :: r)
  end.

Definition lower (c : ascii) : ascii :=
  if in_range "A" "Z" c then ascii_of_N (N_of_ascii c + 32) else c.

Fixpoint take_digits (s : list ascii) (acc : Z) (n : Z) : Z * Z * list ascii :=
  match s with
  | c :: rest =>
      if is_digit c then take_digits rest (acc * 10 + digit_val c) (n + 1)
      else (acc, n, s)
  | [] => (acc, n, [])
  end.

Definition take_sign (s : list ascii) : bool * list ascii :=
  match s with
  | c :: rest =>
      if Ascii.eqb c "-" then (true, rest)
      else if Ascii.eqb c "+" then (false, rest) else (false, s)
  | [] => (false, [])
  end.

Definition take_exponent (s : list ascii) : option Z :=
  match s with
  | [] => Some 0
  | c :: rest =>
      if Ascii.eqb (lower c) "e" then
        let '(neg, rest) := take_sign rest in
        let '(e, n, rest) := take_digits rest 0 0 in
        match rest with
        | [] => if 0 <? n then Some (if neg then - e else e) else None
        | _ => None
        end
      else None
  end.

Definition b64_of_decimal (neg : bool) (m e : Z) : float :=
  match m with
  | Zpos p =>
      if 0 <=? e then binary_normalize 53 1024 ((if neg then -m else m) * 10 ^ e) 0 false
      else b64_div (S754_finite neg p 0) (S754_finite false (Z.to_pos (10 ^ (- e))) 0)
  | _ => S754_zero neg
  end.

Definition float_literal (s : string) : option float :=
  body ← drop_underscores None (rev (c_lstrip (rev (c_lstrip (chars s)))));
  let '(neg, body) := take_sign body in
  let word := string_of_list_ascii (map lower body) in
  if String.eqb word "nan" then Some S754_nan
  else if String.eqb word "inf" || String.eqb word "infinity"
  then Some (S754_infinity neg)
  else
    let '(a, na, rest) := take_digits body 0 0 in
    let '(m, nb, rest) :=
      match rest with
      | c :: rest' =>
          if Ascii.eqb c "." then
            let '(m, nb, rest'') := take_digits rest' a 0 in (m, nb, rest'')
          else (a, 0, rest)
      | [] => (a, 0, rest)
      end in
    if 0 <? na + nb then
      e ← take_exponent rest;
      Some (b64_of_decimal neg m (e - nb))
    else None.

(** ** Operators of the values *)

Fixpoint str_repeat (s : string) (n : nat) : string :=
  match n with
  | O => EmptyString
  | S n => (s ++ str_repeat s n)%string
  end.

(** [v * n] for an int [n]: a float is multiplied by the float of [n], a
    str is repeated; the other values of the model refuse [*]. *)
Definition py_mul_int (v : pyval) (n : Z) : result pyval :=
  match v with
  | VFloat f => Ok (VFloat (b64_mul f (b64_of_Z n)))
  | VStr s => Ok (VStr (str_repeat s (Z.to_nat n)))
  | VNone | VDatetime _ | VDict _ => Raise TypeError
  end.

(** [v + delta] for a timedelta [delta]: only a datetime accepts it. *)
Definition py_add_timedelta (v : pyval) (delta : timedelta) : result pyval :=
  match v with
  | VDatetime d => d' ← datetime_add d delta; Ok (VDatetime d')
  | _ => Raise TypeError
  end.

(** [v.strftime(fmt)]: only a datetime has the method. *)
Definition py_strftime (v : pyval) (fmt : string) : result pyval :=
  match v with
  | VDatetime d => Ok (VStr (strftime d fmt))
  | _ => Raise AttributeError
  end.

(** ** TimeserieProcessor *)

Record TimeserieProcessor : Type := mkTimeserieProcessor {
  _timeserie : timeserie;
  _fake_electric : bool;
  _minutes_shift : option Z
}.

(** The [for] loop of [_prepend_padding_value]; [shifted] is the list
    being appended to. *)
Fixpoint shift_entries (minutes : Z) (ts : timeserie) (shifted : timeserie)
    : result timeserie :=
  match ts with
  | [] => Ok shifted
  | entry :: rest =>
      t ← getitem entry "tsISO8601";
      delta ← timedelta_of_minutes minutes;
      shifted_slot_time ← py_add_timedelta t delta;
      shift_entries minutes rest
        (shifted ++ [dict_merge entry [("tsISO8601", shifted_slot_time)]])
  end.

Definition _prepend_padding_value (ts : timeserie) (minutes : Z)
    : result timeserie :=
  first ← or_raise (ts !! 0%nat) IndexError;
  second ← or_raise (ts !! 1%nat) IndexError;
  let padding_entry := dict_merge first [("value", VDict second)] in
  shift_entries minutes ts [padding_entry].

Definition electrify_entry (entry : dict) : result dict :=
  t ← getitem entry "tsISO8601";
  pc ← getitem entry "value";
  v ← getitem entry "value";
  ap ← py_mul_int v 6;
  Ok [("tsISO8601", t); ("pC_1", pc); ("aP_1", ap)].

Definition _electrify (ts : timeserie) : result timeserie :=
  mapM electrify_entry ts.

Definition packet_format : string := "%Y-%m-%dT%H:%M:%S.000+00:00".

Fixpoint package_entries (reference : string) (ts : timeserie)
    (packets : list dict) : result (list dict) :=
  match ts with
  | [] => Ok packets
  | entry :: rest =>
      t ← getitem entry "tsISO8601";
      stamp ← py_strftime t packet_format;
      let packet := dict_merge entry [("id", VStr reference); ("tsISO8601", stamp)] in
      package_entries reference rest (packets ++ [packet])
  end.

Definition _build_unified_packets (ts : timeserie) (reference : string)
    : result (list dict) :=
  package_entries reference ts [].

Definition build_unified_packets (self : TimeserieProcessor) (reference : string)
    : result (list dict) :=
  let ts := _timeserie self in
  ts ← match _minutes_shift self with
       | Some minutes => _prepend_padding_value ts minutes
       | None => Ok ts
       end;
  ts ← (if _fake_electric self then _electrify ts else Ok ts);
  _build_unified_packets ts reference.

(** The bodies of the two [for] loops, one entry at a time: each loop is
    the list it appends to followed by the [mapM] of its body. *)
Definition shift_entry (minutes : Z) (entry : dict) : result dict :=
  t ← getitem entry "tsISO8601";
  delta ← timedelta_of_minutes minutes;
  shifted_slot_time ← py_add_timedelta t delta;
  Ok (dict_merge entry [("tsISO8601", shifted_slot_time)]).

Definition package_entry (reference : string) (entry : dict) : result dict :=
  t ← getitem entry "tsISO8601";
  stamp ← py_strftime t packet_format;
  Ok (dict_merge entry [("id", VStr reference); ("tsISO8601", stamp)]).

(** ** CSV parsers

    The parsers are given the rows that [csv.reader] yields for the file,
    in file order.  The builtin [float] and [datetime.strptime] with the
    format ['%Y-%m-%d %H:%M:%S'] are the library's: the parsers are written
    over any such pair of functions, [None] standing for their
    [ValueError].  The debug line that [parse_electricity_csv] logs per row
    has no part in the value returned and is left out. *)

Definition ELECTRICITY_KEYS : list string :=
  [ "aP_1"; "aP_2"; "aP_3"; "rP_1"; "rP_2"; "rP_3";
    "apP_1"; "apP_2"; "apP_3"; "v_1"; "v_2"; "v_3";
    "c_1"; "c_2"; "c_3"; "pC_1"; "pC_2"; "pC_3";
    "v_12"; "v_13"; "v_23" ].

Section Csv.
Variable py_float : string -> option float.
Variable strptime : string -> option datetime.

Definition safe_string_to_float (value : string) : pyval :=
  match py_float value with
  | Some f => VFloat f
  | None => VNone
  end.

Fixpoint single_value_rows (rows : list (list string)) (ts : timeserie)
    : result timeserie :=
  match rows with
  | [] => Ok ts
  | row :: rest =>
      match row with
      | [timestamp; value] =>
          packet_datetime ← or_raise (strptime timestamp) ValueError;
          single_value_rows rest
            (ts ++ [[("tsISO8601", VDatetime packet_datetime);
                     ("value", safe_string_to_float value)]])
      | _ => Raise ValueError
      end
  end.

Definition parse_single_value_csv (rows : list (list string))
    : result timeserie :=
  single_value_rows rows [].

Fixpoint electricity_rows (rows : list (list string)) (ts : timeserie)
    : result timeserie :=
  match rows with
  | [] => Ok ts
  | row :: rest =>
      match row with
      | timestamp :: values =>
          let values := map safe_string_to_float values in
          packet_datetime ← or_raise (strptime timestamp) ValueError;
          electricity_rows rest
            (ts ++ [dict_of_pairs
                      (zip ("tsISO8601" :: ELECTRICITY_KEYS)
                           (VDatetime packet_datetime :: values))])
      | [] => Raise ValueError
      end
  end.

Definition parse_electricity_csv (rows : list (list string))
    : result timeserie :=
  electricity_rows rows [].

(** The bodies of the two loops, one row at a time. *)
Definition single_value_row (row : list string) : result dict :=
  match row with
  | [timestamp; value] =>
      packet_datetime ← or_raise (strptime timestamp) ValueError;
      Ok [("tsISO8601", VDatetime packet_datetime);
          ("value", safe_string_to_float value)]
  | _ => Raise ValueError
  end.

Definition electricity_row (row : list string) : result dict :=
  match row with
  | timestamp :: values =>
      let values := map safe_string_to_float values in
      packet_datetime ← or_raise (strptime timestamp) ValueError;
      Ok (dict_of_pairs (zip ("tsISO8601" :: ELECTRICITY_KEYS)
                             (VDatetime packet_datetime :: values)))
  | [] => Raise ValueError
  end.
End Csv.

(** ** Uploader *)

Inductive level : Type := DEBUG | INFO | WARNING | ERROR | CRITICAL.

Record response : Type := mkresponse { status_code : Z; text : string }.

(** What [session.post] does: it returns a response, or raises an
    exception of the [RequestException] family (connection refused,
    timeout, name resolution, ...). *)
Inductive post_outcome : Type :=
| Responded (r : response)
| RequestException (exception : string).

Inductive log_args : Type :=
| Message (m : string)
| Outcome (status : Z) (unified_json : dict) (response_message : string)
| Failure (exception : string).

Inductive event : Type :=
| Posted (url payload : string) (auth : string * string)
| Logged (l : level) (a : log_args).

(** [a / b] on ints is the true division of Python 3: its result is a
    float (for ints below 2^53 the quotient of their floats). *)
Definition int_truediv (a b : Z) : float := b64_div (b64_of_Z a) (b64_of_Z b).

(** [x == n] for a float [x] and a small int [n] *)
Definition float_eq_int (x : float) (n : Z) : bool := b64_eqb x (b64_of_Z n).

Definition response_level (status_code : Z) : level :=
  let status_code_class := int_truediv status_code 100 in
  if float_eq_int status_code_class 2 then DEBUG
  else if float_eq_int status_code_class 3 then WARNING
  else ERROR.

Section Uploader.
(** [json.dumps] writes a float with [float.__repr__] and a str with its
    JSON escapes; both are total and taken as given. *)
Variable float_repr : float -> string.
Variable json_string : string -> string.
(** The collector and the network: the outcome of the [n]-th POST of
    the session. *)
Variable session_post : nat -> string -> string -> post_outcome.

Fixpoint json_dumps (v : pyval) : result string :=
  match v with
  | VNone => Ok "null"
  | VFloat f => Ok (float_repr f)
  | VStr s => Ok (json_string s)
  | VDatetime _ => Raise TypeError
  | VDict items =>
      body ← (fix members (items : list (string * pyval)) (first : bool)
                : result string :=
                match items with
                | [] => Ok ""
                | (k, v) :: rest =>
                    s ← json_dumps v;
                    r ← members rest false;
                    Ok ((if first then "" else ", ") ++ json_string k
                        ++ ": " ++ s ++ r)%string
                end) items true;
      Ok ("{" ++ body ++ "}")%string
  end.

Fixpoint send_loop (url : string) (credentials : string * string)
    (n : nat) (unified_jsons : list dict) (trace : list event)
    : result unit * list event :=
  match unified_jsons with
  | [] => (Ok tt, trace)
  | unified_json :: rest =>
      match json_dumps (VDict unified_json) with
      | Raise e => (Raise e, trace)
      | Ok payload =>
          let trace := trace ++ [Posted url payload credentials] in
          match session_post n url payload with
          | Responded response =>
              let response_message := strip (text response) in
              send_loop url credentials (S n) rest
                (trace ++ [Logged (response_level (status_code response))
                             (Outcome (status_code response) unified_json
                                response_message)])
          | RequestException exception =>
              send_loop url credentials (S n) rest
                (trace ++ [Logged CRITICAL (Failure exception)])
          end
      end
  end.

Definition send (url : string) (unified_jsons : list dict)
    (credentials : string * string) : result unit * list event :=
  let '(r, trace) :=
    send_loop url credentials 0 unified_jsons
      [Logged INFO (Message "Starting the swarm")] in
  match r with
  | Ok _ => (Ok tt, trace ++ [Logged INFO (Message "Completed")])
  | Raise e => (Raise e, trace)
  end.
End Uploader.

(** ** The processor on a store of objects

    Lists and dicts are objects: a variable holds a reference, two
    references may name one object, and [append] changes the list it is
    called on.  The processor is written again over a store, an object per
    location, to settle what it does to the objects it is given.
    Allocation takes the next free location.  A [for] loop reads the list
    it walks anew at each step, as the list iterator does. *)
Module Heap.

Abbreviation loc := nat.

Inductive hval : Type :=
| HNone
| HFloat (f : float)
| HDatetime (d : datetime)
| HStr (s : string)
| HRef (l : loc).

Inductive obj : Type :=
| ODict (items : list (string * hval))
| OList (items : list hval).

Abbreviation heap := (list obj).

Definition M (A : Type) : Type := heap -> result A * heap.

Definition ret {A} (a : A) : M A := fun h => (Ok a, h).

Definition bind {A B} (m : M A) (f : A -> M B) : M B := fun h =>
  match m h with
  | (Ok a, h') => f a h'
  | (Raise e, h') => (Raise e, h')
  end.

Definition lift {A} (r : result A) : M A := fun h => (r, h).

Definition alloc (o : obj) : M hval := fun h => (Ok (HRef (length h)), h ++ [o]).

(** The items of the dict [v] refers to; anything else is no mapping. *)
Definition read_dict (v : hval) : M (list (string * hval)) := fun h =>
  match v with
  | HRef l =>
      match h !! l with
      | Some (ODict items) => (Ok items, h)
      | _ => (Raise TypeError, h)
      end
  | _ => (Raise TypeError, h)
  end.

Definition read_list (v : hval) : M (list hval) := fun h =>
  match v with
  | HRef l =>
      match h !! l with
      | Some (OList items) => (Ok items, h)
      | _ => (Raise TypeError, h)
      end
  | _ => (Raise TypeError, h)
  end.

(** [lst.append(x)]: the one operation that changes an object. *)
Definition list_append (lst : hval) (x : hval) : M unit := fun h =>
  match lst with
  | HRef l =>
      match h !! l with
      | Some (OList items) => (Ok tt, <[l := OList (items ++ [x])]> h)
      | _ => (Raise AttributeError, h)
      end
  | _ => (Raise AttributeError, h)
  end.

Notation "x <- m ;; k" := (bind m (fun x => k))
  (at level 100, m at next level, right associativity).

(** [for x in lst: body] *)
Fixpoint for_each (fuel : nat) (lst : hval) (i : nat) (body : hval -> M unit)
    : M unit :=
  match fuel with
  | O => lift (Raise ExhaustedFuel)
  | S fuel =>
      items <- read_list lst ;;
      match items !! i with
      | None => ret tt
      | Some x => _ <- body x ;; for_each fuel lst (S i) body
      end
  end.

Definition mul_int (v : hval) (n : Z) : M hval :=
  match v with
  | HFloat f => ret (HFloat (b64_mul f (b64_of_Z n)))
  | HStr s => ret (HStr (str_repeat s (Z.to_nat n)))
  | HRef l => fun h =>
      match h !! l with
      | Some (OList items) =>
          alloc (OList (concat (replicate (Z.to_nat n) items))) h
      | _ => (Raise TypeError, h)
      end
  | HNone | HDatetime _ => lift (Raise TypeError)
  end.

Definition add_timedelta (v : hval) (delta : timedelta) : result hval :=
  match v with
  | HDatetime d => d' ← datetime_add d delta; Ok (HDatetime d')
  | _ => Raise TypeError
  end.

Definition hstrftime (v : hval) (fmt : string) : result hval :=
  match v with
  | HDatetime d => Ok (HStr (strftime d fmt))
  | _ => Raise AttributeError
  end.

Definition index (items : list hval) (i : nat) : M hval :=
  lift (or_raise (items !! i) IndexError).

(** The bodies of the three [for] loops; each ends with the [append] of
    a new dict to the list the loop fills. *)
Definition shift_body (minutes : Z) (shifted_timeserie : hval) (entry : hval)
    : M unit :=
  entry_items <- read_dict entry ;;
  t <- lift (getitem entry_items "tsISO8601") ;;
  delta <- lift (timedelta_of_minutes minutes) ;;
  shifted_slot_time <- lift (add_timedelta t delta) ;;
  entry_items <- read_dict entry ;;
  shifted <- alloc (ODict (dict_merge entry_items
                             [("tsISO8601", shifted_slot_time)])) ;;
  list_append shifted_timeserie shifted.

Definition electrify_body (electrified : hval) (entry : hval) : M unit :=
  entry_items <- read_dict entry ;;
  t <- lift (getitem entry_items "tsISO8601") ;;
  pc <- lift (getitem entry_items "value") ;;
  v <- lift (getitem entry_items "value") ;;
  ap <- mul_int v 6 ;;
  e <- alloc (ODict [("tsISO8601", t); ("pC_1", pc); ("aP_1", ap)]) ;;
  list_append electrified e.

Definition package_body (reference : string) (packets : hval) (entry : hval)
    : M unit :=
  entry_items <- read_dict entry ;;
  t <- lift (getitem entry_items "tsISO8601") ;;
  stamp <- lift (hstrftime t packet_format) ;;
  packet <- alloc (ODict (dict_merge entry_items
                            [("id", HStr reference); ("tsISO8601", stamp)])) ;;
  list_append packets packet.

Definition _prepend_padding_value (fuel : nat) (timeserie : hval) (minutes : Z)
    : M hval :=
  items <- read_list timeserie ;;
  first <- index items 0 ;;
  first_items <- read_dict first ;;
  items <- read_list timeserie ;;
  second <- index items 1 ;;
  padding_entry <- alloc (ODict (dict_merge first_items [("value", second)])) ;;
  shifted_timeserie <- alloc (OList [padding_entry]) ;;
  _ <- for_each fuel timeserie 0 (shift_body minutes shifted_timeserie) ;;
  ret shifted_timeserie.

Definition _electrify (fuel : nat) (timeserie : hval) : M hval :=
  electrified <- alloc (OList []) ;;
  _ <- for_each fuel timeserie 0 (electrify_body electrified) ;;
  ret electrified.

Definition _build_unified_packets (fuel : nat) (timeserie : hval)
    (reference : string) : M hval :=
  packets <- alloc (OList []) ;;
  _ <- for_each fuel timeserie 0 (package_body reference packets) ;;
  ret packets.

(** The processor object: a reference to the wrapped list and the two
    options. *)
Record TimeserieProcessor : Type := mkTimeserieProcessor {
  _timeserie : hval;
  _fake_electric : bool;
  _minutes_shift : option Z
}.

Definition build_unified_packets (fuel : nat) (self : TimeserieProcessor)
    (reference : string) : M hval :=
  let timeserie := _timeserie self in
  timeserie <- match _minutes_shift self with
               | Some minutes => _prepend_padding_value fuel timeserie minutes
               | None => ret timeserie
               end ;;
  timeserie <- (if _fake_electric self then _electrify fuel timeserie
                else ret timeserie) ;;
  _build_unified_packets fuel timeserie reference.

End Heap.

(** ** Vocabulary of the statements *)

(** The timestamp of a record, when it is a datetime. *)
Definition timestamp_of (e : dict) : option datetime :=
  match dict_get "tsISO8601" e with
  | Some (VDatetime d) => Some d
  | _ => None
  end.

(** A record as [parse_single_value_csv] builds it: a datetime and a
    [value] that is a float or [None]. *)
Definition float_valued (e : dict) : Prop :=
  exists f, dict_get "value" e = Some (VFloat f).

Definition null_valued (e : dict) : Prop := dict_get "value" e = Some VNone.

Definition single_value_record (e : dict) : Prop :=
  (exists d, timestamp_of e = Some d) /\ (float_valued e \/ null_valued e).

(** The text the specification gives for [tsISO8601]:
    [YYYY-MM-DDTHH:MM:SS] from the fields of the datetime itself, then the
    literal suffix. *)
Definition spec_tsISO8601 (d : datetime) : string :=
  (zfill4 (year d) ++ "-" ++ zfill2 (month d) ++ "-" ++ zfill2 (day d) ++ "T"
   ++ zfill2 (hour d) ++ ":" ++ zfill2 (minute d) ++ ":" ++ zfill2 (second d)
   ++ ".000+00:00")%string.

(** The month and the day that [_ord2ymd] finds for the day [n] of a
    year, counted from 0, and the check of what it finds. *)
Definition month_day (leapyear : bool) (n : Z) : Z * Z :=
  let m := Z.shiftr (n + 50) 5 in
  let preceding := _DAYS_BEFORE_MONTH m + (if (2 <? m) && leapyear then 1 else 0) in
  if n <? preceding then
    let m := m - 1 in
    let preceding :=
      preceding - (_DAYS_IN_MONTH m + (if (m =? 2) && leapyear then 1 else 0)) in
    (m, n - preceding + 1)
  else (m, n - preceding + 1).

Definition month_day_ok (leapyear : bool) (n : Z) : bool :=
  let '(m, d) := month_day leapyear n in
  (1 <=? m) && (m <=? 12) && (1 <=? d) &&
  (d <=? _DAYS_IN_MONTH m + (if (m =? 2) && leapyear then 1 else 0)) &&
  (_DAYS_BEFORE_MONTH m + (if (2 <? m) && leapyear then 1 else 0) + d =? n + 1).

Definition days_of_year : list Z := map Z.of_nat (seq 0 365).

(** The point of a datetime on the time line, in microseconds since the
    start of ordinal 0, and the length of a timedelta in microseconds. *)
Definition timeline (d : datetime) : Z :=
  (toordinal d * 86400 + hour d * 3600 + minute d * 60 + second d) * 1000000
  + microsecond d.

Definition td_total (t : timedelta) : Z :=
  (td_days t * 86400 + td_seconds t) * 1000000 + td_microseconds t.

(** The float a literal denotes, as a value. *)
Definition literal_value (s : string) : pyval :=
  match float_literal s with
  | Some f => VFloat f
  | None => VNone
  end.

(** Two records of a single-value file, fifteen minutes apart. *)
Definition sample_first : dict :=
  [("tsISO8601", VDatetime (mkdatetime 2020 1 1 10 0 0 0));
   ("value", VFloat (b64_of_Z 3))].

Definition sample_second : dict :=
  [("tsISO8601", VDatetime (mkdatetime 2020 1 1 10 15 0 0));
   ("value", VFloat (b64_of_Z 4))].

(** The status codes a response can carry: three digits. *)
Definition status_codes : list Z := map Z.of_nat (seq 100 900).

Definition expected_level (status_code : Z) : level :=
  if status_code / 100 =? 2 then DEBUG
  else if status_code / 100 =? 3 then WARNING
  else ERROR.

(** A unified packet holds strings, floats and nulls only. *)
Definition scalar (v : pyval) : Prop :=
  match v with
  | VNone | VFloat _ | VStr _ => True
  | VDatetime _ | VDict _ => False
  end.

Definition unified_packet (p : dict) : Prop := Forall (fun kv => scalar (snd kv)) p.

(** The payloads POSTed along a trace, in order. *)
Definition posted (trace : list event) : list string :=
  omap (fun ev => match ev with
                  | Posted _ payload _ => Some payload
                  | Logged _ _ => None
                  end) trace.

(** What the loop of [send] leaves in the trace for packets with known
    payloads, the first of them being the [n]-th POST of the session. *)
Fixpoint session_events (session_post : nat -> string -> string -> post_outcome)
    (url : string) (credentials : string * string) (n : nat)
    (packets : list (dict * string)) : list event :=
  match packets with
  | [] => []
  | (unified_json, payload) :: rest =>
      Posted url payload credentials
      :: match session_post n url payload with
         | Responded r =>
             Logged (response_level (status_code r))
               (Outcome (status_code r) unified_json (strip (text r)))
         | RequestException exception => Logged CRITICAL (Failure exception)
         end
      :: session_events session_post url credentials (S n) rest
  end.

(** Stand-ins for the two text functions of [json.dumps], and a network
    that refuses the first POST and answers 200 to the others, to run
    [send] on. *)
Definition quoted (s : string) : string :=
  (String (ascii_of_N 34) s ++ String (ascii_of_N 34) EmptyString)%string.

Definition zero_repr (f : float) : string := "0.0".

Definition flaky_network (n : nat) (url payload : string) : post_outcome :=
  match n with
  | O => RequestException "connection refused"
  | S _ => Responded (mkresponse 200 "OK")
  end.

(** A computation on the store keeps the objects of [h0] when, run from
    any store that extends [h0], it leaves a store that extends [h0]; [Q]
    is what is known of its result. *)
Definition keeps (h0 : Heap.heap) {A} (m : Heap.M A) (Q : A -> Prop) : Prop :=
  forall h, h0 `prefix_of` h ->
    h0 `prefix_of` snd (m h) /\ forall a, fst (m h) = Ok a -> Q a.

(** A reference to an object allocated after [h0]. *)
Definition fresh (h0 : Heap.heap) (v : Heap.hval) : Prop :=
  exists l, v = Heap.HRef l /\ (length h0 <= l)%nat.

(** The two sample records in a store, and the list that wraps them. *)
Definition sample_store : Heap.heap :=
  [ Heap.ODict [("tsISO8601", Heap.HDatetime (mkdatetime 2020 1 1 10 0 0 0));
                ("value", Heap.HFloat (b64_of_Z 3))];
    Heap.ODict [("tsISO8601", Heap.HDatetime (mkdatetime 2020 1 1 10 15 0 0));
                ("value", Heap.HFloat (b64_of_Z 4))];
    Heap.OList [Heap.HRef 0%nat; Heap.HRef 1%nat] ].

(** ** The store and the values it stands for *)

Section StoreValues.
Import Heap.

(** A value that is no reference stands for itself. *)
Definition flat (v : hval) : option pyval :=
  match v with
  | HNone => Some VNone
  | HFloat f => Some (VFloat f)
  | HDatetime d => Some (VDatetime d)
  | HStr s => Some (VStr s)
  | HRef _ => None
  end.

(** The items of a dict object stand for a dict when the keys agree and
    each value stands for the value under the same key. *)
Definition items_rel (R : hval -> pyval -> Prop)
    (items : list (string * hval)) (d : dict) : Prop :=
  Forall2 (fun kv kv' => fst kv = fst kv' /\ R (snd kv) (snd kv')) items d.

Definition flat_rel (v : hval) (pv : pyval) : Prop := flat v = Some pv.

(** A reference to a dict of values that are no references stands for
    the dict; this is as deep as the processor nests. *)
Definition val_rel (h : heap) (v : hval) (pv : pyval) : Prop :=
  match v with
  | HRef l =>
      exists items d,
        h !! l = Some (ODict items) /\ items_rel flat_rel items d /\ pv = VDict d
  | _ => flat v = Some pv
  end.

Definition record_rel (R : hval -> pyval -> Prop) (h : heap)
    (v : hval) (d : dict) : Prop :=
  exists l items,
    v = HRef l /\ h !! l = Some (ODict items) /\ items_rel R items d.

Definition timeserie_rel (R : hval -> pyval -> Prop) (h : heap)
    (v : hval) (ts : timeserie) : Prop :=
  exists l xs,
    v = HRef l /\ h !! l = Some (OList xs) /\
    Forall2 (record_rel R h) xs ts.

(** The dict objects of [h] are the same in [h']. *)
Definition dicts_kept (h h' : heap) : Prop :=
  forall l items, h !! l = Some (ODict items) -> h' !! l = Some (ODict items).

(** What a loop body does with the items of one record, apart from the
    allocation of the result and its [append]. *)
Definition hshift_items (minutes : Z) (items : list (string * hval))
    : result (list (string * hval)) :=
  t ← getitem items "tsISO8601";
  delta ← timedelta_of_minutes minutes;
  shifted_slot_time ← add_timedelta t delta;
  Ok (dict_merge items [("tsISO8601", shifted_slot_time)]).

(** Allocating a dict and appending it to the list at [out]. *)
Definition emit (out : loc) (items : list (string * hval)) : M unit :=
  bind (alloc (ODict items)) (fun new => list_append (HRef out) new).

Definition body_of (f : list (string * hval) -> result (list (string * hval)))
    (out : loc) (entry : hval) : M unit :=
  bind (read_dict entry) (fun items =>
  bind (lift (f items)) (fun r => emit out r)).

Definition hpackage_items (reference : string) (items : list (string * hval))
    : result (list (string * hval)) :=
  t ← getitem items "tsISO8601";
  stamp ← hstrftime t packet_format;
  Ok (dict_merge items [("id", HStr reference); ("tsISO8601", stamp)]).

Definition hmul_int (v : hval) (n : Z) : result hval :=
  match v with
  | HFloat f => Ok (HFloat (b64_mul f (b64_of_Z n)))
  | HStr s => Ok (HStr (str_repeat s (Z.to_nat n)))
  | _ => Raise TypeError
  end.

Definition helectrify_items (items : list (string * hval))
    : result (list (string * hval)) :=
  t ← getitem items "tsISO8601";
  pc ← getitem items "value";
  v ← getitem items "value";
  ap ← hmul_int v 6;
  Ok [("tsISO8601", t); ("pC_1", pc); ("aP_1", ap)].

(** A loop body that reads a record, computes items from its items and
    emits them, with what it needs of the pure body. *)
Definition step_spec (body : hval -> M unit) (pbody : dict -> result dict)
    (out : loc) : Prop :=
  forall (h : heap) (x : hval) (d : dict) (acc : list hval),
    record_rel (val_rel h) h x d -> h !! out = Some (OList acc) ->
    match pbody d with
    | Ok r =>
        exists h' new,
          body x h = (Ok tt, h') /\ dicts_kept h h' /\
          (forall l xs, l <> out -> h !! l = Some (OList xs) -> h' !! l = Some (OList xs)) /\
          h' !! out = Some (OList (acc ++ [new])) /\
          record_rel (val_rel h') h' new r
    | Raise e => exists h', body x h = (Raise e, h')
    end.
End StoreValues.

(** ** Vocabulary of the further properties *)

(** A value that holds a datetime, at any depth. *)
Fixpoint has_datetime (v : pyval) : bool :=
  match v with
  | VNone | VFloat _ | VStr _ => false
  | VDatetime _ => true
  | VDict items =>
      (fix any (items : list (string * pyval)) : bool :=
         match items with
         | [] => false
         | (_, v) :: rest => has_datetime v || any rest
         end) items
  end.

(** Whether a point of the time line falls in the years 1 to 9999. *)
Definition on_calendar (t : Z) : bool :=
  (86400000000 <=? t) && (t <? 3652060 * 86400000000).

(** Whether the record's timestamp, moved by [minutes] minutes, stays in
    the years 1 to 9999. *)
Definition shift_on_calendar (minutes : Z) (e : dict) : bool :=
  match timestamp_of e with
  | Some d => on_calendar (timeline d + minutes * 60000000)
  | None => false
  end.

Definition valid_timestamp (e : dict) : Prop :=
  exists d, timestamp_of e = Some d /\ valid_datetime d = true.

(** The packet of a record. *)
Definition packet_of (reference : string) (d : datetime) (e : dict) : dict :=
  dict_set "tsISO8601" (VStr (strftime d packet_format))
    (dict_set "id" (VStr reference) e).

(** A well-formed row of a single-value file, and of an electrical file,
    for a given [strptime]. *)
Definition single_value_row_ok (strptime : string -> option datetime)
    (row : list string) : bool :=
  match row with
  | [t; _] => match strptime t with Some _ => true | None => false end
  | _ => false
  end.

Definition electricity_row_ok (strptime : string -> option datetime)
    (row : list string) : bool :=
  match row with
  | t :: _ => match strptime t with Some _ => true | None => false end
  | [] => false
  end.

(** Whether the value column of a row reads as a float. *)
Definition value_is_float (py_float : string -> option float)
    (row : list string) : bool :=
  match row with
  | [_; v] => match py_float v with Some _ => true | None => false end
  | _ => false
  end.

(** What is logged at critical level along a trace, whatever it is, and
    the exceptions the POSTs of a session raise, both in order. *)
Definition criticals (trace : list event) : list log_args :=
  omap (fun ev => match ev with
                  | Logged CRITICAL args => Some args
                  | _ => None
                  end) trace.

Fixpoint failures (session_post : nat -> string -> string -> post_outcome)
    (url : string) (n : nat) (payloads : list string) : list string :=
  match payloads with
  | [] => []
  | payload :: rest =>
      match session_post n url payload with
      | RequestException x => x :: failures session_post url (S n) rest
      | Responded _ => failures session_post url (S n) rest
      end
  end.

(** The trace of a session that ran to its end: between the opening and
    the closing message, each payload leaves its POST and the one line
    logged for it. *)
Definition session_trace (url : string) (credentials : string * string)
    (payloads : list string) (lines : list (level * log_args)) : list event :=
  Logged INFO (Message "Starting the swarm")
  :: flat_map (fun sl => [Posted url (fst sl) credentials;
                          Logged (fst (snd sl)) (snd (snd sl))])
       (zip payloads lines)
  ++ [Logged INFO (Message "Completed")].

(** A timestamp as the files hold it: [YYYY-MM-DD HH:MM:SS], the year on
    four digits. *)
Definition file_timestamp (d : datetime) : string :=
  (zfill4 (year d) ++ "-" ++ zfill2 (month d) ++ "-" ++ zfill2 (day d) ++ " "
   ++ zfill2 (hour d) ++ ":" ++ zfill2 (minute d) ++ ":" ++ zfill2 (second d))%string.

(** A packet of one field and its payload, a record that still holds its
    datetime, and a collector that answers 404 to every POST. *)
Definition sample_packet : dict := [("id", VStr "abc123")].

Definition sample_payload : string :=
  ("{" ++ quoted "id" ++ ": " ++ quoted "abc123" ++ "}")%string.

Definition sample_unpackaged : dict :=
  [("tsISO8601", VDatetime (mkdatetime 2020 1 1 10 0 0 0))].

Definition not_found_network (n : nat) (url payload : string) : post_outcome :=
  Responded (mkresponse 404 "Not Found").

(** * Properties *)

(** ** The result monad and the loops *)

Lemma bind_Ok {A B} (f : A -> result B) (a : A) : (Ok a ≫= f) = f a.
Proof. reflexivity. Qed.

Lemma bind_Raise {A B} (f : A -> result B) (e : exn) : (Raise e ≫= f) = Raise e.
Proof. reflexivity. Qed.

Lemma Ok_inj {A} (a b : A) : Ok a = Ok b -> a = b.
Proof. congruence. Qed.

Lemma bind_Ok_inv {A B} (m : result A) (f : A -> result B) (b : B) :
  (m ≫= f) = Ok b -> exists a, m = Ok a /\ f a = Ok b.
Proof. destruct m as [a|e]; [eauto | discriminate]. Qed.

Ltac inv_bind H :=
  let a := fresh "a" in
  let Ha := fresh "Ha" in
  apply bind_Ok_inv in H; destruct H as (a & Ha & H).

Lemma mapM_Ok {A B} (f : A -> result B) (l : list A) (k : list B) :
  mapM f l = Ok k <-> Forall2 (fun x y => f x = Ok y) l k.
Proof.
  revert k. induction l as [|x l IH]; intros k; cbn [mapM].
  - split.
    + intros [= <-]. constructor.
    + intros H. inversion H. reflexivity.
  - split.
    + intros H. inv_bind H. inv_bind H. injection H as <-.
      constructor; [assumption | now apply IH].
    + intros H. inversion H as [|? y ? k' Hx Hl]; subst.
      rewrite Hx, bind_Ok. apply IH in Hl. rewrite Hl. reflexivity.
Qed.


Lemma mapM_Raise {A B} (f : A -> result B) (l1 l2 : list A) (x : A) (e : exn) :
  Forall (fun y => is_ok (f y) = true) l1 -> f x = Raise e ->
  mapM f (l1 ++ x :: l2) = Raise e.
Proof.
  intros H Hx. induction H as [|y l1 Hy _ IH]; cbn [mapM app].
  - rewrite Hx. reflexivity.
  - destruct (f y); [|discriminate]. rewrite bind_Ok, IH. reflexivity.
Qed.

Lemma shift_entries_cons (minutes : Z) (entry : dict) (rest shifted : timeserie) :
  shift_entries minutes (entry :: rest) shifted =
  (e ← shift_entry minutes entry; shift_entries minutes rest (shifted ++ [e])).
Proof.
  cbn [shift_entries]. unfold shift_entry.
  destruct (getitem entry "tsISO8601") as [t|]; [|reflexivity].
  rewrite !bind_Ok.
  destruct (timedelta_of_minutes minutes) as [delta|]; [|reflexivity].
  rewrite !bind_Ok.
  destruct (py_add_timedelta t delta) as [t'|]; reflexivity.
Qed.

Lemma shift_entries_mapM (minutes : Z) (ts shifted : timeserie) :
  shift_entries minutes ts shifted =
  (l ← mapM (shift_entry minutes) ts; Ok (shifted ++ l)).
Proof.
  revert shifted. induction ts as [|entry rest IH]; intros shifted.
  - cbn. now rewrite app_nil_r.
  - rewrite shift_entries_cons. cbn [mapM].
    destruct (shift_entry minutes entry) as [e|]; [|reflexivity].
    rewrite !bind_Ok, IH.
    destruct (mapM (shift_entry minutes) rest) as [l|]; [|reflexivity].
    cbn. now rewrite <- app_assoc.
Qed.

Lemma package_entries_cons (reference : string) (entry : dict)
    (rest : timeserie) (packets : list dict) :
  package_entries reference (entry :: rest) packets =
  (p ← package_entry reference entry;
   package_entries reference rest (packets ++ [p])).
Proof.
  cbn [package_entries]. unfold package_entry.
  destruct (getitem entry "tsISO8601") as [t|]; [|reflexivity].
  rewrite !bind_Ok.
  destruct (py_strftime t packet_format) as [stamp|]; reflexivity.
Qed.

Lemma package_entries_mapM (reference : string) (ts : timeserie) (packets : list dict) :
  package_entries reference ts packets =
  (l ← mapM (package_entry reference) ts; Ok (packets ++ l)).
Proof.
  revert packets. induction ts as [|entry rest IH]; intros packets.
  - cbn. now rewrite app_nil_r.
  - rewrite package_entries_cons. cbn [mapM].
    destruct (package_entry reference entry) as [p|]; [|reflexivity].
    rewrite !bind_Ok, IH.
    destruct (mapM (package_entry reference) rest) as [l|]; [|reflexivity].
    cbn. now rewrite <- app_assoc.
Qed.

Lemma build_unified_packets_mapM (ts : timeserie) (reference : string) :
  _build_unified_packets ts reference = mapM (package_entry reference) ts.
Proof.
  unfold _build_unified_packets. rewrite package_entries_mapM.
  destruct (mapM _ ts); reflexivity.
Qed.

(** ** Dicts *)

Section DictFacts.
Context {V : Type}.
Implicit Types (d pairs : list (string * V)) (k : string) (v : V).

Lemma dict_get_set_eq k v d : dict_get k (dict_set k v d) = Some v.
Proof.
  induction d as [|[k' v'] d IH]; cbn.
  - now rewrite String.eqb_refl.
  - destruct (String.eqb k k') eqn:E; cbn.
    + now rewrite String.eqb_refl.
    + now rewrite E.
Qed.

Lemma dict_get_set_ne k k' v d :
  k <> k' -> dict_get k' (dict_set k v d) = dict_get k' d.
Proof.
  intros Hne. induction d as [|[k0 v0] d IH]; cbn.
  - destruct (String.eqb_spec k' k); [congruence | reflexivity].
  - destruct (String.eqb_spec k k0) as [->|Hk]; cbn.
    + destruct (String.eqb_spec k' k0); [congruence | reflexivity].
    + destruct (String.eqb_spec k' k0); [reflexivity | assumption].
Qed.

Lemma keys_dict_set_in k v d :
  In k (keys d) -> keys (dict_set k v d) = keys d.
Proof.
  unfold keys. induction d as [|[k0 v0] d IH]; cbn; [tauto|].
  intros Hin. destruct (String.eqb_spec k k0) as [->|Hk]; cbn; [reflexivity|].
  f_equal. apply IH. destruct Hin; [congruence | assumption].
Qed.

Lemma dict_set_fresh k v d :
  ~ In k (keys d) -> dict_set k v d = d ++ [(k, v)].
Proof.
  unfold keys. induction d as [|[k0 v0] d IH]; cbn; [reflexivity|].
  intros Hin. destruct (String.eqb_spec k k0) as [->|Hk]; [tauto|].
  f_equal. apply IH. tauto.
Qed.

(** Pairs with distinct keys make the dict that lists them. *)
Lemma dict_merge_fresh d pairs :
  NoDup (keys d ++ keys pairs) -> dict_merge d pairs = d ++ pairs.
Proof.
  unfold dict_merge. revert d.
  induction pairs as [|[k v] pairs IH]; intros d Hnd; cbn.
  - now rewrite app_nil_r.
  - cbn in Hnd. rewrite dict_set_fresh.
    + rewrite IH.
      * now rewrite <- app_assoc.
      * unfold keys in *. rewrite map_app. cbn. now rewrite <- app_assoc.
    + apply NoDup_app in Hnd as (_ & Hd & _).
      intros Hin. apply (Hd k).
      * now apply list_elem_of_In.
      * left.
Qed.

Lemma dict_of_pairs_NoDup pairs :
  NoDup (keys pairs) -> dict_of_pairs pairs = pairs.
Proof. intros H. unfold dict_of_pairs. now rewrite dict_merge_fresh. Qed.
End DictFacts.

(** ** Floats *)

Lemma b64_mul_comm (x y : float) : b64_mul x y = b64_mul y x.
Proof.
  unfold b64_mul, SFmul.
  destruct x as [sx|sx| |sx mx ex], y as [sy|sy| |sy my ey];
    try reflexivity; rewrite ?(xorb_comm sx sy); try reflexivity.
  now rewrite (Pos.mul_comm mx my), (Z.add_comm ex ey).
Qed.

(** [==] on floats holds between a float and itself, except for NaN. *)
Lemma b64_eqb_refl (x : float) : x <> S754_nan -> b64_eqb x x = true.
Proof.
  unfold b64_eqb, SFeqb, SFcompare. destruct x as [s|s| |s m e]; intros H.
  - reflexivity.
  - now destruct s.
  - congruence.
  - destruct s; rewrite Z.compare_refl;
      change (Pos.compare_cont Eq m m) with (Pos.compare m m);
      now rewrite Pos.compare_refl.
Qed.

(** ** Electrification *)

Lemma timestamp_of_Some (e : dict) (d : datetime) :
  timestamp_of e = Some d <-> dict_get "tsISO8601" e = Some (VDatetime d).
Proof.
  unfold timestamp_of. destruct (dict_get "tsISO8601" e) as [[]|]; split; congruence.
Qed.

Lemma electrify_entry_float (e : dict) (t : pyval) (f : float) :
  dict_get "tsISO8601" e = Some t -> dict_get "value" e = Some (VFloat f) ->
  electrify_entry e =
  Ok [("tsISO8601", t); ("pC_1", VFloat f);
      ("aP_1", VFloat (b64_mul f (b64_of_Z 6)))].
Proof.
  intros Ht Hv. unfold electrify_entry, getitem. now rewrite Ht, Hv.
Qed.

Lemma electrify_entry_null (e : dict) (t : pyval) :
  dict_get "tsISO8601" e = Some t -> null_valued e ->
  electrify_entry e = Raise TypeError.
Proof.
  unfold null_valued. intros Ht Hv. unfold electrify_entry, getitem.
  now rewrite Ht, Hv.
Qed.

(** On records with a timestamp and a float [value], [_electrify] is the
    [map] of the three-field record. *)
Lemma electrify_floats_Ok (ts : timeserie) :
  Forall (fun e => (exists t, dict_get "tsISO8601" e = Some t) /\ float_valued e) ts ->
  exists out,
    _electrify ts = Ok out /\
    Forall2 (fun e r => exists t f,
      dict_get "tsISO8601" e = Some t /\ dict_get "value" e = Some (VFloat f) /\
      r = [("tsISO8601", t); ("pC_1", VFloat f);
           ("aP_1", VFloat (b64_mul f (b64_of_Z 6)))]) ts out.
Proof.
  intros Hts.
  exists (map (fun e => match electrify_entry e with Ok r => r | Raise _ => [] end) ts).
  assert (Hall : Forall2 (fun e r => exists t f,
            dict_get "tsISO8601" e = Some t /\ dict_get "value" e = Some (VFloat f) /\
            r = [("tsISO8601", t); ("pC_1", VFloat f);
                 ("aP_1", VFloat (b64_mul f (b64_of_Z 6)))])
            ts (map (fun e => match electrify_entry e with Ok r => r | Raise _ => [] end) ts)).
  { induction Hts as [|e ts [[t Ht] [f Hf]] _ IH]; cbn; constructor; [|exact IH].
    exists t, f. rewrite (electrify_entry_float e t f Ht Hf). auto. }
  split; [|exact Hall].
  apply mapM_Ok. eapply Forall2_impl; [exact Hall|].
  cbn. intros e r (t & f & Ht & Hf & ->). now apply electrify_entry_float.
Qed.

(** C4: on records that carry a timestamp and a float [value],
    [_electrify] returns one record per input record, in the same order;
    the record at each position has exactly the fields [tsISO8601] (the
    timestamp of the input record), [pC_1] (its value) and [aP_1] (that
    value times 6, which is also 6 times [pC_1], and compares equal to it
    with the float [==] whenever it is a number). *)
Theorem electrify_fields (ts : timeserie) :
  Forall (fun e => (exists t, dict_get "tsISO8601" e = Some t) /\ float_valued e) ts ->
  exists out,
    _electrify ts = Ok out /\ length out = length ts /\
    forall (i : nat) (e : dict), ts !! i = Some e ->
      exists t f,
        dict_get "tsISO8601" e = Some t /\ dict_get "value" e = Some (VFloat f) /\
        out !! i = Some [("tsISO8601", t); ("pC_1", VFloat f);
                         ("aP_1", VFloat (b64_mul f (b64_of_Z 6)))] /\
        b64_mul f (b64_of_Z 6) = b64_mul (b64_of_Z 6) f /\
        (b64_mul f (b64_of_Z 6) <> S754_nan ->
         b64_eqb (b64_mul f (b64_of_Z 6)) (b64_mul (b64_of_Z 6) f) = true).
Proof.
  intros Hts. destruct (electrify_floats_Ok ts Hts) as (out & Hout & Hall).
  exists out. split; [exact Hout|]. split.
  - symmetry. exact (Forall2_length _ _ _ Hall).
  - intros i e Hi.
    destruct (Forall2_lookup_l _ _ _ _ _ Hall Hi) as (r & Hr & t & f & Ht & Hf & ->).
    exists t, f. repeat split; try assumption.
    + apply b64_mul_comm.
    + intros Hnan. rewrite (b64_mul_comm (b64_of_Z 6) f). now apply b64_eqb_refl.
Qed.

Lemma electrify_fields_witness :
  exists out,
    _electrify
      [[("tsISO8601", VDatetime (mkdatetime 2020 1 1 10 0 0 0));
        ("value", VFloat (b64_of_Z 2))]] = Ok out /\
    length out = 1%nat.
Proof.
  destruct (electrify_fields
              [[("tsISO8601", VDatetime (mkdatetime 2020 1 1 10 0 0 0));
                ("value", VFloat (b64_of_Z 2))]]) as (out & Hout & Hlen & _).
  - repeat constructor.
    + eexists. reflexivity.
    + eexists. reflexivity.
  - exists out. split; [exact Hout | exact Hlen].
Defined.

(** C10: on records of the single-value parser (a timestamp, and a
    [value] that is a float or [None]) [_electrify] returns a result when
    every value is a float, and raises [TypeError] as soon as one value is
    [None]; [build_unified_packets] with [fake_electric] set then raises
    too and emits no packet. *)
Theorem electrify_defined_on_floats (ts : timeserie) :
  Forall single_value_record ts ->
  (Forall float_valued ts ->
     exists out, _electrify ts = Ok out /\ length out = length ts) /\
  (Exists null_valued ts ->
     _electrify ts = Raise TypeError /\
     forall reference,
       build_unified_packets (mkTimeserieProcessor ts true None) reference
       = Raise TypeError).
Proof.
  intros Hrec. split.
  - intros Hfl.
    destruct (electrify_floats_Ok ts) as (out & Hout & Hall).
    + rewrite Forall_forall in *. intros e He. split.
      * destruct (Hrec e He) as [[d Hd] _]. apply timestamp_of_Some in Hd. eauto.
      * now apply Hfl.
    + exists out. split; [exact Hout|]. symmetry. exact (Forall2_length _ _ _ Hall).
  - intros Hex.
    assert (H : _electrify ts = Raise TypeError).
    { unfold _electrify.
      induction Hrec as [|e ts [[d Hd] Hv] _ IH]; [inversion Hex|].
      apply timestamp_of_Some in Hd. cbn [mapM].
      destruct Hv as [[f Hf]|Hnull].
      - rewrite (electrify_entry_float e _ f Hd Hf), bind_Ok.
        rewrite IH; [reflexivity|].
        inversion Hex as [? ? Hn|]; subst; [|assumption].
        unfold null_valued in Hn. congruence.
      - now rewrite (electrify_entry_null e _ Hd Hnull). }
    split; [exact H|]. intros reference.
    unfold build_unified_packets.
    cbn [_timeserie _minutes_shift _fake_electric]. now rewrite bind_Ok, H.
Qed.

Lemma electrify_defined_on_floats_witness :
  _electrify
    [[("tsISO8601", VDatetime (mkdatetime 2020 1 1 10 0 0 0)); ("value", VNone)]]
  = Raise TypeError.
Proof.
  apply (electrify_defined_on_floats
           [[("tsISO8601", VDatetime (mkdatetime 2020 1 1 10 0 0 0));
             ("value", VNone)]]).
  - constructor; [|constructor].
    split; [eexists; reflexivity | right; reflexivity].
  - apply Exists_cons_hd. reflexivity.
Defined.

(** ** Padding and shift *)

(** C8: with a shift configured and fewer than two records,
    [build_unified_packets] raises [IndexError] and returns no packet,
    whatever the other option and the channel reference are. *)
Theorem shift_needs_two_records (ts : timeserie) (fake_electric : bool)
    (minutes : Z) (reference : string) :
  (length ts < 2)%nat ->
  build_unified_packets (mkTimeserieProcessor ts fake_electric (Some minutes))
    reference = Raise IndexError.
Proof.
  intros Hlen. destruct ts as [|e0 [|e1 rest]]; cbn in Hlen; try lia; reflexivity.
Qed.

Lemma shift_needs_two_records_witness :
  build_unified_packets
    (mkTimeserieProcessor
       [[("tsISO8601", VDatetime (mkdatetime 2020 1 1 10 0 0 0));
         ("value", VFloat (b64_of_Z 2))]] false (Some 15)) "abc123"
  = Raise IndexError.
Proof.
  apply shift_needs_two_records. cbn. lia.
Defined.

(** What [_prepend_padding_value] returns on two records or more: the
    padding entry, then every record with its shifted timestamp.  The
    padding entry is the first record with, under [value], the second
    record itself. *)
Lemma prepend_padding_value_Ok (e0 e1 : dict) (rest shifted : timeserie)
    (minutes : Z) :
  mapM (shift_entry minutes) (e0 :: e1 :: rest) = Ok shifted ->
  _prepend_padding_value (e0 :: e1 :: rest) minutes =
  Ok (dict_merge e0 [("value", VDict e1)] :: shifted).
Proof.
  intros H. unfold _prepend_padding_value. cbn [lookup list_lookup or_raise].
  rewrite !bind_Ok, shift_entries_mapM, H. reflexivity.
Qed.

Lemma shift_entry_Ok (minutes : Z) (e : dict) (d : datetime) :
  timestamp_of e = Some d ->
  shift_entry minutes e =
  (delta ← timedelta_of_minutes minutes;
   d' ← datetime_add d delta;
   Ok (dict_set "tsISO8601" (VDatetime d') e)).
Proof.
  intros Hd. apply timestamp_of_Some in Hd. unfold shift_entry, getitem.
  rewrite Hd. cbn [or_raise]. rewrite bind_Ok.
  destruct (timedelta_of_minutes minutes) as [delta|]; [|reflexivity].
  rewrite !bind_Ok. cbn [py_add_timedelta].
  destruct (datetime_add d delta); reflexivity.
Qed.

Lemma padding_entry_timestamp (e0 e1 : dict) :
  dict_get "tsISO8601" (dict_merge e0 [("value", VDict e1)]) =
  dict_get "tsISO8601" e0.
Proof. cbn. now apply dict_get_set_ne. Qed.

Lemma padding_entry_value (e0 e1 : dict) :
  dict_get "value" (dict_merge e0 [("value", VDict e1)]) = Some (VDict e1).
Proof. cbn. apply dict_get_set_eq. Qed.

(** ** The calendar *)

Ltac zdiv := Z.div_mod_to_equations.

(** Leap years and days before a year, for a year split into cycles of
    400, 100, 4 and 1 years as [_ord2ymd] splits it. *)
Lemma is_leap_years (q c f y1 : Z) :
  0 <= c <= 3 -> 0 <= f <= 24 -> 0 <= y1 <= 3 ->
  _is_leap (q * 400 + 1 + c * 100 + f * 4 + y1)
  = (y1 =? 3) && (negb (f =? 24) || (c =? 3)).
Proof.
  intros Hc Hf Hy. unfold _is_leap.
  set (y := q * 400 + 1 + c * 100 + f * 4 + y1).
  assert (H4 : y mod 4 = (y1 + 1) mod 4) by (unfold y; zdiv; lia).
  assert (H100 : y mod 100 = (f * 4 + y1 + 1) mod 100) by (unfold y; zdiv; lia).
  assert (H400 : y mod 400 = (c * 100 + f * 4 + y1 + 1) mod 400) by (unfold y; zdiv; lia).
  rewrite H4, H100, H400.
  destruct (Z.eqb_spec y1 3), (Z.eqb_spec f 24), (Z.eqb_spec c 3); cbn;
    repeat match goal with
    | |- context [?a mod ?b =? 0] => destruct (Z.eqb_spec (a mod b) 0)
    end; cbn; try reflexivity; exfalso; zdiv; lia.
Qed.

Lemma days_before_year_split (q c f y1 : Z) :
  0 <= c <= 3 -> 0 <= f <= 24 -> 0 <= y1 <= 3 ->
  _days_before_year (q * 400 + 1 + c * 100 + f * 4 + y1)
  = q * 146097 + c * 36524 + f * 1461 + y1 * 365.
Proof.
  intros Hc Hf Hy. unfold _days_before_year. zdiv. lia.
Qed.

Lemma month_day_checked :
  forallb (month_day_ok true) days_of_year && forallb (month_day_ok false) days_of_year
  = true.
Proof. vm_compute. reflexivity. Qed.

Lemma month_day_spec (leapyear : bool) (n : Z) :
  0 <= n <= 364 -> month_day_ok leapyear n = true.
Proof.
  intros Hn.
  assert (Hin : In n days_of_year).
  { unfold days_of_year. apply in_map_iff. exists (Z.to_nat n). split; [lia|].
    apply in_seq. lia. }
  pose proof month_day_checked as H. apply andb_true_iff in H as [Ht Hf].
  rewrite forallb_forall in Ht, Hf. destruct leapyear; auto.
Qed.

Lemma ord2ymd_unfold (n : Z) :
  _ord2ymd n =
  let n0 := n - 1 in
  let q := n0 / 146097 in
  let c := (n0 mod 146097) / 36524 in
  let f := ((n0 mod 146097) mod 36524) / 1461 in
  let y1 := (((n0 mod 146097) mod 36524) mod 1461) / 365 in
  let r := (((n0 mod 146097) mod 36524) mod 1461) mod 365 in
  let y := q * 400 + 1 + c * 100 + f * 4 + y1 in
  if (y1 =? 4) || (c =? 4) then (y - 1, 12, 31)
  else
    let '(m, d) := month_day ((y1 =? 3) && (negb (f =? 24) || (c =? 3))) r in
    (y, m, d).
Proof.
  unfold _ord2ymd, month_day, _DI400Y, _DI100Y, _DI4Y. cbv zeta.
  destruct ((_ =? 4) || (_ =? 4)); [reflexivity|].
  destruct (_ <? _); reflexivity.
Qed.

(** [_ord2ymd] inverts [_ymd2ord]: the date it finds for an ordinal is a
    date of the calendar and has that ordinal; up to [_MAXORDINAL] its
    year is one a datetime can hold. *)
Lemma ord2ymd_spec (n : Z) :
  1 <= n ->
  let '(y, m, d) := _ord2ymd n in
  _ymd2ord y m d = n /\ 1 <= m <= 12 /\ 1 <= d <= _days_in_month y m /\
  (n <= _MAXORDINAL -> 1 <= y <= 9999).
Proof.
  intros Hn. rewrite ord2ymd_unfold. cbv zeta. unfold _MAXORDINAL.
  set (n0 := n - 1).
  set (q := n0 / 146097). set (r400 := n0 mod 146097).
  set (c := r400 / 36524). set (r100 := r400 mod 36524).
  set (f := r100 / 1461). set (r4 := r100 mod 1461).
  set (y1 := r4 / 365). set (r := r4 mod 365).
  assert (H0 : 0 <= n0 /\ n = n0 + 1) by (unfold n0; lia).
  assert (Hr400 : n0 = q * 146097 + r400 /\ 0 <= r400 < 146097)
    by (unfold q, r400; zdiv; lia).
  assert (Hr100 : r400 = c * 36524 + r100 /\ 0 <= r100 < 36524)
    by (unfold c, r100; zdiv; lia).
  assert (Hr4 : r100 = f * 1461 + r4 /\ 0 <= r4 < 1461)
    by (unfold f, r4; zdiv; lia).
  assert (Hr : r4 = y1 * 365 + r /\ 0 <= r < 365)
    by (unfold y1, r; zdiv; lia).
  clearbody n0 q r400 c r100 f r4 y1 r.
  assert (Hq : 0 <= q) by lia.
  assert (Hc : 0 <= c <= 4) by lia.
  assert (Hf : 0 <= f <= 24) by lia.
  assert (Hy1 : 0 <= y1 <= 4) by lia.
  destruct (Z.eqb_spec y1 4) as [E1|E1]; [|destruct (Z.eqb_spec c 4) as [Ec|Ec]]; cbn [orb].
  - assert (c <= 3 /\ f <= 23) as [? ?] by lia.
    replace (q * 400 + 1 + c * 100 + f * 4 + y1 - 1)
      with (q * 400 + 1 + c * 100 + f * 4 + 3) by lia.
    unfold _ymd2ord, _days_before_month, _days_in_month.
    rewrite days_before_year_split, is_leap_years by lia.
    destruct (Z.eqb_spec f 24); [lia|]. cbn. lia.
  - replace (q * 400 + 1 + c * 100 + f * 4 + y1 - 1)
      with (q * 400 + 1 + 3 * 100 + 24 * 4 + 3) by lia.
    unfold _ymd2ord, _days_before_month, _days_in_month.
    rewrite days_before_year_split, is_leap_years by lia. cbn. lia.
  - assert (Hmd := month_day_spec ((y1 =? 3) && (negb (f =? 24) || (c =? 3))) r
                     ltac:(lia)).
    unfold month_day_ok in Hmd.
    destruct (month_day _ r) as [m d].
    rewrite !andb_true_iff in Hmd. destruct Hmd as [[[[Hm1 Hm2] Hd1] Hd2] Hsum].
    apply Z.eqb_eq in Hsum. apply Z.leb_le in Hm1, Hm2, Hd1, Hd2.
    unfold _ymd2ord, _days_before_month, _days_in_month.
    rewrite days_before_year_split, is_leap_years by lia.
    split; [lia|]. split; [lia|]. split; [|lia].
    destruct (Z.eqb_spec m 2) as [->|]; cbn [andb] in *; [|lia].
    destruct ((y1 =? 3) && _); cbn in *; lia.
Qed.

Lemma new_timedelta_total (D S U : Z) (t : timedelta) :
  new_timedelta D S U = Ok t ->
  td_total t = (D * 86400 + S) * 1000000 + U /\
  0 <= td_seconds t < 86400 /\ 0 <= td_microseconds t < 1000000.
Proof.
  unfold new_timedelta, td_total. destruct (_ <? _); [discriminate|].
  intros [= <-]. cbn. zdiv. lia.
Qed.

(** Adding a timedelta moves a datetime by the length of the timedelta
    on the time line, and gives a datetime of the calendar. *)
Theorem datetime_add_timeline (d d' : datetime) (delta : timedelta) :
  datetime_add d delta = Ok d' ->
  timeline d' = timeline d + td_total delta /\ valid_datetime d' = true.
Proof.
  unfold datetime_add. intros H.
  inv_bind H. rename a into t1. inv_bind H. rename a into t2.
  apply new_timedelta_total in Ha as (Ht1 & _ & _).
  apply new_timedelta_total in Ha0 as (Ht2 & Hs & Hus).
  destruct ((0 <? td_days t2) && (td_days t2 <=? _MAXORDINAL)) eqn:Hrange;
    [|discriminate].
  apply andb_true_iff in Hrange as [Hlo Hhi].
  apply Z.ltb_lt in Hlo. apply Z.leb_le in Hhi.
  pose proof (ord2ymd_spec (td_days t2) ltac:(lia)) as Hord.
  destruct (_ord2ymd (td_days t2)) as [[y m] dd].
  destruct Hord as (Hrt & Hm & Hd & Hy). specialize (Hy Hhi).
  apply Ok_inj in H. subst d'. split.
  - unfold timeline, toordinal. cbn [year month day hour minute second microsecond].
    rewrite Hrt. unfold td_total in *. unfold timeline, toordinal in *.
    zdiv. lia.
  - unfold valid_datetime. cbn [year month day hour minute second microsecond].
    repeat (apply andb_true_iff; split); apply Z.leb_le; try lia; zdiv; lia.
Qed.

Lemma timedelta_of_minutes_total (minutes : Z) (delta : timedelta) :
  timedelta_of_minutes minutes = Ok delta -> td_total delta = minutes * 60000000.
Proof.
  unfold timedelta_of_minutes. intros H.
  apply new_timedelta_total in H as (H & _). lia.
Qed.

(** A shifted record holds the same keys; its timestamp is the point
    [minutes] minutes later on the time line, and a datetime again. *)
Lemma shift_entry_timeline (minutes : Z) (e e' : dict) (d : datetime) :
  timestamp_of e = Some d -> shift_entry minutes e = Ok e' ->
  exists d',
    e' = dict_set "tsISO8601" (VDatetime d') e /\
    timestamp_of e' = Some d' /\ valid_datetime d' = true /\
    timeline d' = timeline d + minutes * 60000000.
Proof.
  intros Hd He. rewrite (shift_entry_Ok minutes e d Hd) in He.
  inv_bind He. rename a into delta. inv_bind He. rename a into d'.
  apply Ok_inj in He. subst e'. exists d'.
  apply datetime_add_timeline in Ha0 as [Hline Hvalid].
  apply timedelta_of_minutes_total in Ha.
  split; [reflexivity|]. split; [|split; [exact Hvalid | lia]].
  apply timestamp_of_Some, dict_get_set_eq.
Qed.

(** ** Packaging *)

Lemma range_check (P : Z -> bool) (lo hi : Z) :
  0 <= lo ->
  forallb P (map Z.of_nat (seq (Z.to_nat lo) (Z.to_nat (hi - lo + 1)))) = true ->
  forall z, lo <= z <= hi -> P z = true.
Proof.
  intros Hlo H z Hz. rewrite forallb_forall in H. apply H.
  apply in_map_iff. exists (Z.to_nat z). split; [lia|]. apply in_seq. lia.
Qed.

(** From 1000 on a year has its four digits. *)
Lemma decimal_four_digits (y : Z) : 1000 <= y <= 9999 -> decimal y = zfill4 y.
Proof.
  intros Hy. apply String.eqb_eq. revert y Hy.
  apply (range_check (fun y => String.eqb (decimal y) (zfill4 y)) 1000 9999);
    [lia|].
  vm_compute. reflexivity.
Qed.

(** The text of a packet's timestamp: the specification's, but for the
    year, which is written with no padding. *)
Lemma strftime_packet_format (d : datetime) :
  strftime d packet_format
  = (decimal (year d) ++ substring 4 25 (spec_tsISO8601 d))%string.
Proof. reflexivity. Qed.

Lemma strftime_packet_format_four (d : datetime) :
  1000 <= year d <= 9999 -> strftime d packet_format = spec_tsISO8601 d.
Proof.
  intros Hy. rewrite strftime_packet_format, (decimal_four_digits _ Hy).
  reflexivity.
Qed.





(** C1: on the two sample records with a shift of 15 minutes,
    [_prepend_padding_value] returns three records; the timestamps are
    those of the claim (the first record's own, then both shifted by 15
    minutes), but the [value] of the padding record is the second record
    as a whole, not the second record's [value].  Downstream the padding
    record cannot be used: electrification raises [TypeError] on it, and
    without electrification [send] raises [TypeError] when it serialises
    the first packet, before any POST. *)
Theorem padding_value_is_second_record :
  _prepend_padding_value [sample_first; sample_second] 15 =
    Ok [ [("tsISO8601", VDatetime (mkdatetime 2020 1 1 10 0 0 0));
          ("value", VDict sample_second)];
         [("tsISO8601", VDatetime (mkdatetime 2020 1 1 10 15 0 0));
          ("value", VFloat (b64_of_Z 3))];
         [("tsISO8601", VDatetime (mkdatetime 2020 1 1 10 30 0 0));
          ("value", VFloat (b64_of_Z 4))] ] /\
  dict_get "value" sample_second = Some (VFloat (b64_of_Z 4)) /\
  build_unified_packets
    (mkTimeserieProcessor [sample_first; sample_second] true (Some 15)) "abc123"
    = Raise TypeError /\
  forall float_repr json_string session_post url credentials,
  exists packets,
    build_unified_packets
      (mkTimeserieProcessor [sample_first; sample_second] false (Some 15)) "abc123"
      = Ok packets /\
    send float_repr json_string session_post url packets credentials
    = (Raise TypeError, [Logged INFO (Message "Starting the swarm")]).
Proof.
  split; [reflexivity|]. split; [reflexivity|]. split; [reflexivity|].
  intros float_repr json_string session_post url credentials.
  eexists. split; [reflexivity|]. reflexivity.
Qed.

(** ** Status classes *)

Lemma response_level_on_status_codes :
  forallb (fun s =>
    match response_level s with
    | DEBUG => s =? 200
    | WARNING => s =? 300
    | ERROR => negb (s =? 200) && negb (s =? 300)
    | _ => false
    end) status_codes = true.
Proof. vm_compute. reflexivity. Qed.

(** On three-digit status codes the level is [DEBUG] for 200 alone and
    [WARNING] for 300 alone: the class is a float, equal to 2 or 3 only
    when the status is a multiple of 100. *)
Lemma response_level_three_digits (s : Z) :
  100 <= s <= 999 ->
  response_level s =
  if s =? 200 then DEBUG else if s =? 300 then WARNING else ERROR.
Proof.
  intros Hs.
  assert (Hin : In s status_codes).
  { unfold status_codes. apply in_map_iff. exists (Z.to_nat s). split; [lia|].
    apply in_seq. lia. }
  pose proof response_level_on_status_codes as H.
  rewrite forallb_forall in H. specialize (H s Hin).
  revert H.
  destruct (response_level s); destruct (Z.eqb_spec s 200); destruct (Z.eqb_spec s 300);
    cbn; intros H; try reflexivity; try discriminate; lia.
Qed.

(** C2: a response with status 204, of class 2, is logged at error level:
    the class the loop compares with 2 is the float 2.04.  The whole
    session of one packet answered with 204 is spelled out. *)
Theorem status_204_logged_as_error :
  response_level 204 = ERROR /\ expected_level 204 = DEBUG /\
  forall float_repr json_string url credentials,
  exists payload,
    json_dumps float_repr json_string (VDict [("id", VStr "abc123")]) = Ok payload /\
    send float_repr json_string
      (fun _ _ _ => Responded (mkresponse 204 "")) url
      [[("id", VStr "abc123")]] credentials =
    (Ok tt,
     [Logged INFO (Message "Starting the swarm");
      Posted url payload credentials;
      Logged ERROR (Outcome 204 [("id", VStr "abc123")] "");
      Logged INFO (Message "Completed")]).
Proof.
  split; [vm_compute; reflexivity|]. split; [reflexivity|].
  intros float_repr json_string url credentials.
  eexists. split; reflexivity.
Qed.

(** ** CSV parsers *)

Section CsvFacts.
Variable py_float : string -> option float.
Variable strptime : string -> option datetime.

Lemma single_value_rows_mapM (rows : list (list string)) (ts : timeserie) :
  single_value_rows py_float strptime rows ts =
  (l ← mapM (single_value_row py_float strptime) rows; Ok (ts ++ l)).
Proof.
  revert ts. induction rows as [|row rest IH]; intros ts.
  - cbn. now rewrite app_nil_r.
  - cbn [single_value_rows mapM].
    destruct row as [|timestamp [|value [|]]]; try reflexivity.
    cbn [single_value_row].
    destruct (strptime timestamp) as [d|]; [|reflexivity].
    cbn [or_raise]. rewrite !bind_Ok, IH.
    destruct (mapM _ rest) as [l|]; [|reflexivity].
    cbn. now rewrite <- app_assoc.
Qed.

Lemma electricity_rows_mapM (rows : list (list string)) (ts : timeserie) :
  electricity_rows py_float strptime rows ts =
  (l ← mapM (electricity_row py_float strptime) rows; Ok (ts ++ l)).
Proof.
  revert ts. induction rows as [|row rest IH]; intros ts.
  - cbn. now rewrite app_nil_r.
  - cbn [electricity_rows mapM].
    destruct row as [|timestamp values]; [reflexivity|].
    cbn [electricity_row].
    destruct (strptime timestamp) as [d|]; [|reflexivity].
    cbn [or_raise]. rewrite !bind_Ok, IH.
    destruct (mapM _ rest) as [l|]; [|reflexivity].
    cbn. now rewrite <- app_assoc.
Qed.

(** C6: when every row has two columns, the first of which is a
    timestamp in the format, [parse_single_value_csv] returns one record
    per row, in file order; the record of a row holds the parsed
    timestamp and, under [value], the float of the second column, or
    [None] when that column is no float.  Nothing is asked of the second
    column: it never makes the parser fail. *)
Theorem parse_single_value_records (rows : list (list string)) :
  Forall (fun row => length row = 2%nat) rows ->
  Forall (fun row => exists t d, head row = Some t /\ strptime t = Some d) rows ->
  exists ts,
    parse_single_value_csv py_float strptime rows = Ok ts /\
    length ts = length rows /\
    forall (i : nat) (t v : string), rows !! i = Some [t; v] ->
      exists d,
        strptime t = Some d /\
        ts !! i = Some [("tsISO8601", VDatetime d);
                        ("value", match py_float v with
                                  | Some f => VFloat f
                                  | None => VNone
                                  end)].
Proof.
  intros Hlen Hts.
  assert (Hall : Forall2 (fun row e => single_value_row py_float strptime row = Ok e)
            rows (map (fun row => match single_value_row py_float strptime row with
                                  | Ok e => e | Raise _ => [] end) rows)).
  { induction Hlen as [|row rows Hrow _ IH]; cbn; constructor.
    - apply Forall_inv in Hts. destruct Hts as (t & d & Ht & Hd).
      destruct row as [|t' [|v [|]]]; try discriminate.
      injection Ht as ->. cbn. now rewrite Hd.
    - apply IH. now apply Forall_inv_tail in Hts. }
  eexists. split; [|split].
  - unfold parse_single_value_csv. rewrite single_value_rows_mapM.
    apply mapM_Ok in Hall. rewrite Hall. cbn. reflexivity.
  - now rewrite length_map.
  - intros i t v Hi.
    destruct (Forall2_lookup_l _ _ _ _ _ Hall Hi) as (e & He & Hrow).
    cbn in Hrow. destruct (strptime t) as [d|]; [|discriminate].
    injection Hrow as <-. exists d. split; [reflexivity | exact He].
Qed.

(** The records of the single-value parser hold a datetime and a value
    that is a float or [None]. *)
Lemma parse_single_value_shape (rows : list (list string)) (ts : timeserie) :
  parse_single_value_csv py_float strptime rows = Ok ts ->
  Forall single_value_record ts.
Proof.
  unfold parse_single_value_csv. rewrite single_value_rows_mapM. intros H.
  inv_bind H. apply Ok_inj in H. cbn in H. subst ts.
  apply mapM_Ok in Ha. induction Ha as [|row e rows ts Hrow _ IH]; constructor;
    [|exact IH].
  destruct row as [|t [|v [|]]]; try discriminate. cbn in Hrow.
  destruct (strptime t) as [d|]; [|discriminate]. apply Ok_inj in Hrow. subst e.
  split; [exists d; reflexivity|]. unfold float_valued, null_valued, safe_string_to_float.
  cbn. destruct (py_float v); eauto.
Qed.

(** The keys of a dict zipped from keys and values are the keys that
    found a value. *)
Lemma keys_zip {V} (ks : list string) (vs : list V) :
  keys (zip ks vs) = take (length vs) ks.
Proof.
  unfold keys. revert vs. induction ks as [|k ks IH]; intros [|v vs]; cbn;
    try reflexivity. now rewrite IH.
Qed.

Lemma electricity_keys_NoDup : NoDup ("tsISO8601" :: ELECTRICITY_KEYS).
Proof. apply (bool_decide_unpack _). vm_compute. reflexivity. Qed.

Lemma electricity_row_Ok (t : string) (values : list string) (d : datetime) :
  strptime t = Some d ->
  electricity_row py_float strptime (t :: values) =
  Ok (zip ("tsISO8601" :: ELECTRICITY_KEYS)
          (VDatetime d :: map (safe_string_to_float py_float) values)).
Proof.
  intros Hd. cbn [electricity_row]. rewrite Hd. cbn [or_raise].
  rewrite bind_Ok, dict_of_pairs_NoDup; [reflexivity|].
  rewrite keys_zip. eapply sublist_NoDup; [|apply sublist_take].
  apply electricity_keys_NoDup.
Qed.

(** C3, as amended: a row whose first column is a timestamp in the
    format is accepted whatever the number of its value columns; its
    record pairs [tsISO8601] and the fixed keys with the timestamp and
    the values, position by position, as far as both go.  With 21
    value columns (or more) the keys of the record are the 21 fixed keys
    after [tsISO8601]; with [k] value columns they are the first [k] of
    them. *)
Theorem parse_electricity_records (rows : list (list string)) :
  Forall (fun row => exists t d, head row = Some t /\ strptime t = Some d) rows ->
  exists ts,
    parse_electricity_csv py_float strptime rows = Ok ts /\
    length ts = length rows /\
    forall (i : nat) (t : string) (values : list string),
      rows !! i = Some (t :: values) ->
      exists d e,
        strptime t = Some d /\ ts !! i = Some e /\
        e = zip ("tsISO8601" :: ELECTRICITY_KEYS)
                (VDatetime d :: map (safe_string_to_float py_float) values) /\
        keys e = "tsISO8601" :: take (length values) ELECTRICITY_KEYS /\
        ((21 <= length values)%nat -> keys e = "tsISO8601" :: ELECTRICITY_KEYS).
Proof.
  intros Hts.
  assert (Hall : Forall2 (fun row e => electricity_row py_float strptime row = Ok e)
            rows (map (fun row => match electricity_row py_float strptime row with
                                  | Ok e => e | Raise _ => [] end) rows)).
  { induction Hts as [|row rows (t & d & Ht & Hd) _ IH]; cbn [map]; constructor;
      [|exact IH].
    destruct row as [|t' values]; [discriminate|]. injection Ht as ->.
    now rewrite (electricity_row_Ok t values d Hd). }
  eexists. split; [|split].
  - unfold parse_electricity_csv. rewrite electricity_rows_mapM.
    apply mapM_Ok in Hall. rewrite Hall. cbn. reflexivity.
  - now rewrite length_map.
  - intros i t values Hi.
    destruct (Forall2_lookup_l _ _ _ _ _ Hall Hi) as (e & He & Hrow).
    destruct (strptime t) as [d|] eqn:Hd.
    + rewrite (electricity_row_Ok t values d Hd) in Hrow.
      apply Ok_inj in Hrow. subst e.
      exists d. eexists. split; [reflexivity|]. split; [exact He|].
      split; [reflexivity|]. rewrite keys_zip, length_cons, length_map.
      split; [reflexivity|]. intros Hge. cbn [take]. f_equal.
      apply take_ge. cbn. lia.
    + cbn in Hrow. rewrite Hd in Hrow. discriminate.
Qed.

(** A row without any column is refused. *)
Lemma parse_electricity_empty_row (rows1 rows2 : list (list string)) :
  Forall (fun row => is_ok (electricity_row py_float strptime row) = true) rows1 ->
  parse_electricity_csv py_float strptime (rows1 ++ [] :: rows2) = Raise ValueError.
Proof.
  intros H. unfold parse_electricity_csv. rewrite electricity_rows_mapM.
  rewrite (mapM_Raise _ rows1 rows2 [] ValueError H); reflexivity.
Qed.
End CsvFacts.

Lemma parse_single_value_records_witness :
  exists ts,
    parse_single_value_csv float_literal strptime_ascii
      [["2020-01-01 10:00:00"; "12.5"]; ["2020-01-01 10:15:00"; "n/a"]] = Ok ts /\
    length ts = 2%nat.
Proof.
  destruct (parse_single_value_records float_literal strptime_ascii
              [["2020-01-01 10:00:00"; "12.5"]; ["2020-01-01 10:15:00"; "n/a"]])
    as (ts & Hts & Hlen & _).
  - repeat constructor.
  - constructor; [|constructor; [|constructor]].
    + eexists. eexists. split; [reflexivity | vm_compute; reflexivity].
    + eexists. eexists. split; [reflexivity | vm_compute; reflexivity].
  - exists ts. split; [exact Hts | exact Hlen].
Defined.

(** A row with a single value column, where the claim asks for 21, is
    accepted, and its record has two keys instead of 22. *)
Lemma short_electricity_row_accepted :
  (length ["2020-01-01 10:00:00"; "1.0"] - 1 <> 21)%nat /\
  exists e,
    parse_electricity_csv float_literal strptime_ascii
      [["2020-01-01 10:00:00"; "1.0"]] = Ok [e] /\
    keys e = ["tsISO8601"; "aP_1"] /\
    keys e <> "tsISO8601" :: ELECTRICITY_KEYS.
Proof.
  split; [cbn; lia|].
  eexists. split; [vm_compute; reflexivity|]. split; [reflexivity | discriminate].
Qed.

Lemma parse_electricity_records_witness :
  exists ts,
    parse_electricity_csv float_literal strptime_ascii
      [["2020-01-01 10:00:00"; "1.0"; "2.0"]] = Ok ts /\
    length ts = 1%nat.
Proof.
  destruct (parse_electricity_records float_literal strptime_ascii
              [["2020-01-01 10:00:00"; "1.0"; "2.0"]])
    as (ts & Hts & Hlen & _).
  - constructor; [|constructor].
    eexists. eexists. split; [reflexivity | vm_compute; reflexivity].
  - exists ts. split; [exact Hts | exact Hlen].
Defined.

(** The two examples of the specification, from the rows of the file to
    the packets. *)
Example fake_channel_packet :
  (ts ← parse_single_value_csv float_literal strptime_ascii
          [["2020-01-01 10:00:00"; "12.5"]];
   build_unified_packets (mkTimeserieProcessor ts true None) "abc123")
  = Ok [[("tsISO8601", VStr "2020-01-01T10:00:00.000+00:00");
         ("pC_1", literal_value "12.5");
         ("aP_1", literal_value "75.0");
         ("id", VStr "abc123")]].
Proof. vm_compute. reflexivity. Qed.

Example shifted_rows_count :
  (ts ← parse_single_value_csv float_literal strptime_ascii
          [["2020-01-01 10:00:00"; "1.5"]; ["2020-01-01 10:15:00"; "2.5"]];
   packets ← build_unified_packets (mkTimeserieProcessor ts false (Some 15)) "abc123";
   Ok (map (dict_get "tsISO8601") packets))
  = Ok [Some (VStr "2020-01-01T10:00:00.000+00:00");
        Some (VStr "2020-01-01T10:15:00.000+00:00");
        Some (VStr "2020-01-01T10:30:00.000+00:00")].
Proof. vm_compute. reflexivity. Qed.

(** ** Uploader *)

Section UploaderFacts.
Variable float_repr : float -> string.
Variable json_string : string -> string.
Variable session_post : nat -> string -> string -> post_outcome.

Lemma json_dumps_scalar (v : pyval) :
  scalar v -> exists s, json_dumps float_repr json_string v = Ok s.
Proof. destruct v; cbn; intros H; try contradiction; eauto. Qed.

(** A unified packet always serialises. *)
Lemma json_dumps_unified_packet (p : dict) :
  unified_packet p ->
  exists payload, json_dumps float_repr json_string (VDict p) = Ok payload.
Proof.
  intros Hp. cbn [json_dumps].
  assert (H : forall first, exists body,
    (fix members (items : list (string * pyval)) (first : bool) : result string :=
       match items with
       | [] => Ok ""
       | (k, v) :: rest =>
           s ← json_dumps float_repr json_string v;
           r ← members rest false;
           Ok ((if first then "" else ", ") ++ json_string k ++ ": " ++ s ++ r)%string
       end) p first = Ok body).
  { induction Hp as [|[k v] p Hv _ IH]; intros first; [eauto|].
    destruct (json_dumps_scalar v Hv) as [s Hs]. destruct (IH false) as [r Hr].
    rewrite Hs, bind_Ok, Hr, bind_Ok. eauto. }
  destruct (H true) as [body Hbody]. rewrite Hbody. cbn. eauto.
Qed.

(** The loop, for packets that serialise: every packet is POSTed and its
    outcome logged, whatever the outcomes are. *)
Lemma send_loop_trace (url : string) (credentials : string * string)
    (packets : list dict) (payloads : list string) :
  Forall2 (fun p s => json_dumps float_repr json_string (VDict p) = Ok s)
    packets payloads ->
  forall (n : nat) (trace : list event),
    send_loop float_repr json_string session_post url credentials n packets trace
    = (Ok tt, trace ++ session_events session_post url credentials n
                        (zip packets payloads)).
Proof.
  induction 1 as [|p s packets payloads Hp _ IH]; intros n trace.
  - cbn. now rewrite app_nil_r.
  - cbn [send_loop zip zip_with session_events]. rewrite Hp.
    destruct (session_post n url s) as [r|exception];
      rewrite IH, <- !app_assoc; reflexivity.
Qed.

Lemma posted_app (t1 t2 : list event) : posted (t1 ++ t2) = posted t1 ++ posted t2.
Proof. apply omap_app. Qed.

Lemma posted_session_events (url : string) (credentials : string * string)
    (n : nat) (packets : list (dict * string)) :
  posted (session_events session_post url credentials n packets) = map snd packets.
Proof.
  revert n. induction packets as [|[p s] packets IH]; intros n; [reflexivity|].
  cbn [session_events map snd]. unfold posted in *. cbn [omap].
  destruct (session_post n url s); cbn; now rewrite IH.
Qed.

Lemma critical_in_session_events (url : string) (credentials : string * string)
    (packets : list (dict * string)) (i : nat) (p : dict) (s exception : string) :
  forall n, packets !! i = Some (p, s) ->
  session_post (n + i) url s = RequestException exception ->
  In (Logged CRITICAL (Failure exception))
     (session_events session_post url credentials n packets).
Proof.
  revert i. induction packets as [|[p' s'] packets IH]; intros i n Hi Hpost.
  - discriminate.
  - destruct i as [|i]; cbn [session_events].
    + injection Hi as -> ->. rewrite Nat.add_0_r in Hpost. rewrite Hpost.
      right. left. reflexivity.
    + right. right. apply (IH i (S n)); [exact Hi|].
      now replace (S n + i)%nat with (n + S i)%nat by lia.
Qed.

(** C5: for unified packets and any behaviour of the network, [send]
    runs to its end: the payloads POSTed are, in order, the
    serialisations of the packets, one POST per packet, and the trace
    ends with the completion message.  A POST that raises a
    [RequestException] leaves a line at critical level and nothing
    else: the packets after it are POSTed all the same. *)
Theorem send_survives_transport_failures (url : string)
    (packets : list dict) (credentials : string * string) :
  Forall unified_packet packets ->
  exists payloads trace,
    Forall2 (fun p s => json_dumps float_repr json_string (VDict p) = Ok s)
      packets payloads /\
    send float_repr json_string session_post url packets credentials
    = (Ok tt, trace) /\
    posted trace = payloads /\
    last trace = Some (Logged INFO (Message "Completed")) /\
    forall (i : nat) (s exception : string),
      payloads !! i = Some s ->
      session_post i url s = RequestException exception ->
      In (Logged CRITICAL (Failure exception)) trace.
Proof.
  intros Hp.
  assert (Hpay : exists payloads,
    Forall2 (fun p s => json_dumps float_repr json_string (VDict p) = Ok s)
      packets payloads).
  { induction Hp as [|p packets Hp _ [payloads IH]]; [exists []; constructor|].
    destruct (json_dumps_unified_packet p Hp) as [s Hs].
    exists (s :: payloads). now constructor. }
  destruct Hpay as [payloads Hpay]. exists payloads. eexists.
  split; [exact Hpay|]. split; [|split; [|split]].
  - unfold send. rewrite (send_loop_trace url credentials packets payloads Hpay).
    reflexivity.
  - rewrite !posted_app, posted_session_events. cbn. rewrite app_nil_r.
    apply snd_zip.
    apply Forall2_length in Hpay. lia.
  - apply last_snoc.
  - intros i s exception Hi Hpost.
    apply in_or_app. left. right.
    destruct (packets !! i) as [p|] eqn:Hpi.
    + apply (critical_in_session_events url credentials _ i p s exception 0);
        [|exact Hpost].
      apply lookup_zip_with_Some. eauto.
    + apply lookup_ge_None in Hpi. apply lookup_lt_Some in Hi.
      apply Forall2_length in Hpay. lia.
Qed.
End UploaderFacts.

Lemma send_survives_transport_failures_witness :
  exists payloads trace,
    send zero_repr quoted flaky_network "https://collector.example/in"
      [[("id", VStr "abc123"); ("value", VNone)];
       [("id", VStr "abc123"); ("value", VStr "x")]] ("user", "secret")
    = (Ok tt, trace) /\
    posted trace = payloads /\ length payloads = 2%nat.
Proof.
  destruct (send_survives_transport_failures zero_repr quoted flaky_network
              "https://collector.example/in"
              [[("id", VStr "abc123"); ("value", VNone)];
               [("id", VStr "abc123"); ("value", VStr "x")]] ("user", "secret"))
    as (payloads & trace & Hpay & Hsend & Hposted & _).
  - repeat constructor.
  - exists payloads, trace. split; [exact Hsend|]. split; [exact Hposted|].
    apply Forall2_length in Hpay. cbn in Hpay. lia.
Defined.

(** ** The store: what the processor leaves untouched *)

Section Frame.
Import Heap.
Variable h0 : heap.

Lemma keeps_ret {A} (a : A) (Q : A -> Prop) : Q a -> keeps h0 (ret a) Q.
Proof. intros Ha h Hh. cbn. split; [assumption|]. now intros ? [= <-]. Qed.

Lemma keeps_lift {A} (r : result A) : keeps h0 (lift r) (fun _ => True).
Proof. intros h Hh. cbn. split; auto. Qed.

Lemma keeps_weaken {A} (m : M A) (P Q : A -> Prop) :
  keeps h0 m P -> (forall a, P a -> Q a) -> keeps h0 m Q.
Proof. intros Hm HPQ h Hh. destruct (Hm h Hh) as [H1 H2]. split; eauto. Qed.

Lemma keeps_bind {A B} (m : M A) (f : A -> M B) (P : A -> Prop) (Q : B -> Prop) :
  keeps h0 m P -> (forall a, P a -> keeps h0 (f a) Q) -> keeps h0 (bind m f) Q.
Proof.
  intros Hm Hf h Hh. destruct (Hm h Hh) as [H1 H2]. unfold bind.
  destruct (m h) as [[a|e] h']; cbn in *.
  - apply (Hf a); auto.
  - split; [assumption | discriminate].
Qed.

Lemma keeps_read_dict (v : hval) : keeps h0 (read_dict v) (fun _ => True).
Proof.
  intros h Hh. unfold read_dict.
  destruct v; cbn; try (split; [assumption | auto]).
  destruct (h !! l) as [[]|]; cbn; split; auto.
Qed.

Lemma keeps_read_list (v : hval) : keeps h0 (read_list v) (fun _ => True).
Proof.
  intros h Hh. unfold read_list.
  destruct v; cbn; try (split; [assumption | auto]).
  destruct (h !! l) as [[]|]; cbn; split; auto.
Qed.

Lemma keeps_alloc (o : obj) : keeps h0 (alloc o) (fresh h0).
Proof.
  intros h Hh. unfold alloc. cbn. split.
  - now apply prefix_app_r.
  - intros a [= <-]. exists (length h). split; [reflexivity|].
    now apply prefix_length.
Qed.

(** [append] on a list allocated after [h0] leaves [h0] alone. *)
Lemma keeps_list_append (lst x : hval) :
  fresh h0 lst -> keeps h0 (list_append lst x) (fun _ => True).
Proof.
  intros (l & -> & Hl) h Hh. unfold list_append.
  destruct (h !! l) as [[|items]|]; cbn; split; auto.
  destruct Hh as [k ->]. rewrite insert_app_r_alt by assumption.
  now apply prefix_app_r.
Qed.

Lemma keeps_for_each (fuel : nat) (lst : hval) (body : hval -> M unit) :
  (forall x, keeps h0 (body x) (fun _ => True)) ->
  forall i, keeps h0 (for_each fuel lst i body) (fun _ => True).
Proof.
  intros Hbody. induction fuel as [|fuel IH]; intros i; cbn [for_each].
  - apply keeps_lift.
  - eapply keeps_bind; [apply keeps_read_list|]. intros items _.
    destruct (items !! i) as [x|]; [|now apply keeps_ret].
    eapply keeps_bind; [apply Hbody|]. intros _ _. apply IH.
Qed.

Lemma keeps_mul_int (v : hval) (n : Z) : keeps h0 (mul_int v n) (fun _ => True).
Proof.
  destruct v; cbn [mul_int]; try apply keeps_lift; try now apply keeps_ret.
  intros h Hh. destruct (h !! l) as [[|items]|]; cbn; split; auto.
  now apply prefix_app_r.
Qed.

Lemma keeps_shift_body (minutes : Z) (shifted_timeserie entry : hval) :
  fresh h0 shifted_timeserie ->
  keeps h0 (shift_body minutes shifted_timeserie entry) (fun _ => True).
Proof.
  intros Hfresh. unfold shift_body.
  eapply keeps_bind; [apply keeps_read_dict|]; intros entry_items _.
  eapply keeps_bind; [apply keeps_lift|]; intros t _.
  eapply keeps_bind; [apply keeps_lift|]; intros delta _.
  eapply keeps_bind; [apply keeps_lift|]; intros t' _.
  eapply keeps_bind; [apply keeps_read_dict|]; intros entry_items' _.
  eapply keeps_bind; [apply keeps_alloc|]; intros shifted _.
  now apply keeps_list_append.
Qed.

Lemma keeps_electrify_body (electrified entry : hval) :
  fresh h0 electrified -> keeps h0 (electrify_body electrified entry) (fun _ => True).
Proof.
  intros Hfresh. unfold electrify_body.
  eapply keeps_bind; [apply keeps_read_dict|]; intros entry_items _.
  eapply keeps_bind; [apply keeps_lift|]; intros t _.
  eapply keeps_bind; [apply keeps_lift|]; intros pc _.
  eapply keeps_bind; [apply keeps_lift|]; intros v _.
  eapply keeps_bind; [apply keeps_mul_int|]; intros ap _.
  eapply keeps_bind; [apply keeps_alloc|]; intros e _.
  now apply keeps_list_append.
Qed.

Lemma keeps_package_body (reference : string) (packets entry : hval) :
  fresh h0 packets -> keeps h0 (package_body reference packets entry) (fun _ => True).
Proof.
  intros Hfresh. unfold package_body.
  eapply keeps_bind; [apply keeps_read_dict|]; intros entry_items _.
  eapply keeps_bind; [apply keeps_lift|]; intros t _.
  eapply keeps_bind; [apply keeps_lift|]; intros stamp _.
  eapply keeps_bind; [apply keeps_alloc|]; intros packet _.
  now apply keeps_list_append.
Qed.

Lemma keeps_prepend_padding_value (fuel : nat) (timeserie : hval) (minutes : Z) :
  keeps h0 (_prepend_padding_value fuel timeserie minutes) (fun _ => True).
Proof.
  unfold _prepend_padding_value, index.
  eapply keeps_bind; [apply keeps_read_list|]; intros items _.
  eapply keeps_bind; [apply keeps_lift|]; intros first _.
  eapply keeps_bind; [apply keeps_read_dict|]; intros first_items _.
  eapply keeps_bind; [apply keeps_read_list|]; intros items' _.
  eapply keeps_bind; [apply keeps_lift|]; intros second _.
  eapply keeps_bind; [apply keeps_alloc|]; intros padding_entry _.
  eapply keeps_bind; [apply keeps_alloc|]; intros shifted_timeserie Hfresh.
  eapply keeps_bind; [|intros _ _; now apply keeps_ret].
  apply keeps_for_each. intros entry. now apply keeps_shift_body.
Qed.

Lemma keeps_electrify (fuel : nat) (timeserie : hval) :
  keeps h0 (_electrify fuel timeserie) (fun _ => True).
Proof.
  unfold _electrify.
  eapply keeps_bind; [apply keeps_alloc|]; intros electrified Hfresh.
  eapply keeps_bind; [|intros _ _; now apply keeps_ret].
  apply keeps_for_each. intros entry. now apply keeps_electrify_body.
Qed.

Lemma keeps_build_packets (fuel : nat) (timeserie : hval) (reference : string) :
  keeps h0 (_build_unified_packets fuel timeserie reference) (fun _ => True).
Proof.
  unfold _build_unified_packets.
  eapply keeps_bind; [apply keeps_alloc|]; intros packets Hfresh.
  eapply keeps_bind; [|intros _ _; now apply keeps_ret].
  apply keeps_for_each. intros entry. now apply keeps_package_body.
Qed.

Lemma keeps_build_unified_packets (fuel : nat) (self : TimeserieProcessor)
    (reference : string) :
  keeps h0 (build_unified_packets fuel self reference) (fun _ => True).
Proof.
  unfold build_unified_packets.
  eapply keeps_bind with (P := fun _ => True).
  - destruct (_minutes_shift self);
      [apply keeps_prepend_padding_value | now apply keeps_ret].
  - intros ts _. eapply keeps_bind with (P := fun _ => True).
    + destruct (_fake_electric self); [apply keeps_electrify | now apply keeps_ret].
    + intros ts' _. apply keeps_build_packets.
Qed.
End Frame.

(** C9: whatever the store, the wrapped list, the two options, the
    reference and the number of loop steps allowed, every object of the
    store at the call is the same object after it, whether the call
    returns or raises: the list given to the processor and its records
    are among them.  The steps write to the lists and dicts they allocate
    themselves only. *)
Theorem build_unified_packets_keeps_input (fuel : nat)
    (self : Heap.TimeserieProcessor) (reference : string) (h : Heap.heap) :
  forall (l : Heap.loc) (o : Heap.obj),
    h !! l = Some o ->
    snd (Heap.build_unified_packets fuel self reference h) !! l = Some o.
Proof.
  intros l o Hl.
  destruct (keeps_build_unified_packets h fuel self reference h) as [Hpre _];
    [reflexivity|].
  destruct Hpre as [k ->]. now apply lookup_app_l_Some.
Qed.

Lemma build_unified_packets_keeps_input_witness :
  snd (Heap.build_unified_packets 4
         (Heap.mkTimeserieProcessor (Heap.HRef 2%nat) false (Some 15)) "abc123"
         sample_store) !! 2%nat
  = Some (Heap.OList [Heap.HRef 0%nat; Heap.HRef 1%nat]).
Proof.
  apply (build_unified_packets_keeps_input 4
           (Heap.mkTimeserieProcessor (Heap.HRef 2%nat) false (Some 15)) "abc123"
           sample_store 2%nat).
  reflexivity.
Defined.

(** ** The store: it computes what the values compute *)

Section Agreement.
Abbreviation value_prepend_padding_value := _prepend_padding_value.
Abbreviation value_electrify := _electrify.
Abbreviation value_build_unified_packets_ := _build_unified_packets.
Abbreviation value_build_unified_packets := build_unified_packets.
Abbreviation value_mkTimeserieProcessor := mkTimeserieProcessor.
Abbreviation value_timeserie := _timeserie.
Abbreviation value_fake_electric := _fake_electric.
Abbreviation value_minutes_shift := _minutes_shift.
Import Heap.

Lemma dicts_kept_refl (h : heap) : dicts_kept h h.
Proof. intros l items H. exact H. Qed.

Lemma dicts_kept_trans (h1 h2 h3 : heap) :
  dicts_kept h1 h2 -> dicts_kept h2 h3 -> dicts_kept h1 h3.
Proof. intros H12 H23 l items H. apply H23, H12, H. Qed.

Lemma flat_val_rel (h : heap) (v : hval) (pv : pyval) :
  flat_rel v pv -> val_rel h v pv.
Proof. unfold flat_rel. destruct v; cbn; intros H; try exact H. discriminate. Qed.

Lemma val_rel_kept (h h' : heap) (v : hval) (pv : pyval) :
  dicts_kept h h' -> val_rel h v pv -> val_rel h' v pv.
Proof.
  intros Hk. destruct v; cbn; try tauto.
  intros (items & d & Hl & Hd & ->). exists items, d. auto.
Qed.

Lemma items_rel_impl (R R' : hval -> pyval -> Prop) items d :
  (forall v pv, R v pv -> R' v pv) -> items_rel R items d -> items_rel R' items d.
Proof.
  intros HR H. eapply Forall2_impl; [exact H|]. cbn. intros ? ? [? ?]. auto.
Qed.

Lemma record_rel_kept (h h' : heap) (v : hval) (d : dict) :
  dicts_kept h h' -> record_rel (val_rel h) h v d -> record_rel (val_rel h') h' v d.
Proof.
  intros Hk (l & items & -> & Hl & Hd). exists l, items.
  split; [reflexivity|]. split; [auto|].
  eapply items_rel_impl; [|exact Hd]. intros ? ?. now apply val_rel_kept.
Qed.

Lemma flat_record_rel (h : heap) (v : hval) (d : dict) :
  record_rel flat_rel h v d -> record_rel (val_rel h) h v d.
Proof.
  intros (l & items & -> & Hl & Hd). exists l, items.
  split; [reflexivity|]. split; [auto|].
  eapply items_rel_impl; [|exact Hd]. intros ? ?. apply flat_val_rel.
Qed.

(** Dict operations on related items. *)
Lemma items_rel_get (R : hval -> pyval -> Prop) items d (k : string) :
  items_rel R items d ->
  match dict_get k items, dict_get k d with
  | Some v, Some pv => R v pv
  | None, None => True
  | _, _ => False
  end.
Proof.
  induction 1 as [|[k1 v1] [k2 v2] items d [Hk Hv] _ IH]; cbn in *; [exact I|].
  subst k2. destruct (String.eqb k k1); [exact Hv | exact IH].
Qed.

Lemma items_rel_set (R : hval -> pyval -> Prop) items d (k : string) v pv :
  items_rel R items d -> R v pv -> items_rel R (dict_set k v items) (dict_set k pv d).
Proof.
  intros H Hv. induction H as [|[k1 v1] [k2 v2] items d [Hk Hv1] Ht IH]; cbn in *.
  - constructor; [split; [reflexivity | exact Hv] | constructor].
  - subst k2. destruct (String.eqb k k1).
    + constructor; [split; [reflexivity | exact Hv] | exact Ht].
    + constructor; [split; [reflexivity | exact Hv1] | exact IH].
Qed.

Lemma shift_items_agree (h : heap) (minutes : Z) items d :
  items_rel (val_rel h) items d ->
  match shift_entry minutes d with
  | Ok d' => exists items', hshift_items minutes items = Ok items' /\
                            items_rel (val_rel h) items' d'
  | Raise e => hshift_items minutes items = Raise e
  end.
Proof.
  intros Hd. unfold shift_entry, hshift_items, getitem.
  pose proof (items_rel_get _ _ _ "tsISO8601" Hd) as Hget.
  destruct (dict_get "tsISO8601" items) as [t|], (dict_get "tsISO8601" d) as [pt|];
    try contradiction; cbn [or_raise]; [|reflexivity].
  rewrite !bind_Ok.
  destruct (timedelta_of_minutes minutes) as [delta|]; [|reflexivity].
  rewrite !bind_Ok.
  destruct t; cbn in Hget.
  - injection Hget as <-. reflexivity.
  - injection Hget as <-. reflexivity.
  - injection Hget as <-. cbn [py_add_timedelta add_timedelta].
    destruct (datetime_add d0 delta) as [d'|]; [|reflexivity].
    rewrite !bind_Ok. eexists. split; [reflexivity|].
    cbn. apply items_rel_set; [exact Hd | reflexivity].
  - injection Hget as <-. reflexivity.
  - destruct Hget as (its & dd & _ & _ & ->). reflexivity.
Qed.

Lemma emit_spec (h : heap) (out : loc) (acc : list hval) items :
  h !! out = Some (OList acc) ->
  exists h',
    emit out items h = (Ok tt, h') /\
    dicts_kept h h' /\
    (forall l xs, l <> out -> h !! l = Some (OList xs) -> h' !! l = Some (OList xs)) /\
    h' !! out = Some (OList (acc ++ [HRef (length h)])) /\
    h' !! length h = Some (ODict items).
Proof.
  intros Hout. pose proof (lookup_lt_Some _ _ _ Hout) as Hlt.
  unfold emit, bind, alloc, list_append.
  rewrite (lookup_app_l_Some _ _ _ _ Hout).
  eexists. split; [reflexivity|]. repeat split.
  - intros l its Hl.
    assert (l <> out) by (intros ->; congruence).
    rewrite list_lookup_insert_ne by auto. now apply lookup_app_l_Some.
  - intros l xs Hne Hl.
    rewrite list_lookup_insert_ne by auto. now apply lookup_app_l_Some.
  - apply list_lookup_insert_eq. rewrite length_app. cbn. lia.
  - rewrite list_lookup_insert_ne by lia.
    rewrite lookup_app_r by lia. now rewrite Nat.sub_diag.
Qed.

Section Loop.
Variable body : hval -> M unit.
Variable pbody : dict -> result dict.
Variable out : loc.
Hypothesis body_step : forall (h : heap) (x : hval) (d : dict) (acc : list hval),
  record_rel (val_rel h) h x d -> h !! out = Some (OList acc) ->
  match pbody d with
  | Ok r =>
      exists h' new,
        body x h = (Ok tt, h') /\ dicts_kept h h' /\
        (forall l xs, l <> out -> h !! l = Some (OList xs) -> h' !! l = Some (OList xs)) /\
        h' !! out = Some (OList (acc ++ [new])) /\
        record_rel (val_rel h') h' new r
  | Raise e => exists h', body x h = (Raise e, h')
  end.

Lemma for_each_agree (lst : loc) (xs : list hval) (ts : timeserie) :
  lst <> out ->
  forall (fuel i : nat) (h : heap) (acc : list hval) (pacc : list dict),
    h !! lst = Some (OList xs) ->
    Forall2 (record_rel (val_rel h) h) (drop i xs) ts ->
    (length ts < fuel)%nat ->
    h !! out = Some (OList acc) ->
    Forall2 (record_rel (val_rel h) h) acc pacc ->
    match mapM pbody ts with
    | Ok rs =>
        exists h' acc',
          for_each fuel (HRef lst) i body h = (Ok tt, h') /\ dicts_kept h h' /\
          h' !! out = Some (OList acc') /\
          Forall2 (record_rel (val_rel h') h') acc' (pacc ++ rs)
    | Raise e => exists h', for_each fuel (HRef lst) i body h = (Raise e, h')
    end.
Proof.
  intros Hne. induction ts as [|d ts IH]; intros fuel i h acc pacc Hlst Hrel Hfuel Hout Hacc.
  - destruct fuel as [|fuel]; [cbn in Hfuel; lia|].
    cbn [mapM mret result_ret]. exists h, acc.
    apply Forall2_nil_inv_r in Hrel. apply drop_nil_inv in Hrel. 
    split; [|split; [apply dicts_kept_refl | split; [exact Hout | now rewrite app_nil_r]]].
    cbn [for_each]. unfold bind, read_list. rewrite Hlst.
    rewrite (lookup_ge_None_2 _ _ Hrel). reflexivity.
  - destruct fuel as [|fuel]; [cbn in Hfuel; lia|].
    apply Forall2_cons_inv_r in Hrel as (x & rest & Hx & Hrest & Hdrop).
    assert (Hxi : xs !! i = Some x).
    { rewrite <- (Nat.add_0_r i), <- lookup_drop, Hdrop. reflexivity. }
    assert (Hdrop' : drop (S i) xs = rest).
    { replace (S i) with (i + 1)%nat by lia. rewrite <- drop_drop, Hdrop. reflexivity. }
    assert (Hunfold : for_each (S fuel) (HRef lst) i body h =
              let (r0, h1) := body x h in
              match r0 with
              | Ok _ => for_each fuel (HRef lst) (S i) body h1
              | Raise e => (Raise e, h1)
              end).
    { cbn [for_each]. unfold bind, read_list. rewrite Hlst, Hxi. reflexivity. }
    rewrite Hunfold. clear Hunfold. cbn [mapM].
    pose proof (body_step h x d acc Hx Hout) as Hstep.
    destruct (pbody d) as [r|e].
    + destruct Hstep as (h1 & new & Hbody & Hk & Hlists & Hout1 & Hnew).
      rewrite Hbody, bind_Ok.
      assert (Hrest1 : Forall2 (record_rel (val_rel h1) h1) (drop (S i) xs) ts).
      { rewrite Hdrop'. eapply Forall2_impl; [exact Hrest|].
        intros ? ?. now apply record_rel_kept. }
      assert (Hacc1 : Forall2 (record_rel (val_rel h1) h1) (acc ++ [new]) (pacc ++ [r])).
      { apply Forall2_app; [|now constructor].
        eapply Forall2_impl; [exact Hacc|]. intros ? ?. now apply record_rel_kept. }
      specialize (IH fuel (S i) h1 (acc ++ [new]) (pacc ++ [r])
                    (Hlists lst xs Hne Hlst) Hrest1 ltac:(cbn in Hfuel; lia) Hout1 Hacc1).
      destruct (mapM pbody ts) as [rs|e].
      * destruct IH as (h' & acc' & Hfor & Hk' & Hout' & Hacc').
        exists h', acc'. cbn. rewrite <- app_assoc in Hacc'.
        split; [exact Hfor|]. split; [now apply (dicts_kept_trans h h1 h')|].
        split; [exact Hout' | exact Hacc'].
      * cbn. exact IH.
    + destruct Hstep as (h1 & Hbody). rewrite Hbody.
      exists h1. reflexivity.
Qed.
End Loop.

Section BodyOf.
Variable f : list (string * hval) -> result (list (string * hval)).
Variable pbody : dict -> result dict.
Variable out : loc.
Hypothesis f_agree : forall (h : heap) items d,
  items_rel (val_rel h) items d ->
  match pbody d with
  | Ok d' => exists items', f items = Ok items' /\ items_rel (val_rel h) items' d'
  | Raise e => f items = Raise e
  end.

Lemma body_of_step (h : heap) (x : hval) (d : dict) (acc : list hval) :
  record_rel (val_rel h) h x d -> h !! out = Some (OList acc) ->
  match pbody d with
  | Ok r =>
      exists h' new,
        body_of f out x h = (Ok tt, h') /\ dicts_kept h h' /\
        (forall l xs, l <> out -> h !! l = Some (OList xs) -> h' !! l = Some (OList xs)) /\
        h' !! out = Some (OList (acc ++ [new])) /\
        record_rel (val_rel h') h' new r
  | Raise e => exists h', body_of f out x h = (Raise e, h')
  end.
Proof.
  intros (l & items & -> & Hl & Hd) Hout.
  pose proof (f_agree h items d Hd) as Hf.
  unfold body_of, bind, read_dict, lift. rewrite Hl.
  destruct (pbody d) as [r|e].
  - destruct Hf as (items' & Hf & Hr). rewrite Hf.
    destruct (emit_spec h out acc items' Hout) as (h' & Hemit & Hk & Hlists & Hout' & Hnew).
    exists h', (HRef (length h)). split; [exact Hemit|].
    split; [exact Hk|]. split; [exact Hlists|]. split; [exact Hout'|].
    exists (length h), items'. split; [reflexivity|]. split; [exact Hnew|].
    eapply items_rel_impl; [|exact Hr]. intros ? ?. now apply val_rel_kept.
  - rewrite Hf. exists h. reflexivity.
Qed.
End BodyOf.

Lemma package_items_agree (reference : string) (h : heap) items d :
  items_rel (val_rel h) items d ->
  match package_entry reference d with
  | Ok d' => exists items', hpackage_items reference items = Ok items' /\
                            items_rel (val_rel h) items' d'
  | Raise e => hpackage_items reference items = Raise e
  end.
Proof.
  intros Hd. unfold package_entry, hpackage_items, getitem.
  pose proof (items_rel_get _ _ _ "tsISO8601" Hd) as Hget.
  destruct (dict_get "tsISO8601" items) as [t|], (dict_get "tsISO8601" d) as [pt|];
    try contradiction; cbn [or_raise]; [|reflexivity].
  rewrite !bind_Ok.
  destruct t; cbn in Hget;
    try (injection Hget as <-; try reflexivity).
  - cbn [py_strftime hstrftime]. rewrite !bind_Ok. eexists. split; [reflexivity|].
    cbn. apply items_rel_set; [|reflexivity].
    apply items_rel_set; [exact Hd | reflexivity].
  - destruct Hget as (its & dd & _ & _ & ->). reflexivity.
Qed.

Lemma electrify_items_agree (h : heap) items d :
  items_rel (val_rel h) items d ->
  match electrify_entry d with
  | Ok d' => exists items', helectrify_items items = Ok items' /\
                            items_rel (val_rel h) items' d'
  | Raise e => helectrify_items items = Raise e
  end.
Proof.
  intros Hd. unfold electrify_entry, helectrify_items, getitem.
  pose proof (items_rel_get _ _ _ "tsISO8601" Hd) as Hts.
  pose proof (items_rel_get _ _ _ "value" Hd) as Hv.
  destruct (dict_get "tsISO8601" items) as [t|], (dict_get "tsISO8601" d) as [pt|];
    try contradiction; cbn [or_raise]; [|reflexivity].
  rewrite !bind_Ok.
  destruct (dict_get "value" items) as [v|], (dict_get "value" d) as [pv|];
    try contradiction; cbn [or_raise]; [|reflexivity].
  rewrite !bind_Ok.
  destruct v; cbn in Hv; try (injection Hv as <-; try reflexivity).
  - cbn. eexists. split; [reflexivity|].
    repeat (constructor; [split; [reflexivity|]|]); try constructor; try exact Hts; reflexivity.
  - cbn. eexists. split; [reflexivity|].
    repeat (constructor; [split; [reflexivity|]|]); try constructor; try exact Hts; reflexivity.
  - destruct Hv as (its & dd & _ & _ & ->). reflexivity.
Qed.

Lemma dicts_kept_app (h k : heap) : dicts_kept h (h ++ k).
Proof. intros l items Hl. now apply lookup_app_l_Some. Qed.

Lemma timeserie_rel_kept (h h' : heap) (xs : list hval) (ts : timeserie) :
  dicts_kept h h' ->
  Forall2 (record_rel (val_rel h) h) xs ts ->
  Forall2 (record_rel (val_rel h') h') xs ts.
Proof.
  intros Hk H. eapply Forall2_impl; [exact H|]. intros ? ?. now apply record_rel_kept.
Qed.

Lemma package_body_step (reference : string) (out : loc) :
  step_spec (package_body reference (HRef out)) (package_entry reference) out.
Proof.
  intros h x d acc Hx Hout.
  assert (Heq : package_body reference (HRef out) x h
                = body_of (hpackage_items reference) out x h).
  { unfold package_body, body_of, hpackage_items, bind, lift, emit.
    destruct (read_dict x h) as [[items|e] h3]; [|reflexivity].
    destruct (getitem items "tsISO8601") as [t|]; [|reflexivity].
    rewrite bind_Ok. destruct (hstrftime t packet_format); reflexivity. }
  rewrite Heq. apply (body_of_step _ (package_entry reference)); auto.
  intros. now apply package_items_agree.
Qed.

Lemma electrify_body_step (out : loc) :
  step_spec (electrify_body (HRef out)) electrify_entry out.
Proof.
  intros h x d acc Hx Hout.
  assert (Heq : electrify_body (HRef out) x h = body_of helectrify_items out x h).
  { destruct Hx as (l & items & -> & Hl & Hd).
    pose proof (items_rel_get _ _ _ "value" Hd) as Hv.
    unfold electrify_body, body_of, helectrify_items, bind, lift, emit, read_dict.
    rewrite Hl.
    destruct (getitem items "tsISO8601") as [t|]; [|reflexivity].
    unfold getitem. destruct (dict_get "value" items) as [v|]; [|reflexivity].
    cbn [or_raise]. rewrite !bind_Ok.
    destruct v; try reflexivity.
    destruct (dict_get "value" d) as [pv|]; [|contradiction].
    destruct Hv as (its & dd & Hl' & _ & _). cbn [mul_int hmul_int].
    rewrite Hl'. reflexivity. }
  rewrite Heq. apply (body_of_step _ electrify_entry); auto.
  intros. now apply electrify_items_agree.
Qed.

Lemma shift_body_step (minutes : Z) (out : loc) :
  step_spec (shift_body minutes (HRef out)) (shift_entry minutes) out.
Proof.
  intros h x d acc Hx Hout.
  assert (Heq : shift_body minutes (HRef out) x h
                = body_of (hshift_items minutes) out x h).
  { unfold shift_body, body_of, hshift_items, bind, lift, emit.
    destruct x; try reflexivity. unfold read_dict.
    destruct (h !! l) as [[items|]|] eqn:Hl; try reflexivity.
    destruct (getitem items "tsISO8601") as [t|]; [|reflexivity].
    rewrite bind_Ok.
    destruct (timedelta_of_minutes minutes) as [delta|]; [|reflexivity].
    rewrite bind_Ok. destruct (add_timedelta t delta); [|reflexivity].
    rewrite Hl. reflexivity. }
  rewrite Heq. apply (body_of_step _ (shift_entry minutes)); auto.
  intros. now apply shift_items_agree.
Qed.

(** A stage that allocates its list, [acc] at first, and fills it by a
    loop over the list at [lst]. *)
Lemma stage_agree (body : hval -> hval -> M unit) (pbody : dict -> result dict)
    (fuel : nat) (h : heap) (lst : loc) (xs acc : list hval)
    (ts pacc : timeserie) :
  (forall out, step_spec (body (HRef out)) pbody out) ->
  h !! lst = Some (OList xs) ->
  Forall2 (record_rel (val_rel h) h) xs ts ->
  Forall2 (record_rel (val_rel h) h) acc pacc ->
  (length ts < fuel)%nat ->
  match mapM pbody ts with
  | Ok rs =>
      exists out h',
        bind (alloc (OList acc)) (fun o =>
          bind (for_each fuel (HRef lst) 0 (body o)) (fun _ => ret o)) h
        = (Ok out, h') /\
        dicts_kept h h' /\ timeserie_rel (val_rel h') h' out (pacc ++ rs)
  | Raise e =>
      exists h',
        bind (alloc (OList acc)) (fun o =>
          bind (for_each fuel (HRef lst) 0 (body o)) (fun _ => ret o)) h
        = (Raise e, h')
  end.
Proof.
  intros Hstep Hlst Hrel Hacc Hfuel.
  set (out := length h). set (h1 := h ++ [OList acc]).
  assert (Hne : lst <> out).
  { apply lookup_lt_Some in Hlst. unfold out. lia. }
  assert (Hk1 : dicts_kept h h1) by apply dicts_kept_app.
  assert (Hout1 : h1 !! out = Some (OList acc)).
  { unfold h1, out. rewrite lookup_app_r by lia. now rewrite Nat.sub_diag. }
  pose proof (for_each_agree (body (HRef out)) pbody out (Hstep out) lst xs ts Hne
                fuel 0%nat h1 acc pacc (lookup_app_l_Some _ _ _ _ Hlst)
                (timeserie_rel_kept h h1 _ _ Hk1 Hrel) Hfuel Hout1
                (timeserie_rel_kept h h1 _ _ Hk1 Hacc)) as Hloop.
  assert (Hrun : bind (alloc (OList acc)) (fun o =>
            bind (for_each fuel (HRef lst) 0 (body o)) (fun _ => ret o)) h
          = let (r, h') := for_each fuel (HRef lst) 0 (body (HRef out)) h1 in
            match r with
            | Ok _ => (Ok (HRef out), h')
            | Raise e => (Raise e, h')
            end) by reflexivity.
  rewrite Hrun. clear Hrun.
  destruct (mapM pbody ts) as [rs|e].
  - destruct Hloop as (h' & acc' & Hfor & Hk & Hout' & Hacc').
    exists (HRef out), h'. rewrite Hfor.
    split; [reflexivity|]. split; [now apply (dicts_kept_trans h h1 h')|].
    exists out, acc'. auto.
  - destruct Hloop as (h' & Hfor). exists h'. rewrite Hfor. reflexivity.
Qed.

Lemma build_packets_agree (fuel : nat) (h : heap) (v : hval) (ts : timeserie)
    (reference : string) :
  timeserie_rel (val_rel h) h v ts -> (length ts < fuel)%nat ->
  match value_build_unified_packets_ ts reference with
  | Ok packets =>
      exists out h',
        _build_unified_packets fuel v reference h = (Ok out, h') /\
        dicts_kept h h' /\ timeserie_rel (val_rel h') h' out packets
  | Raise e => exists h', _build_unified_packets fuel v reference h = (Raise e, h')
  end.
Proof.
  intros (lst & xs & -> & Hlst & Hrel) Hfuel.
  rewrite build_unified_packets_mapM.
  exact (stage_agree (package_body reference) (package_entry reference)
           fuel h lst xs [] ts [] (package_body_step reference) Hlst Hrel
           ltac:(constructor) Hfuel).
Qed.

Lemma electrify_agree (fuel : nat) (h : heap) (v : hval) (ts : timeserie) :
  timeserie_rel (val_rel h) h v ts -> (length ts < fuel)%nat ->
  match value_electrify ts with
  | Ok ts' =>
      exists out h',
        _electrify fuel v h = (Ok out, h') /\
        dicts_kept h h' /\ timeserie_rel (val_rel h') h' out ts'
  | Raise e => exists h', _electrify fuel v h = (Raise e, h')
  end.
Proof.
  intros (lst & xs & -> & Hlst & Hrel) Hfuel.
  exact (stage_agree electrify_body electrify_entry
           fuel h lst xs [] ts [] electrify_body_step Hlst Hrel
           ltac:(constructor) Hfuel).
Qed.
Lemma prepend_padding_value_agree (fuel : nat) (h : heap) (v : hval)
    (ts : timeserie) (minutes : Z) :
  timeserie_rel flat_rel h v ts -> (length ts < fuel)%nat ->
  match value_prepend_padding_value ts minutes with
  | Ok ts' =>
      exists out h',
        _prepend_padding_value fuel v minutes h = (Ok out, h') /\
        dicts_kept h h' /\ timeserie_rel (val_rel h') h' out ts'
  | Raise e => exists h', _prepend_padding_value fuel v minutes h = (Raise e, h')
  end.
Proof.
  intros (lst & xs & -> & Hlst & Hrel) Hfuel.
  destruct Hrel as [|x0 e0 xs0 ts0 H0 Hrel].
  { exists h. unfold _prepend_padding_value, bind, read_list, index, lift.
    rewrite Hlst. reflexivity. }
  destruct H0 as (l0 & items0 & -> & Hl0 & Hitems0).
  destruct Hrel as [|x1 e1 xs1 ts1 H1 Hrel].
  { exists h. unfold _prepend_padding_value, bind, read_list, read_dict, index, lift.
    rewrite Hlst. cbn. rewrite Hl0, Hlst. reflexivity. }
  pose proof H1 as (l1 & items1 & -> & Hl1 & Hitems1).
  set (xs := HRef l0 :: HRef l1 :: xs1) in *.
  set (ts := e0 :: e1 :: ts1) in *.
  set (padding := dict_merge items0 [("value", HRef l1)]).
  set (h1 := h ++ [ODict padding]).
  assert (Hk1 : dicts_kept h h1) by apply dicts_kept_app.
  assert (Hrun : _prepend_padding_value fuel (HRef lst) minutes h =
            bind (alloc (OList [HRef (length h)])) (fun o =>
              bind (for_each fuel (HRef lst) 0 (shift_body minutes o))
                   (fun _ => ret o)) h1).
  { unfold _prepend_padding_value, read_list, read_dict, index, lift.
    unfold bind at 1. rewrite Hlst. unfold bind at 1. cbn [lookup list_lookup xs or_raise].
    unfold bind at 1. rewrite Hl0. unfold bind at 1. rewrite Hlst.
    unfold bind at 1. cbn [lookup list_lookup xs or_raise].
    unfold bind at 1. unfold alloc at 1. reflexivity. }
  rewrite Hrun. clear Hrun.
  assert (Hall : Forall2 (record_rel (val_rel h1) h1) xs ts).
  { apply (timeserie_rel_kept h h1); [exact Hk1|].
    assert (Hflat : Forall2 (record_rel flat_rel h) xs ts).
    { apply List.Forall2_cons; [exists l0, items0; auto|].
      apply List.Forall2_cons; assumption. }
    eapply Forall2_impl; [exact Hflat|].
    intros ? ?. apply flat_record_rel. }
  assert (Hpad : Forall2 (record_rel (val_rel h1) h1) [HRef (length h)]
                   [dict_merge e0 [("value", VDict e1)]]).
  { constructor; [|constructor]. exists (length h), padding.
    split; [reflexivity|]. split.
    - unfold h1. rewrite lookup_app_r by lia. now rewrite Nat.sub_diag.
    - unfold padding. cbn. apply items_rel_set.
      + eapply items_rel_impl; [|exact Hitems0]. intros ? ?. apply flat_val_rel.
      + exists items1, e1. split; [now apply Hk1 | auto]. }
  pose proof (stage_agree (shift_body minutes) (shift_entry minutes) fuel h1 lst xs
                [HRef (length h)] ts [dict_merge e0 [("value", VDict e1)]]
                (shift_body_step minutes) (lookup_app_l_Some _ _ _ _ Hlst)
                Hall Hpad Hfuel) as Hstage.
  unfold value_prepend_padding_value. cbn [lookup list_lookup ts or_raise].
  rewrite !bind_Ok, shift_entries_mapM.
  destruct (mapM (shift_entry minutes) ts) as [rs|e].
  - destruct Hstage as (out & h' & Hrun & Hk & Hts).
    exists out, h'. split; [exact Hrun|]. split; [|exact Hts].
    now apply (dicts_kept_trans h h1 h').
  - exact Hstage.
Qed.

Lemma mapM_length {A B} (f : A -> result B) (l : list A) (k : list B) :
  mapM f l = Ok k -> length k = length l.
Proof. intros H. apply mapM_Ok in H. symmetry. now apply Forall2_length in H. Qed.

Lemma timeserie_rel_flat (h : heap) (v : hval) (ts : timeserie) :
  timeserie_rel flat_rel h v ts -> timeserie_rel (val_rel h) h v ts.
Proof.
  intros (l & xs & -> & Hl & Hrel). exists l, xs. split; [reflexivity|].
  split; [exact Hl|]. eapply Forall2_impl; [exact Hrel|].
  intros ? ?. apply flat_record_rel.
Qed.

(** The processor on the store computes what the processor on values
    computes: when the wrapped list stands for the time series [ts], its
    records holding no references, and the loops are allowed one step more
    than the longest list they walk, the run on the store returns a list
    that stands for the packets of the run on values, or raises the same
    exception. *)
Theorem store_agrees_with_values (fuel : nat) (h : heap) (v : hval)
    (ts : timeserie) (fake_electric : bool) (minutes_shift : option Z)
    (reference : string) :
  timeserie_rel flat_rel h v ts -> (length ts + 1 < fuel)%nat ->
  match value_build_unified_packets
          (value_mkTimeserieProcessor ts fake_electric minutes_shift) reference with
  | Ok packets =>
      exists out h',
        build_unified_packets fuel
          (mkTimeserieProcessor v fake_electric minutes_shift) reference h
        = (Ok out, h') /\
        timeserie_rel (val_rel h') h' out packets
  | Raise e =>
      exists h',
        build_unified_packets fuel
          (mkTimeserieProcessor v fake_electric minutes_shift) reference h
        = (Raise e, h')
  end.
Proof.
  intros Hrel Hfuel.
  unfold value_build_unified_packets, build_unified_packets.
  cbn [value_timeserie value_fake_electric value_minutes_shift
       _timeserie _fake_electric _minutes_shift].
  (* the shift *)
  assert (H1 : match (match minutes_shift with
                      | Some minutes => value_prepend_padding_value ts minutes
                      | None => Ok ts
                      end) with
               | Ok ts1 =>
                   exists v1 h1,
                     (match minutes_shift with
                      | Some minutes => _prepend_padding_value fuel v minutes
                      | None => ret v
                      end) h = (Ok v1, h1) /\
                     timeserie_rel (val_rel h1) h1 v1 ts1 /\
                     (length ts1 < fuel)%nat
               | Raise e =>
                   exists h1,
                     (match minutes_shift with
                      | Some minutes => _prepend_padding_value fuel v minutes
                      | None => ret v
                      end) h = (Raise e, h1)
               end).
  { destruct minutes_shift as [minutes|].
    - pose proof (prepend_padding_value_agree fuel h v ts minutes Hrel
                    ltac:(lia)) as H.
      destruct (value_prepend_padding_value ts minutes) as [ts1|e] eqn:Hp;
        [|exact H].
      destruct H as (v1 & h1 & Hrun & _ & Hts1). exists v1, h1.
      split; [exact Hrun|]. split; [exact Hts1|].
      unfold value_prepend_padding_value in Hp.
      destruct ts as [|e0 [|e1 rest]]; try discriminate.
      cbn [lookup list_lookup or_raise] in Hp. rewrite !bind_Ok, shift_entries_mapM in Hp.
      destruct (mapM (shift_entry minutes) (e0 :: e1 :: rest)) as [l|] eqn:Hm;
        [|discriminate].
      apply Ok_inj in Hp. subst ts1. apply mapM_length in Hm.
      rewrite length_app, Hm. cbn in *. lia.
    - exists v, h. split; [reflexivity|]. split; [now apply timeserie_rel_flat | lia]. }
  destruct (match minutes_shift with
            | Some minutes => value_prepend_padding_value ts minutes
            | None => Ok ts
            end) as [ts1|e]; cycle 1.
  { destruct H1 as (h1 & Hrun1). exists h1. unfold bind at 1. now rewrite Hrun1. }
  destruct H1 as (v1 & h1 & Hrun1 & Hts1 & Hlen1).
  unfold bind at 1 3. rewrite Hrun1, bind_Ok.
  (* the electrification *)
  assert (H2 : match (if fake_electric then value_electrify ts1 else Ok ts1) with
               | Ok ts2 =>
                   exists v2 h2,
                     (if fake_electric then _electrify fuel v1 else ret v1) h1
                     = (Ok v2, h2) /\
                     timeserie_rel (val_rel h2) h2 v2 ts2 /\
                     (length ts2 < fuel)%nat
               | Raise e =>
                   exists h2,
                     (if fake_electric then _electrify fuel v1 else ret v1) h1
                     = (Raise e, h2)
               end).
  { destruct fake_electric.
    - pose proof (electrify_agree fuel h1 v1 ts1 Hts1 Hlen1) as H.
      destruct (value_electrify ts1) as [ts2|e] eqn:He; [|exact H].
      destruct H as (v2 & h2 & Hrun & _ & Hts2). exists v2, h2.
      split; [exact Hrun|]. split; [exact Hts2|].
      apply mapM_length in He. lia.
    - exists v1, h1. auto. }
  destruct (if fake_electric then value_electrify ts1 else Ok ts1) as [ts2|e];
    cycle 1.
  { destruct H2 as (h2 & Hrun2). exists h2. unfold bind at 1. now rewrite Hrun2. }
  destruct H2 as (v2 & h2 & Hrun2 & Hts2 & Hlen2).
  unfold bind. rewrite Hrun2, bind_Ok.
  (* the packaging *)
  pose proof (build_packets_agree fuel h2 v2 ts2 reference Hts2 Hlen2) as H3.
  destruct (value_build_unified_packets_ ts2 reference) as [packets|e].
  - destruct H3 as (out & h' & Hrun & _ & Hout). eauto.
  - exact H3.
Qed.
(** The sample store stands for the two sample records. *)
Lemma sample_store_stands_for_samples :
  timeserie_rel flat_rel sample_store (HRef 2%nat) [sample_first; sample_second].
Proof.
  exists 2%nat, [HRef 0%nat; HRef 1%nat]. split; [reflexivity|].
  split; [reflexivity|].
  constructor; [|constructor; [|constructor]].
  - eexists 0%nat, _. split; [reflexivity|]. split; [reflexivity|].
    repeat constructor.
  - eexists 1%nat, _. split; [reflexivity|]. split; [reflexivity|].
    repeat constructor.
Qed.
End Agreement.

(** * Further properties *)

(** ** Serialisation and the end of [send] *)

Lemma has_datetime_items (items : list (string * pyval)) :
  has_datetime (VDict items) = existsb (fun kv => has_datetime (snd kv)) items.
Proof.
  induction items as [|[k v] items IH]; [reflexivity|].
  cbn [existsb snd]. rewrite <- IH. reflexivity.
Qed.

Lemma has_datetime_get (d : dict) (k : string) (v : pyval) :
  dict_get k d = Some v -> has_datetime v = true -> has_datetime (VDict d) = true.
Proof.
  intros Hget Hv. rewrite has_datetime_items. apply existsb_exists.
  induction d as [|[k' v'] d IH]; [discriminate|]. cbn in Hget.
  destruct (String.eqb k k').
  - injection Hget as ->. exists (k', v). split; [left; reflexivity | exact Hv].
  - destruct (IH Hget) as (kv & Hin & Hkv). exists kv. split; [now right | exact Hkv].
Qed.

Section JsonFacts.
Variable float_repr : float -> string.
Variable json_string : string -> string.
Variable session_post : nat -> string -> string -> post_outcome.

Let members := fix members (items : list (string * pyval)) (first : bool)
    : result string :=
  match items with
  | [] => Ok ""
  | (k, v) :: rest =>
      s ← json_dumps float_repr json_string v;
      r ← members rest false;
      Ok ((if first then "" else ", ") ++ json_string k ++ ": " ++ s ++ r)%string
  end.

Lemma json_dumps_VDict (items : list (string * pyval)) :
  json_dumps float_repr json_string (VDict items) =
  (body ← members items true; Ok ("{" ++ body ++ "}")%string).
Proof. reflexivity. Qed.

(** [json.dumps] serialises exactly the values that hold no datetime,
    and its only error is [TypeError]. *)
Lemma json_dumps_domain (v : pyval) :
  if has_datetime v
  then json_dumps float_repr json_string v = Raise TypeError
  else exists s, json_dumps float_repr json_string v = Ok s.
Proof.
  revert v.
  fix IH 1. intros [| f | d | s | items].
  1-4: cbn; try reflexivity; eexists; reflexivity.
  - 
    assert (H : forall first,
      if existsb (fun kv => has_datetime (snd kv)) items
      then members items first = Raise TypeError
      else exists s, members items first = Ok s).
    { induction items as [|[k v] items IHitems]; intros first.
      - cbn. eexists. reflexivity.
      - cbn [existsb snd]. pose proof (IH v) as Hv. specialize (IHitems false).
        change (members ((k, v) :: items) first) with
          (s ← json_dumps float_repr json_string v;
           r ← members items false;
           Ok ((if first then "" else ", ") ++ json_string k ++ ": " ++ s ++ r)%string).
        destruct (has_datetime v); cbn [orb].
        + rewrite Hv. reflexivity.
        + destruct Hv as [s Hs]. rewrite Hs, bind_Ok.
          destruct (existsb _ items).
          * rewrite IHitems. reflexivity.
          * destruct IHitems as [r Hr]. rewrite Hr, bind_Ok. eexists. reflexivity. }
    specialize (H true). pose proof (has_datetime_items items) as E.
    pose proof (json_dumps_VDict items) as Eq.
    destruct (has_datetime (VDict items)); rewrite <- E in H.
    + rewrite Eq, H. reflexivity.
    + destruct H as [s Hs]. rewrite Eq, Hs, bind_Ok. eexists. reflexivity.
Qed.
End JsonFacts.

Section SendFacts.
Variable float_repr : float -> string.
Variable json_string : string -> string.
Variable session_post : nat -> string -> string -> post_outcome.

Lemma send_loop_app (url : string) (credentials : string * string)
    (good : list dict) (payloads : list string) (rest : list dict) :
  Forall2 (fun p s => json_dumps float_repr json_string (VDict p) = Ok s)
    good payloads ->
  forall (n : nat) (trace : list event),
    send_loop float_repr json_string session_post url credentials n (good ++ rest) trace
    = send_loop float_repr json_string session_post url credentials
        (n + length good) rest
        (trace ++ session_events session_post url credentials n (zip good payloads)).
Proof.
  induction 1 as [|p s good payloads Hp _ IH]; intros n trace.
  - cbn. now rewrite Nat.add_0_r, app_nil_r.
  - cbn [app send_loop zip zip_with session_events length]. rewrite Hp.
    destruct (session_post n url s) as [r|exception];
      rewrite IH, <- !app_assoc; cbn [app];
      replace (S n + length good)%nat with (n + S (length good))%nat by lia;
      reflexivity.
Qed.

(** X1: [send] stops at the first packet that does not serialise: the
    packets before it are POSTed and logged as usual, [TypeError]
    escapes, nothing after is POSTed and no completion is logged. *)
Theorem send_stops_at_unserialisable (url : string)
    (credentials : string * string) (good : list dict) (payloads : list string)
    (bad : dict) (rest : list dict) :
  Forall2 (fun p s => json_dumps float_repr json_string (VDict p) = Ok s)
    good payloads ->
  has_datetime (VDict bad) = true ->
  send float_repr json_string session_post url (good ++ bad :: rest) credentials
  = (Raise TypeError,
     Logged INFO (Message "Starting the swarm")
     :: session_events session_post url credentials 0 (zip good payloads)) /\
  posted (Logged INFO (Message "Starting the swarm")
          :: session_events session_post url credentials 0 (zip good payloads))
  = payloads.
Proof.
  intros Hgood Hbad. split.
  - unfold send. rewrite (send_loop_app url credentials good payloads _ Hgood).
    cbn [send_loop].
    pose proof (json_dumps_domain float_repr json_string (VDict bad)) as Hd.
    rewrite Hbad in Hd. rewrite Hd. reflexivity.
  - change (posted (?a :: ?l)) with (posted l).
    rewrite posted_session_events. apply snd_zip.
    apply Forall2_length in Hgood. lia.
Qed.

(** The padding record cannot be electrified. *)
Lemma electrify_padding_Raise (e0 e1 : dict) :
  exists e, electrify_entry (dict_merge e0 [("value", VDict e1)]) = Raise e.
Proof.
  unfold electrify_entry, getitem.
  destruct (dict_get "tsISO8601" _) as [t|]; [|eexists; reflexivity].
  rewrite padding_entry_value. cbn. eexists. reflexivity.
Qed.

Lemma shift_entry_has_datetime (minutes : Z) (e e' : dict) :
  shift_entry minutes e = Ok e' -> exists d, timestamp_of e = Some d.
Proof.
  unfold shift_entry, getitem, timestamp_of. intros H.
  destruct (dict_get "tsISO8601" e) as [t|]; [|discriminate].
  cbn [or_raise] in H. rewrite bind_Ok in H.
  destruct (timedelta_of_minutes minutes); [|discriminate]. rewrite bind_Ok in H.
  destruct t; try discriminate. eauto.
Qed.

(** X2: with a shift configured nothing is ever sent.  Whatever the time
    series, the other option and the network, either
    [build_unified_packets] raises, or it returns packets the first of
    which holds the second record, a datetime within: [send] then raises
    [TypeError] on it before any POST. *)
Theorem shift_never_sends (ts : timeserie) (fake_electric : bool) (minutes : Z)
    (reference url : string) (credentials : string * string) :
  match build_unified_packets
          (mkTimeserieProcessor ts fake_electric (Some minutes)) reference with
  | Ok packets =>
      send float_repr json_string session_post url packets credentials
      = (Raise TypeError, [Logged INFO (Message "Starting the swarm")])
  | Raise _ => True
  end.
Proof.
  destruct (build_unified_packets _ reference) as [packets|] eqn:Hbuild; [|exact I].
  unfold build_unified_packets in Hbuild.
  cbn [_timeserie _minutes_shift _fake_electric] in Hbuild.
  inv_bind Hbuild. rename a into ts1. inv_bind Hbuild. rename a into ts2.
  unfold _prepend_padding_value in Ha.
  destruct ts as [|e0 [|e1 rest]]; try discriminate.
  cbn [lookup list_lookup or_raise] in Ha. rewrite !bind_Ok, shift_entries_mapM in Ha.
  inv_bind Ha. rename a into shifted. apply Ok_inj in Ha. cbn [app] in Ha. subst ts1.
  assert (Hdt : has_datetime (VDict e1) = true).
  { apply mapM_Ok in Ha1. inversion Ha1 as [|? ? ? ? _ Htl]; subst.
    inversion Htl as [|? e1' ? ? He1 _]; subst.
    apply shift_entry_has_datetime in He1 as [d Hd].
    apply timestamp_of_Some in Hd.
    now apply (has_datetime_get e1 "tsISO8601" (VDatetime d)). }
  destruct fake_electric.
  - exfalso. unfold _electrify in Ha0. cbn [mapM] in Ha0.
    destruct (electrify_padding_Raise e0 e1) as [e He]. rewrite He in Ha0. discriminate.
  - apply Ok_inj in Ha0. subst ts2.
    rewrite build_unified_packets_mapM in Hbuild. cbn [mapM] in Hbuild.
    inv_bind Hbuild. rename a into p0. inv_bind Hbuild. apply Ok_inj in Hbuild.
    subst packets.
    assert (Hp0 : has_datetime (VDict p0) = true).
    { unfold package_entry in Ha. inv_bind Ha. inv_bind Ha. apply Ok_inj in Ha.
      subst p0. apply (has_datetime_get _ "value" (VDict e1)); [|exact Hdt].
      cbn. rewrite !dict_get_set_ne by discriminate. apply dict_get_set_eq. }
    unfold send. cbn [send_loop].
    pose proof (json_dumps_domain float_repr json_string (VDict p0)) as Hd.
    rewrite Hp0 in Hd. rewrite Hd. reflexivity.
Qed.
End SendFacts.

(** ** The shift and the ends of the calendar *)

Lemma days_before_year_succ (y : Z) :
  _days_before_year (y + 1) = _days_before_year y + 365 + (if _is_leap y then 1 else 0).
Proof.
  unfold _days_before_year, _is_leap. cbv zeta.
  replace (y + 1 - 1) with y by lia.
  destruct (Z.eqb_spec (y mod 4) 0), (Z.eqb_spec (y mod 100) 0),
    (Z.eqb_spec (y mod 400) 0); cbn; zdiv; lia.
Qed.

Lemma days_before_year_mono (a b : Z) :
  a <= b -> _days_before_year a <= _days_before_year b.
Proof. intros H. unfold _days_before_year. cbv zeta. zdiv. lia. Qed.

Lemma day_of_year_bounds (y m d : Z) :
  1 <= m <= 12 -> 1 <= d <= _days_in_month y m ->
  1 <= _days_before_month y m + d <= 365 + (if _is_leap y then 1 else 0).
Proof.
  intros Hm Hd. unfold _days_before_month, _days_in_month in *.
  assert (Hcases : m = 1 \/ m = 2 \/ m = 3 \/ m = 4 \/ m = 5 \/ m = 6 \/ m = 7 \/
                   m = 8 \/ m = 9 \/ m = 10 \/ m = 11 \/ m = 12) by lia.
  destruct (_is_leap y);
    repeat (destruct Hcases as [-> | Hcases]; [cbn in *; lia|]); subst; cbn in *; lia.
Qed.

Lemma toordinal_bounds (d : datetime) :
  valid_datetime d = true -> 1 <= toordinal d <= _MAXORDINAL.
Proof.
  unfold valid_datetime. rewrite !andb_true_iff, !Z.leb_le.
  intros [[[[[[[[[[[[[Hy1 Hy2] Hm1] Hm2] Hd1] Hd2] _] _] _] _] _] _] _] _].
  pose proof (day_of_year_bounds (year d) (month d) (day d) ltac:(lia) ltac:(lia)) as Hdoy.
  pose proof (days_before_year_succ (year d)) as Hsucc.
  pose proof (days_before_year_mono 1 (year d) ltac:(lia)) as Hlo.
  pose proof (days_before_year_mono (year d + 1) 10000 ltac:(lia)) as Hhi.
  change (_days_before_year 1) with 0 in Hlo.
  change (_days_before_year 10000) with 3652059 in Hhi.
  unfold toordinal, _ymd2ord, _MAXORDINAL.
  destruct (_is_leap (year d)); lia.
Qed.

Lemma datetime_add_domain (d : datetime) (delta : timedelta) :
  valid_datetime d = true ->
  if on_calendar (timeline d + td_total delta)
  then exists d', datetime_add d delta = Ok d'
  else datetime_add d delta = Raise OverflowError.
Proof.
  intros Hvalid. pose proof (toordinal_bounds d Hvalid) as Hord.
  unfold valid_datetime in Hvalid. rewrite !andb_true_iff, !Z.leb_le in Hvalid.
  destruct Hvalid as [[[[[[[[[[[[[_ _] _] _] _] _] Hh1] Hh2] Hmi1] Hmi2] Hs1] Hs2] Hu1] Hu2].
  unfold _MAXORDINAL in Hord.
  unfold datetime_add.
  destruct (new_timedelta (toordinal d) _ (microsecond d)) as [t1|e] eqn:H1.
  2:{ exfalso. unfold new_timedelta in H1.
      destruct (_ <? _) eqn:E in H1; [|discriminate].
      apply Z.ltb_lt in E. zdiv. lia. }
  rewrite bind_Ok. pose proof (new_timedelta_total _ _ _ _ H1) as (Ht1 & Hs1' & Hu1').
  destruct (new_timedelta (td_days t1 + td_days delta) _ _) as [t2|e] eqn:H2.
  - rewrite bind_Ok. pose proof (new_timedelta_total _ _ _ _ H2) as (Ht2 & Hs2' & Hu2').
    assert (HT : timeline d + td_total delta = td_total t2).
    { unfold timeline, td_total in *. lia. }
    rewrite HT. unfold on_calendar, _MAXORDINAL.
    destruct (Z.ltb_spec 0 (td_days t2)), (Z.leb_spec (td_days t2) 3652059);
      cbn [andb].
    + destruct (_ord2ymd (td_days t2)) as [[y m] dd].
      replace ((86400000000 <=? td_total t2) && (td_total t2 <? 3652060 * 86400000000))
        with true; [eexists; reflexivity|].
      symmetry. apply andb_true_iff. rewrite Z.leb_le, Z.ltb_lt.
      unfold td_total. lia.
    + replace ((86400000000 <=? td_total t2) && (td_total t2 <? 3652060 * 86400000000))
        with false; [reflexivity|].
      symmetry. apply andb_false_iff. right. apply Z.ltb_ge. unfold td_total. lia.
    + replace ((86400000000 <=? td_total t2) && (td_total t2 <? 3652060 * 86400000000))
        with false; [reflexivity|].
      symmetry. apply andb_false_iff. left. apply Z.leb_gt. unfold td_total. lia.
    + lia.
  - unfold new_timedelta in H2.
    destruct (_ <? _) eqn:E in H2; [|discriminate]. injection H2 as <-.
    apply Z.ltb_lt in E.
    replace (on_calendar (timeline d + td_total delta)) with false; [reflexivity|].
    symmetry. unfold on_calendar. apply andb_false_iff.
    rewrite Z.leb_gt, Z.ltb_ge.
    unfold timeline, td_total in *. zdiv. lia.
Qed.

Lemma dict_get_In_keys {V} (k : string) (d : list (string * V)) (v : V) :
  dict_get k d = Some v -> In k (keys d).
Proof.
  induction d as [|[k' v'] d IH]; [discriminate|]. cbn.
  destruct (String.eqb_spec k k') as [->|]; [now left | right; now apply IH].
Qed.

Lemma timeline_on_calendar (d : datetime) :
  valid_datetime d = true -> on_calendar (timeline d) = true.
Proof.
  intros Hvalid. pose proof (toordinal_bounds d Hvalid) as Hord.
  unfold valid_datetime in Hvalid. rewrite !andb_true_iff, !Z.leb_le in Hvalid.
  destruct Hvalid as [[[[[[[[[[[[[_ _] _] _] _] _] Hh1] Hh2] Hmi1] Hmi2] Hs1] Hs2] Hu1] Hu2].
  unfold _MAXORDINAL in Hord. unfold on_calendar, timeline.
  apply andb_true_iff. rewrite Z.leb_le, Z.ltb_lt. lia.
Qed.

Lemma shift_entry_domain (minutes : Z) (e : dict) (d : datetime) :
  timestamp_of e = Some d -> valid_datetime d = true ->
  if on_calendar (timeline d + minutes * 60000000)
  then exists d',
         shift_entry minutes e = Ok (dict_set "tsISO8601" (VDatetime d') e) /\
         timeline d' = timeline d + minutes * 60000000 /\ valid_datetime d' = true
  else shift_entry minutes e = Raise OverflowError.
Proof.
  intros Hd Hvalid. rewrite (shift_entry_Ok minutes e d Hd).
  pose proof (timeline_on_calendar d Hvalid) as Hcal.
  destruct (timedelta_of_minutes minutes) as [delta|err] eqn:Hdelta.
  - rewrite bind_Ok. pose proof (timedelta_of_minutes_total _ _ Hdelta) as Htot.
    pose proof (datetime_add_domain d delta Hvalid) as Hadd. rewrite Htot in Hadd.
    destruct (on_calendar (timeline d + minutes * 60000000)).
    + destruct Hadd as [d' Hd']. rewrite Hd', bind_Ok. exists d'.
      apply datetime_add_timeline in Hd' as [Hline Hv]. rewrite Htot in Hline. auto.
    + rewrite Hadd. reflexivity.
  - unfold timedelta_of_minutes, new_timedelta in Hdelta.
    destruct (_ <? _) eqn:E in Hdelta; [|discriminate]. injection Hdelta as <-.
    apply Z.ltb_lt in E.
    replace (on_calendar (timeline d + minutes * 60000000)) with false; [reflexivity|].
    symmetry. unfold on_calendar in *. apply andb_true_iff in Hcal.
    rewrite Z.leb_le, Z.ltb_lt in Hcal.
    apply andb_false_iff. rewrite Z.leb_gt, Z.ltb_ge. zdiv. lia.
Qed.

Lemma mapM_shift_entry (minutes : Z) (ts : timeserie) :
  Forall valid_timestamp ts ->
  if forallb (shift_on_calendar minutes) ts
  then exists shifted,
         mapM (shift_entry minutes) ts = Ok shifted /\
         Forall2 (fun e e' => exists d d',
           timestamp_of e = Some d /\ e' = dict_set "tsISO8601" (VDatetime d') e /\
           timeline d' = timeline d + minutes * 60000000 /\ valid_datetime d' = true)
           ts shifted
  else mapM (shift_entry minutes) ts = Raise OverflowError.
Proof.
  induction 1 as [|e ts (d & Hd & Hvalid) _ IH]; cbn [forallb mapM].
  - exists []. split; [reflexivity | constructor].
  - pose proof (shift_entry_domain minutes e d Hd Hvalid) as He.
    unfold shift_on_calendar at 1. rewrite Hd.
    destruct (on_calendar (timeline d + minutes * 60000000)); cbn [andb].
    + destruct He as (d' & He & Hline & Hv). rewrite He, bind_Ok.
      destruct (forallb (shift_on_calendar minutes) ts).
      * destruct IH as (shifted & Hs & Hall). rewrite Hs, bind_Ok.
        eexists. split; [reflexivity|]. constructor; [|exact Hall].
        exists d, d'. auto.
      * rewrite IH. reflexivity.
    + rewrite He. reflexivity.
Qed.

(** X3: on two records or more with datetimes, [_prepend_padding_value]
    either returns one record more than it was given, the first with the
    first record's timestamp and fields (but for [value]) and each other
    the input record of the same rank with its timestamp exactly [minutes]
    minutes later and its other fields untouched, or raises
    [OverflowError] because a shifted timestamp leaves the years 1 to
    9999. *)
Theorem prepend_padding_value_shifts (ts : timeserie) (minutes : Z) :
  Forall valid_timestamp ts -> (2 <= length ts)%nat ->
  if forallb (shift_on_calendar minutes) ts
  then exists padding shifted,
         _prepend_padding_value ts minutes = Ok (padding :: shifted) /\
         length shifted = length ts /\
         (forall e0, ts !! 0%nat = Some e0 ->
            forall k, k <> "value" -> dict_get k padding = dict_get k e0) /\
         forall (i : nat) (e : dict), ts !! i = Some e ->
           exists d d' e',
             timestamp_of e = Some d /\ shifted !! i = Some e' /\
             timestamp_of e' = Some d' /\
             timeline d' = timeline d + minutes * 60000000 /\
             keys e' = keys e /\
             forall k, k <> "tsISO8601" -> dict_get k e' = dict_get k e
  else _prepend_padding_value ts minutes = Raise OverflowError.
Proof.
  intros Hvalid Hlen. pose proof (mapM_shift_entry minutes ts Hvalid) as Hmap.
  destruct ts as [|e0 [|e1 rest]]; cbn in Hlen; try lia.
  unfold _prepend_padding_value. cbn [lookup list_lookup or_raise].
  rewrite !bind_Ok, shift_entries_mapM.
  destruct (forallb (shift_on_calendar minutes) (e0 :: e1 :: rest)).
  - destruct Hmap as (shifted & Hs & Hall). rewrite Hs, bind_Ok.
    exists (dict_merge e0 [("value", VDict e1)]), shifted.
    split; [reflexivity|]. split; [symmetry; exact (Forall2_length _ _ _ Hall)|].
    split.
    + intros e0' [= <-] k Hk. cbn. apply dict_get_set_ne. congruence.
    + intros i e Hi.
      destruct (Forall2_lookup_l _ _ _ _ _ Hall Hi) as (e' & He' & d & d' & Hd & -> & Hline & _).
      exists d, d', (dict_set "tsISO8601" (VDatetime d') e).
      split; [exact Hd|]. split; [exact He'|].
      split; [apply timestamp_of_Some, dict_get_set_eq|]. split; [exact Hline|].
      split.
      * apply keys_dict_set_in. apply timestamp_of_Some in Hd.
        now apply (dict_get_In_keys _ _ _ Hd).
      * intros k Hk. apply dict_get_set_ne. congruence.
  - rewrite Hmap. reflexivity.
Qed.

(** ** Packets, field by field *)

Lemma dict_get_None_keys {V} (k : string) (d : list (string * V)) :
  ~ In k (keys d) -> dict_get k d = None.
Proof.
  induction d as [|[k' v'] d IH]; [reflexivity|]. cbn. intros Hin.
  destruct (String.eqb_spec k k') as [->|]; [tauto | apply IH; tauto].
Qed.

Lemma In_take {A} (x : A) (n : nat) (l : list A) : In x (take n l) -> In x l.
Proof.
  revert n. induction l as [|y l IH]; intros [|n]; cbn; try tauto.
  intros [->|H]; [now left | right; now apply (IH n)].
Qed.

Lemma keys_dict_set {V} (k : string) (v : V) (d : list (string * V)) :
  keys (dict_set k v d) =
  if existsb (String.eqb k) (keys d) then keys d else keys d ++ [k].
Proof.
  induction d as [|[k' v'] d IH]; [reflexivity|]. cbn.
  destruct (String.eqb_spec k k') as [->|]; cbn; [reflexivity|].
  unfold keys in *. rewrite IH. destruct (existsb _ _); reflexivity.
Qed.

Lemma package_entry_cases (reference : string) (e : dict) :
  match timestamp_of e with
  | Some d => package_entry reference e = Ok (packet_of reference d e)
  | None => package_entry reference e = Raise (KeyError "tsISO8601") \/
            package_entry reference e = Raise AttributeError
  end.
Proof.
  unfold timestamp_of, package_entry, getitem.
  destruct (dict_get "tsISO8601" e) as [[]|]; cbn; auto.
Qed.

(** X4: [_build_unified_packets] returns exactly when every record holds
    a datetime under [tsISO8601], one packet per record; otherwise it
    raises [KeyError] or [AttributeError] and returns no packet. *)
Theorem package_domain (ts : timeserie) (reference : string) :
  match _build_unified_packets ts reference with
  | Ok packets =>
      Forall (fun e => exists d, timestamp_of e = Some d) ts /\
      length packets = length ts
  | Raise err =>
      (err = KeyError "tsISO8601" \/ err = AttributeError) /\
      Exists (fun e => timestamp_of e = None) ts
  end.
Proof.
  rewrite build_unified_packets_mapM.
  induction ts as [|e ts IH]; cbn [mapM].
  - split; [constructor | reflexivity].
  - pose proof (package_entry_cases reference e) as He.
    destruct (timestamp_of e) as [d|] eqn:Hd.
    + rewrite He, bind_Ok.
      destruct (mapM (package_entry reference) ts) as [ps|err]; cbn.
      * destruct IH as [Hall Hlen]. split; [constructor; eauto | now rewrite Hlen].
      * destruct IH as [Herr Hex]. split; [exact Herr | now right].
    + destruct He as [He|He]; rewrite He; cbn; (split; [auto | now left]).
Qed.

(** X5: a packet is its record with [id] set to the channel reference
    and [tsISO8601] rendered: every other field keeps its value, the keys
    keep their order, and [id] comes last unless the record had one. *)
Theorem package_keeps_fields (ts : timeserie) (reference : string)
    (packets : list dict) :
  _build_unified_packets ts reference = Ok packets ->
  forall (i : nat) (p : dict), packets !! i = Some p ->
    exists e d,
      ts !! i = Some e /\ timestamp_of e = Some d /\
      dict_get "id" p = Some (VStr reference) /\
      dict_get "tsISO8601" p = Some (VStr (strftime d packet_format)) /\
      (forall k, k <> "id" -> k <> "tsISO8601" -> dict_get k p = dict_get k e) /\
      keys p = if existsb (String.eqb "id") (keys e) then keys e else keys e ++ ["id"].
Proof.
  rewrite build_unified_packets_mapM. intros H i p Hp.
  apply mapM_Ok in H.
  destruct (Forall2_lookup_r _ _ _ _ _ H Hp) as (e & He & Hpack).
  pose proof (package_entry_cases reference e) as Hc.
  destruct (timestamp_of e) as [d|] eqn:Hd.
  2:{ destruct Hc as [Hc|Hc]; rewrite Hc in Hpack; discriminate. }
  rewrite Hc in Hpack. apply Ok_inj in Hpack. subst p.
  exists e, d. split; [exact He|]. split; [exact Hd|]. unfold packet_of.
  split; [rewrite dict_get_set_ne by discriminate; apply dict_get_set_eq|].
  split; [apply dict_get_set_eq|]. split.
  - intros k Hid Hts. rewrite !dict_get_set_ne by congruence. reflexivity.
  - rewrite keys_dict_set_in; [apply keys_dict_set|].
    apply timestamp_of_Some in Hd.
    apply (dict_get_In_keys "tsISO8601" _ (VDatetime d)).
    rewrite dict_get_set_ne by discriminate. exact Hd.
Qed.

(** X6: with [fake_electric] and no shift, records that hold a datetime
    and a float give, one per record and in order, the packet with exactly
    [tsISO8601] (rendered), [pC_1] (the value), [aP_1] (six times the
    value) and [id]. *)
Theorem fake_electric_packets (ts : timeserie) (reference : string) :
  Forall (fun e => (exists d, timestamp_of e = Some d) /\ float_valued e) ts ->
  exists packets,
    build_unified_packets (mkTimeserieProcessor ts true None) reference = Ok packets /\
    Forall2 (fun e p => exists d f,
      timestamp_of e = Some d /\ dict_get "value" e = Some (VFloat f) /\
      p = [("tsISO8601", VStr (strftime d packet_format)); ("pC_1", VFloat f);
           ("aP_1", VFloat (b64_mul f (b64_of_Z 6))); ("id", VStr reference)])
      ts packets.
Proof.
  intros Hts.
  assert (Hmap : forall e, (exists d, timestamp_of e = Some d) /\ float_valued e ->
    exists p d f,
      (x ← electrify_entry e; package_entry reference x) = Ok p /\
      timestamp_of e = Some d /\ dict_get "value" e = Some (VFloat f) /\
      p = [("tsISO8601", VStr (strftime d packet_format)); ("pC_1", VFloat f);
           ("aP_1", VFloat (b64_mul f (b64_of_Z 6))); ("id", VStr reference)]).
  { intros e [[d Hd] [f Hf]]. pose proof Hd as Hd'. apply timestamp_of_Some in Hd'.
    rewrite (electrify_entry_float e _ f Hd' Hf), bind_Ok.
    eexists. exists d, f. split; [reflexivity|]. auto. }
  unfold build_unified_packets. cbn [_timeserie _minutes_shift _fake_electric].
  rewrite bind_Ok. unfold _electrify.
  induction Hts as [|e ts He _ IH].
  - exists []. split; [reflexivity | constructor].
  - destruct (Hmap e He) as (p & d & f & Hp & Hd & Hf & ->).
    destruct IH as (packets & Hpk & Hall).
    apply timestamp_of_Some in Hd.
    cbn [mapM]. rewrite (electrify_entry_float e _ f Hd Hf), bind_Ok.
    destruct (mapM electrify_entry ts) as [ts'|]; [|discriminate].
    rewrite !bind_Ok in *. rewrite build_unified_packets_mapM in *.
    cbn [mapM]. rewrite Hpk.
    eexists. split; [reflexivity|]. constructor; [|exact Hall].
    exists d, f. apply timestamp_of_Some in Hd. auto.
Qed.

Lemma electrify_entry_no_value (e : dict) (t : pyval) :
  dict_get "tsISO8601" e = Some t -> dict_get "value" e = None ->
  electrify_entry e = Raise (KeyError "value").
Proof. intros Ht Hv. unfold electrify_entry, getitem. now rewrite Ht, Hv. Qed.

Section ParsersMore.
Variable py_float : string -> option float.
Variable strptime : string -> option datetime.

Lemma value_not_electricity_key : ~ In "value" ("tsISO8601" :: ELECTRICITY_KEYS).
Proof.
  intros H. repeat (destruct H as [H|H]; [discriminate|]). exact H.
Qed.

(** X7: the records of the electrical parser hold no [value]:
    [_electrify] raises [KeyError] on them. *)
Theorem electrify_electrical_records (rows : list (list string)) (ts : timeserie) :
  parse_electricity_csv py_float strptime rows = Ok ts -> ts <> [] ->
  _electrify ts = Raise (KeyError "value").
Proof.
  unfold parse_electricity_csv. rewrite electricity_rows_mapM. intros H Hne.
  inv_bind H. apply Ok_inj in H. cbn [app] in H. subst a.
  apply mapM_Ok in Ha. destruct Ha as [|row e rows ts Hrow _]; [congruence|].
  destruct row as [|t values]; [discriminate|].
  destruct (strptime t) as [d|] eqn:Hd; [|cbn in Hrow; rewrite Hd in Hrow; discriminate].
  rewrite (electricity_row_Ok py_float strptime t values d Hd) in Hrow.
  apply Ok_inj in Hrow.
  assert (Hts : dict_get "tsISO8601" e = Some (VDatetime d)) by (subst e; reflexivity).
  assert (Hv : dict_get "value" e = None).
  { apply dict_get_None_keys. subst e. rewrite keys_zip. intros Hin.
    apply value_not_electricity_key. exact (In_take _ _ _ Hin). }
  unfold _electrify. cbn [mapM].
  rewrite (electrify_entry_no_value e _ Hts Hv). reflexivity.
Qed.
End ParsersMore.

(** ** Files, from the rows to the POSTs *)

Section FilesFacts.
Variable py_float : string -> option float.
Variable strptime : string -> option datetime.

Lemma single_value_row_cases (row : list string) :
  if single_value_row_ok strptime row
  then exists t v d,
         row = [t; v] /\ strptime t = Some d /\
         single_value_row py_float strptime row
         = Ok [("tsISO8601", VDatetime d); ("value", safe_string_to_float py_float v)]
  else single_value_row py_float strptime row = Raise ValueError.
Proof.
  destruct row as [|t [|v [|]]]; try reflexivity.
  cbn [single_value_row_ok single_value_row].
  destruct (strptime t) as [d|] eqn:Hd; [|reflexivity].
  exists t, v, d. split; [reflexivity|]. split; [exact Hd | reflexivity].
Qed.

Lemma electricity_row_cases (row : list string) :
  if electricity_row_ok strptime row
  then exists t values d,
         row = t :: values /\ strptime t = Some d /\
         electricity_row py_float strptime row
         = Ok (("tsISO8601", VDatetime d)
               :: zip ELECTRICITY_KEYS (map (safe_string_to_float py_float) values))
  else electricity_row py_float strptime row = Raise ValueError.
Proof.
  destruct row as [|t values]; [reflexivity|]. cbn [electricity_row_ok].
  destruct (strptime t) as [d|] eqn:Hd.
  - exists t, values, d. split; [reflexivity|]. split; [exact Hd|].
    now rewrite (electricity_row_Ok py_float strptime t values d Hd).
  - cbn. rewrite Hd. reflexivity.
Qed.

(** What [mapM] does with a body that is decided by a test and raises one
    exception only. *)
Lemma mapM_decided {A B} (f : A -> result B) (ok : A -> bool) (err : exn)
    (l : list A) :
  (forall x, if ok x then exists y, f x = Ok y else f x = Raise err) ->
  if forallb ok l
  then exists k, mapM f l = Ok k /\ Forall2 (fun x y => f x = Ok y) l k
  else mapM f l = Raise err.
Proof.
  intros Hf. induction l as [|x l IH]; cbn [forallb mapM].
  - exists []. split; [reflexivity | constructor].
  - specialize (Hf x). destruct (ok x); cbn [andb].
    + destruct Hf as [y Hy]. rewrite Hy, bind_Ok.
      destruct (forallb ok l).
      * destruct IH as (k & Hk & Hall). rewrite Hk, bind_Ok.
        exists (y :: k). split; [reflexivity | now constructor].
      * rewrite IH. reflexivity.
    + rewrite Hf. reflexivity.
Qed.

(** X8: [parse_single_value_csv] accepts a file exactly when each of its
    rows has two columns, the first a timestamp in the format; it then
    returns one record per row.  Any other file is refused as a whole with
    [ValueError], whatever its good rows are. *)
Theorem parse_single_value_domain (rows : list (list string)) :
  if forallb (single_value_row_ok strptime) rows
  then exists ts,
         parse_single_value_csv py_float strptime rows = Ok ts /\
         length ts = length rows
  else parse_single_value_csv py_float strptime rows = Raise ValueError.
Proof.
  unfold parse_single_value_csv. rewrite single_value_rows_mapM.
  pose proof (mapM_decided (single_value_row py_float strptime)
                (single_value_row_ok strptime) ValueError rows) as H.
  destruct (forallb (single_value_row_ok strptime) rows).
  - destruct H as (ts & Hts & Hall).
    + intros row. pose proof (single_value_row_cases row) as Hrow.
      destruct (single_value_row_ok strptime row); [|exact Hrow].
      destruct Hrow as (t & v & d & _ & _ & Hrow). eauto.
    + rewrite Hts. exists ts. split; [reflexivity|].
      symmetry. exact (Forall2_length _ _ _ Hall).
  - rewrite H; [reflexivity|].
    intros row. pose proof (single_value_row_cases row) as Hrow.
    destruct (single_value_row_ok strptime row); [|exact Hrow].
    destruct Hrow as (t & v & d & _ & _ & Hrow). eauto.
Qed.

(** X9: [parse_electricity_csv] accepts a file exactly when each of its
    rows has a first column that is a timestamp in the format, whatever
    follows it; an empty row or a bad timestamp makes it refuse the whole
    file with [ValueError]. *)
Theorem parse_electricity_domain (rows : list (list string)) :
  if forallb (electricity_row_ok strptime) rows
  then exists ts,
         parse_electricity_csv py_float strptime rows = Ok ts /\
         length ts = length rows
  else parse_electricity_csv py_float strptime rows = Raise ValueError.
Proof.
  unfold parse_electricity_csv. rewrite electricity_rows_mapM.
  pose proof (mapM_decided (electricity_row py_float strptime)
                (electricity_row_ok strptime) ValueError rows) as H.
  destruct (forallb (electricity_row_ok strptime) rows).
  - destruct H as (ts & Hts & Hall).
    + intros row. pose proof (electricity_row_cases row) as Hrow.
      destruct (electricity_row_ok strptime row); [|exact Hrow].
      destruct Hrow as (t & v & d & _ & _ & Hrow). eauto.
    + rewrite Hts. exists ts. split; [reflexivity|].
      symmetry. exact (Forall2_length _ _ _ Hall).
  - rewrite H; [reflexivity|].
    intros row. pose proof (electricity_row_cases row) as Hrow.
    destruct (electricity_row_ok strptime row); [|exact Hrow].
    destruct Hrow as (t & v & d & _ & _ & Hrow). eauto.
Qed.
End FilesFacts.

Section Sessions.
Variable py_float : string -> option float.
Variable strptime : string -> option datetime.
Variable float_repr : float -> string.
Variable json_string : string -> string.
Variable session_post : nat -> string -> string -> post_outcome.

Lemma safe_string_to_float_scalar (v : string) :
  scalar (safe_string_to_float py_float v).
Proof. unfold safe_string_to_float. destruct (py_float v); exact I. Qed.

(** The records of a file the single-value parser accepts. *)
Lemma parse_single_value_rows (rows : list (list string)) (ts : timeserie) :
  parse_single_value_csv py_float strptime rows = Ok ts ->
  Forall2 (fun row e => exists t v d,
    row = [t; v] /\ strptime t = Some d /\
    e = [("tsISO8601", VDatetime d); ("value", safe_string_to_float py_float v)])
    rows ts.
Proof.
  unfold parse_single_value_csv. rewrite single_value_rows_mapM. intros H.
  inv_bind H. apply Ok_inj in H. cbn [app] in H. subst a.
  apply mapM_Ok in Ha. eapply Forall2_impl; [exact Ha|].
  intros row e Hrow. cbn beta in Hrow.
  pose proof (single_value_row_cases py_float strptime row) as Hc.
  destruct (single_value_row_ok strptime row).
  - destruct Hc as (t & v & d & -> & Hd & He). rewrite He in Hrow.
    apply Ok_inj in Hrow. subst e. exists t, v, d. auto.
  - rewrite Hc in Hrow. discriminate.
Qed.

(** The records of a file the electrical parser accepts. *)
Lemma parse_electricity_rows (rows : list (list string)) (ts : timeserie) :
  parse_electricity_csv py_float strptime rows = Ok ts ->
  Forall2 (fun row e => exists t values d,
    row = t :: values /\ strptime t = Some d /\
    e = ("tsISO8601", VDatetime d)
        :: zip ELECTRICITY_KEYS (map (safe_string_to_float py_float) values))
    rows ts.
Proof.
  unfold parse_electricity_csv. rewrite electricity_rows_mapM. intros H.
  inv_bind H. apply Ok_inj in H. cbn [app] in H. subst a.
  apply mapM_Ok in Ha. eapply Forall2_impl; [exact Ha|].
  intros row e Hrow. cbn beta in Hrow.
  pose proof (electricity_row_cases py_float strptime row) as Hc.
  destruct (electricity_row_ok strptime row).
  - destruct Hc as (t & v & d & -> & Hd & He). rewrite He in Hrow.
    apply Ok_inj in Hrow. subst e. exists t, v, d. auto.
  - rewrite Hc in Hrow. discriminate.
Qed.

Lemma id_not_electricity_key : ~ In "id" ELECTRICITY_KEYS.
Proof.
  intros H. repeat (destruct H as [H|H]; [discriminate|]). exact H.
Qed.

(** The packet of an electrical record. *)
Lemma packet_of_electricity (reference : string) (d : datetime) (values : list pyval) :
  packet_of reference d (("tsISO8601", VDatetime d) :: zip ELECTRICITY_KEYS values)
  = ("tsISO8601", VStr (strftime d packet_format))
    :: zip ELECTRICITY_KEYS values ++ [("id", VStr reference)].
Proof.
  unfold packet_of.
  rewrite (dict_set_fresh "id"); [reflexivity|].
  cbn [keys map fst]. intros [Hin|Hin]; [discriminate|].
  apply id_not_electricity_key.
  change (In "id" (keys (zip ELECTRICITY_KEYS values))) in Hin.
  rewrite keys_zip in Hin. exact (In_take _ _ _ Hin).
Qed.

Lemma unified_packet_zip (ks : list string) (vs : list pyval) :
  Forall scalar vs -> unified_packet (zip ks vs).
Proof.
  unfold unified_packet. intros H. revert ks.
  induction H as [|v vs Hv _ IH]; intros [|k ks]; cbn; constructor; auto.
Qed.

(** Packets that serialise have payloads. *)
Lemma payloads_of (packets : list dict) :
  Forall unified_packet packets ->
  exists payloads,
    Forall2 (fun p s => json_dumps float_repr json_string (VDict p) = Ok s)
      packets payloads.
Proof.
  induction 1 as [|p packets Hp _ [payloads IH]]; [exists []; constructor|].
  destruct (json_dumps_unified_packet float_repr json_string p Hp) as [s Hs].
  exists (s :: payloads). now constructor.
Qed.

(** The whole trace of a session on packets that serialise. *)
Lemma send_trace (url : string) (credentials : string * string)
    (packets : list dict) (payloads : list string) :
  Forall2 (fun p s => json_dumps float_repr json_string (VDict p) = Ok s)
    packets payloads ->
  send float_repr json_string session_post url packets credentials
  = (Ok tt,
     Logged INFO (Message "Starting the swarm")
     :: session_events session_post url credentials 0 (zip packets payloads)
     ++ [Logged INFO (Message "Completed")]).
Proof.
  intros H. unfold send.
  rewrite (send_loop_trace float_repr json_string session_post url credentials
             packets payloads H).
  reflexivity.
Qed.

Lemma posted_send_trace (url : string) (credentials : string * string)
    (packets : list dict) (payloads : list string) :
  length packets = length payloads ->
  posted (Logged INFO (Message "Starting the swarm")
          :: session_events session_post url credentials 0 (zip packets payloads)
          ++ [Logged INFO (Message "Completed")]) = payloads.
Proof.
  intros Hlen. change (posted (?a :: ?l)) with (posted l).
  rewrite posted_app, posted_session_events. cbn. rewrite app_nil_r.
  apply snd_zip. lia.
Qed.

(** Rows that stand for records, each of which goes through [body] to
    a packet that serialises: the whole file does. *)
Lemma rows_to_payloads {A} (shape : A -> dict -> Prop) (Q : A -> string -> Prop)
    (body : dict -> result dict) (rows : list A) (ts : timeserie) :
  Forall2 shape rows ts ->
  (forall row e, shape row e ->
     exists p s, body e = Ok p /\
       json_dumps float_repr json_string (VDict p) = Ok s /\ Q row s) ->
  exists packets payloads,
    mapM body ts = Ok packets /\
    Forall2 (fun p s => json_dumps float_repr json_string (VDict p) = Ok s)
      packets payloads /\
    Forall2 Q rows payloads.
Proof.
  intros Hall Hbody. induction Hall as [|row e rows ts Hrow _ IH].
  - exists [], []. split; [reflexivity|]. split; constructor.
  - destruct (Hbody row e Hrow) as (p & s & Hp & Hs & HQ).
    destruct IH as (packets & payloads & Hpk & Hpay & HQs).
    exists (p :: packets), (s :: payloads). cbn [mapM].
    rewrite Hp, bind_Ok, Hpk, bind_Ok.
    split; [reflexivity|]. split; constructor; assumption.
Qed.

Lemma mapM_bind_Ok {A B C} (f : A -> result B) (g : B -> result C)
    (l : list A) (k : list C) :
  mapM (fun x => y ← f x; g y) l = Ok k ->
  (ys ← mapM f l; mapM g ys) = Ok k.
Proof.
  revert k. induction l as [|x l IH]; intros k H; cbn [mapM] in *.
  - rewrite bind_Ok. exact H.
  - inv_bind H. rename a into z. inv_bind H. rename a into zs.
    apply Ok_inj in H. subst k.
    destruct (f x) as [y|] eqn:Hy; [|discriminate]. rewrite bind_Ok in Ha.
    specialize (IH zs Ha0).
    destruct (mapM f l) as [ys|]; [|discriminate].
    rewrite !bind_Ok in *. cbn [mapM]. rewrite Ha, bind_Ok, IH. reflexivity.
Qed.

(** X10: a file the single-value parser accepts is uploaded in full on a
    plain channel, whatever the network does: the packets are built,
    [send] runs to its end, and the payloads POSTed are, row by row and
    in file order, the serialisations of the packet with the row's
    timestamp rendered, its value as a float or null, and the channel
    reference. *)
Theorem single_value_file_uploaded (rows : list (list string)) (ts : timeserie)
    (reference url : string) (credentials : string * string) :
  parse_single_value_csv py_float strptime rows = Ok ts ->
  exists packets payloads trace,
    build_unified_packets (mkTimeserieProcessor ts false None) reference
    = Ok packets /\
    send float_repr json_string session_post url packets credentials
    = (Ok tt, trace) /\
    posted trace = payloads /\
    Forall2 (fun row payload => exists t v d,
      row = [t; v] /\ strptime t = Some d /\
      json_dumps float_repr json_string
        (VDict [("tsISO8601", VStr (strftime d packet_format));
                ("value", safe_string_to_float py_float v);
                ("id", VStr reference)]) = Ok payload)
      rows payloads.
Proof.
  intros Hparse. apply parse_single_value_rows in Hparse.
  destruct (rows_to_payloads _
              (fun row payload => exists t v d,
                 row = [t; v] /\ strptime t = Some d /\
                 json_dumps float_repr json_string
                   (VDict [("tsISO8601", VStr (strftime d packet_format));
                           ("value", safe_string_to_float py_float v);
                           ("id", VStr reference)]) = Ok payload)
              (package_entry reference) rows ts Hparse)
    as (packets & payloads & Hpk & Hpay & HQ).
  { intros row e (t & v & d & -> & Hd & ->).
    destruct (json_dumps_unified_packet float_repr json_string
                [("tsISO8601", VStr (strftime d packet_format));
                 ("value", safe_string_to_float py_float v);
                 ("id", VStr reference)]) as [s Hs].
    { repeat constructor. apply safe_string_to_float_scalar. }
    eexists. exists s. split; [reflexivity|]. split; [exact Hs|].
    exists t, v, d. auto. }
  exists packets, payloads. eexists. split; [|split; [|split]].
  - unfold build_unified_packets. cbn [_timeserie _minutes_shift _fake_electric].
    rewrite !bind_Ok, build_unified_packets_mapM. exact Hpk.
  - apply send_trace. exact Hpay.
  - apply posted_send_trace. exact (Forall2_length _ _ _ Hpay).
  - exact HQ.
Qed.

(** X11: a file the electrical parser accepts is uploaded in full when no
    option is set: the payload of a row is the serialisation of the packet
    with the row's timestamp rendered, then the electrical keys paired in
    order with the row's values (floats or nulls, as many as the row has,
    21 at most), then the channel reference. *)
Theorem electricity_file_uploaded (rows : list (list string)) (ts : timeserie)
    (reference url : string) (credentials : string * string) :
  parse_electricity_csv py_float strptime rows = Ok ts ->
  exists packets payloads trace,
    build_unified_packets (mkTimeserieProcessor ts false None) reference
    = Ok packets /\
    send float_repr json_string session_post url packets credentials
    = (Ok tt, trace) /\
    posted trace = payloads /\
    Forall2 (fun row payload => exists t values d,
      row = t :: values /\ strptime t = Some d /\
      json_dumps float_repr json_string
        (VDict (("tsISO8601", VStr (strftime d packet_format))
                :: zip ELECTRICITY_KEYS (map (safe_string_to_float py_float) values)
                ++ [("id", VStr reference)])) = Ok payload)
      rows payloads.
Proof.
  intros Hparse. apply parse_electricity_rows in Hparse.
  destruct (rows_to_payloads _
              (fun row payload => exists t values d,
                 row = t :: values /\ strptime t = Some d /\
                 json_dumps float_repr json_string
                   (VDict (("tsISO8601", VStr (strftime d packet_format))
                           :: zip ELECTRICITY_KEYS
                                (map (safe_string_to_float py_float) values)
                           ++ [("id", VStr reference)])) = Ok payload)
              (package_entry reference) rows ts Hparse)
    as (packets & payloads & Hpk & Hpay & HQ).
  { intros row e (t & values & d & -> & Hd & ->).
    destruct (json_dumps_unified_packet float_repr json_string
                (("tsISO8601", VStr (strftime d packet_format))
                 :: zip ELECTRICITY_KEYS (map (safe_string_to_float py_float) values)
                 ++ [("id", VStr reference)])) as [s Hs].
    { constructor; [exact I|]. apply Forall_app. split.
      - apply unified_packet_zip. apply List.Forall_forall. intros v Hv.
        apply in_map_iff in Hv. destruct Hv as (x & <- & _).
        apply safe_string_to_float_scalar.
      - repeat constructor. }
    eexists. exists s. split; [|split; [exact Hs|]].
    - pose proof (package_entry_cases reference
                    (("tsISO8601", VDatetime d)
                     :: zip ELECTRICITY_KEYS
                          (map (safe_string_to_float py_float) values))) as Hc.
      cbn [timestamp_of dict_get String.eqb Ascii.eqb Bool.eqb] in Hc.
      change (timestamp_of _) with (Some d) in Hc. cbn beta iota in Hc.
      rewrite Hc, packet_of_electricity. reflexivity.
    - exists t, values, d. auto. }
  exists packets, payloads. eexists. split; [|split; [|split]].
  - unfold build_unified_packets. cbn [_timeserie _minutes_shift _fake_electric].
    rewrite !bind_Ok, build_unified_packets_mapM. exact Hpk.
  - apply send_trace. exact Hpay.
  - apply posted_send_trace. exact (Forall2_length _ _ _ Hpay).
  - exact HQ.
Qed.

(** X12: on a fake channel a file the single-value parser accepts is
    uploaded in full when every value reads as a float, each payload
    holding the value under [pC_1] and six times the value under [aP_1];
    when one value does not, [build_unified_packets] raises [TypeError]
    and there is no packet to send, whatever the other rows hold. *)
Theorem fake_channel_file (rows : list (list string)) (ts : timeserie)
    (reference url : string) (credentials : string * string) :
  parse_single_value_csv py_float strptime rows = Ok ts ->
  if forallb (value_is_float py_float) rows
  then exists packets payloads trace,
         build_unified_packets (mkTimeserieProcessor ts true None) reference
         = Ok packets /\
         send float_repr json_string session_post url packets credentials
         = (Ok tt, trace) /\
         posted trace = payloads /\
         Forall2 (fun row payload => exists t v d f,
           row = [t; v] /\ strptime t = Some d /\ py_float v = Some f /\
           json_dumps float_repr json_string
             (VDict [("tsISO8601", VStr (strftime d packet_format));
                     ("pC_1", VFloat f);
                     ("aP_1", VFloat (b64_mul f (b64_of_Z 6)));
                     ("id", VStr reference)]) = Ok payload)
           rows payloads
  else build_unified_packets (mkTimeserieProcessor ts true None) reference
       = Raise TypeError.
Proof.
  intros Hparse. apply parse_single_value_rows in Hparse.
  destruct (forallb (value_is_float py_float) rows) eqn:Hfl.
  - assert (Hshape : Forall2 (fun row e => exists t v d f,
      row = [t; v] /\ strptime t = Some d /\ py_float v = Some f /\
      e = [("tsISO8601", VDatetime d); ("value", VFloat f)]) rows ts).
    { clear -Hparse Hfl. induction Hparse as [|row e rows ts Hrow _ IH];
        [constructor|].
      cbn [forallb] in Hfl. apply andb_prop in Hfl as [Hv Hfl].
      constructor; [|exact (IH Hfl)].
      destruct Hrow as (t & v & d & -> & Hd & ->). cbn in Hv.
      unfold safe_string_to_float.
      destruct (py_float v) as [f|] eqn:Hf; [|discriminate].
      exists t, v, d, f. auto. }
    destruct (rows_to_payloads _
                (fun row payload => exists t v d f,
                   row = [t; v] /\ strptime t = Some d /\ py_float v = Some f /\
                   json_dumps float_repr json_string
                     (VDict [("tsISO8601", VStr (strftime d packet_format));
                             ("pC_1", VFloat f);
                             ("aP_1", VFloat (b64_mul f (b64_of_Z 6)));
                             ("id", VStr reference)]) = Ok payload)
                (fun e => x ← electrify_entry e; package_entry reference x)
                rows ts Hshape)
      as (packets & payloads & Hpk & Hpay & HQ).
    { intros row e (t & v & d & f & -> & Hd & Hf & ->).
      destruct (json_dumps_unified_packet float_repr json_string
                  [("tsISO8601", VStr (strftime d packet_format));
                   ("pC_1", VFloat f);
                   ("aP_1", VFloat (b64_mul f (b64_of_Z 6)));
                   ("id", VStr reference)]) as [s Hs].
      { repeat constructor. }
      eexists. exists s. split; [reflexivity|]. split; [exact Hs|].
      exists t, v, d, f. auto. }
    exists packets, payloads. eexists. split; [|split; [|split]].
    + unfold build_unified_packets. cbn [_timeserie _minutes_shift _fake_electric].
      rewrite bind_Ok. unfold _electrify.
      apply mapM_bind_Ok in Hpk.
      destruct (mapM electrify_entry ts) as [xs|]; [|discriminate].
      rewrite bind_Ok in *. rewrite build_unified_packets_mapM. exact Hpk.
    + apply send_trace. exact Hpay.
    + apply posted_send_trace. exact (Forall2_length _ _ _ Hpay).
    + exact HQ.
  - unfold build_unified_packets. cbn [_timeserie _minutes_shift _fake_electric].
    rewrite bind_Ok. unfold _electrify.
    assert (H : mapM electrify_entry ts = Raise TypeError).
    { clear -Hparse Hfl. induction Hparse as [|row e rows ts Hrow _ IH];
        [discriminate|].
      destruct Hrow as (t & v & d & -> & Hd & ->).
      cbn [forallb value_is_float] in Hfl. cbn [mapM].
      unfold safe_string_to_float.
      destruct (py_float v) as [f|] eqn:Hf.
      - cbn [andb] in Hfl. rewrite (IH Hfl). reflexivity.
      - reflexivity. }
    rewrite H. reflexivity.
Qed.
End Sessions.

(** ** Timestamps, from the file to the packet *)

Lemma two_or_one_rest (two : ascii -> ascii -> bool) (one : ascii -> bool)
    (a b : ascii) (v : Z) (rest : list ascii) :
  two_or_one two one [a; b] = Some (v, []) ->
  two_or_one two one (a :: b :: rest) = Some (v, rest).
Proof.
  unfold two_or_one. destruct (two a b).
  - intros [= <-]. reflexivity.
  - destruct (one a); discriminate.
Qed.

Lemma re_d_rest (a b : ascii) (v : Z) (rest : list ascii) :
  re_d [a; b] = Some (v, []) -> re_d (a :: b :: rest) = Some (v, rest).
Proof.
  unfold re_d, two_or_one.
  destruct (_ || _).
  - intros [= <-]. reflexivity.
  - destruct (in_range "1" "9" a); [discriminate|].
    destruct (_ && _); [|discriminate]. intros [= <-]. reflexivity.
Qed.

Lemma re_Y_rest (a b c d : ascii) (v : Z) (rest : list ascii) :
  re_Y [a; b; c; d] = Some (v, []) ->
  re_Y (a :: b :: c :: d :: rest) = Some (v, rest).
Proof.
  unfold re_Y. destruct (_ && _); [|discriminate]. intros [= <-]. reflexivity.
Qed.

Lemma field_of (re : list ascii -> option (Z * list ascii)) (l : list ascii)
    (n : Z) :
  match re l with Some (v, []) => v =? n | _ => false end = true ->
  re l = Some (n, []).
Proof.
  destruct (re l) as [[v [|]]|]; try discriminate.
  intros H. apply Z.eqb_eq in H. now subst.
Qed.

Lemma re_Y_zfill4 (y : Z) (rest : list ascii) :
  1 <= y <= 9999 ->
  re_Y (digit_char (y / 1000) :: digit_char (y / 100) :: digit_char (y / 10)
        :: digit_char y :: rest) = Some (y, rest).
Proof.
  intros Hy. apply re_Y_rest. apply field_of. revert y Hy.
  apply (range_check _ 1 9999); [lia|]. vm_compute. reflexivity.
Qed.

Lemma re_m_zfill2 (m : Z) (rest : list ascii) :
  1 <= m <= 12 ->
  re_m (digit_char (m / 10) :: digit_char m :: rest) = Some (m, rest).
Proof.
  intros Hm. apply two_or_one_rest. apply (field_of re_m). revert m Hm.
  apply (range_check _ 1 12); [lia|]. vm_compute. reflexivity.
Qed.

Lemma re_d_zfill2 (d : Z) (rest : list ascii) :
  1 <= d <= 31 ->
  re_d (digit_char (d / 10) :: digit_char d :: rest) = Some (d, rest).
Proof.
  intros Hd. apply re_d_rest. apply field_of. revert d Hd.
  apply (range_check _ 1 31); [lia|]. vm_compute. reflexivity.
Qed.

Lemma re_H_zfill2 (h : Z) (rest : list ascii) :
  0 <= h <= 23 ->
  re_H (digit_char (h / 10) :: digit_char h :: rest) = Some (h, rest).
Proof.
  intros Hh. apply two_or_one_rest. apply (field_of re_H). revert h Hh.
  apply (range_check _ 0 23); [lia|]. vm_compute. reflexivity.
Qed.

Lemma re_M_zfill2 (m : Z) (rest : list ascii) :
  0 <= m <= 59 ->
  re_M (digit_char (m / 10) :: digit_char m :: rest) = Some (m, rest).
Proof.
  intros Hm. apply two_or_one_rest. apply (field_of re_M). revert m Hm.
  apply (range_check _ 0 59); [lia|]. vm_compute. reflexivity.
Qed.

Lemma re_S_zfill2 (s : Z) (rest : list ascii) :
  0 <= s <= 59 ->
  re_S (digit_char (s / 10) :: digit_char s :: rest) = Some (s, rest).
Proof.
  intros Hs. apply two_or_one_rest. apply (field_of re_S). revert s Hs.
  apply (range_check _ 0 59); [lia|]. vm_compute. reflexivity.
Qed.

Lemma re_spaces_before_hour (h : Z) (rest : list ascii) :
  0 <= h <= 23 ->
  re_spaces (" "%char :: digit_char (h / 10) :: rest)
  = Some (digit_char (h / 10) :: rest).
Proof.
  intros Hh.
  assert (H : py_isspace (digit_char (h / 10)) = false).
  { apply negb_true_iff. revert h Hh.
    apply (range_check (fun h => negb (py_isspace (digit_char (h / 10)))) 0 23);
      [lia|].
    vm_compute. reflexivity. }
  cbn [re_spaces lstrip]. change (py_isspace " ") with true. cbn iota.
  rewrite H. reflexivity.
Qed.

Lemma days_in_month_le (y m : Z) : _days_in_month y m <= 31.
Proof.
  unfold _days_in_month. destruct (_ && _); [lia|].
  unfold _DAYS_IN_MONTH. destruct m as [|[[[[]|[]|]|[[]|[]|]|]|[[[]|[]|]|[[]|[]|]|]|]|]; lia.
Qed.

Lemma chars_file_timestamp (d : datetime) :
  chars (file_timestamp d) =
  digit_char (year d / 1000) :: digit_char (year d / 100)
  :: digit_char (year d / 10) :: digit_char (year d) :: "-"%char
  :: digit_char (month d / 10) :: digit_char (month d) :: "-"%char
  :: digit_char (day d / 10) :: digit_char (day d) :: " "%char
  :: digit_char (hour d / 10) :: digit_char (hour d) :: ":"%char
  :: digit_char (minute d / 10) :: digit_char (minute d) :: ":"%char
  :: digit_char (second d / 10) :: digit_char (second d) :: [].
Proof. reflexivity. Qed.

Ltac parse_step :=
  cbn [mbind option_bind re_lit Ascii.eqb Bool.eqb andb].

(** [strptime] reads a timestamp of the files as the datetime it was
    written from. *)
Lemma strptime_file_timestamp (d : datetime) :
  valid_datetime d = true -> microsecond d = 0 ->
  strptime_ascii (file_timestamp d) = Some d.
Proof.
  intros Hv Hus. pose proof Hv as Hb. unfold valid_datetime in Hb.
  repeat (apply andb_prop in Hb as [Hb ?]).
  pose proof (days_in_month_le (year d) (month d)).
  unfold strptime_ascii. rewrite chars_file_timestamp.
  rewrite re_Y_zfill4 by lia. parse_step.
  rewrite re_m_zfill2 by lia. parse_step.
  rewrite re_d_zfill2 by lia. parse_step.
  rewrite re_spaces_before_hour by lia. parse_step.
  rewrite re_H_zfill2 by lia. parse_step.
  rewrite re_M_zfill2 by lia. parse_step.
  rewrite re_S_zfill2 by lia. parse_step.
  destruct d as [y m dd h mi s us]. cbn [microsecond] in Hus. subst us.
  cbn [year month day hour minute second] in *. rewrite Hv. reflexivity.
Qed.

Section Canonical.
Variable py_float : string -> option float.

(** X13: timestamps go through the program unconverted.  A file of rows
    whose timestamps are written [YYYY-MM-DD HH:MM:SS], for any dates and
    times of the years 1 to 9999, is accepted and read as those dates and
    times, and each plain packet holds the rendering of the datetime of
    its row.  From the year 1000 on the rendering has the digits of the
    file: [YYYY-MM-DD HH:MM:SS] leaves as [YYYY-MM-DDTHH:MM:SS.000+00:00]. *)
Theorem canonical_timestamps_pass_through (items : list (datetime * string))
    (reference : string) :
  Forall (fun it => valid_datetime (fst it) = true /\ microsecond (fst it) = 0)
    items ->
  exists ts,
    parse_single_value_csv py_float strptime_ascii
      (map (fun it => [file_timestamp (fst it); snd it]) items) = Ok ts /\
    ts = map (fun it => [("tsISO8601", VDatetime (fst it));
                         ("value", safe_string_to_float py_float (snd it))]) items /\
    build_unified_packets (mkTimeserieProcessor ts false None) reference
    = Ok (map (fun it =>
            [("tsISO8601", VStr (strftime (fst it) packet_format));
             ("value", safe_string_to_float py_float (snd it));
             ("id", VStr reference)]) items) /\
    Forall (fun it => 1000 <= year (fst it) ->
              strftime (fst it) packet_format = spec_tsISO8601 (fst it)) items.
Proof.
  intros Hitems.
  exists (map (fun it => [("tsISO8601", VDatetime (fst it));
                          ("value", safe_string_to_float py_float (snd it))]) items).
  split; [|split; [reflexivity|split]].
  - unfold parse_single_value_csv. rewrite single_value_rows_mapM.
    assert (H : mapM (single_value_row py_float strptime_ascii)
                  (map (fun it => [file_timestamp (fst it); snd it]) items)
                = Ok (map (fun it => [("tsISO8601", VDatetime (fst it));
                         ("value", safe_string_to_float py_float (snd it))]) items)).
    { apply mapM_Ok. induction Hitems as [|it items [Hv Hus] _ IH]; cbn [map];
        constructor; [|exact IH].
      cbn [single_value_row]. rewrite (strptime_file_timestamp _ Hv Hus).
      reflexivity. }
    rewrite H. reflexivity.
  - unfold build_unified_packets. cbn [_timeserie _minutes_shift _fake_electric].
    rewrite !bind_Ok, build_unified_packets_mapM. apply mapM_Ok.
    clear Hitems. induction items as [|it items IH]; cbn [map]; constructor;
      [reflexivity | exact IH].
  - eapply Forall_impl; [exact Hitems|]. cbn beta. intros it [Hv _] Hy.
    apply strftime_packet_format_four. unfold valid_datetime in Hv.
    repeat (apply andb_prop in Hv as [Hv ?]). lia.
Qed.
End Canonical.

(** ** The log of a session *)

Section LogFacts.
Variable float_repr : float -> string.
Variable json_string : string -> string.
Variable session_post : nat -> string -> string -> post_outcome.

Lemma criticals_app (t1 t2 : list event) :
  criticals (t1 ++ t2) = criticals t1 ++ criticals t2.
Proof. apply omap_app. Qed.

Lemma response_level_not_critical (s : Z) : response_level s <> CRITICAL.
Proof.
  unfold response_level. destruct (float_eq_int _ 2); [discriminate|].
  destruct (float_eq_int _ 3); discriminate.
Qed.

Lemma criticals_session_events (url : string) (credentials : string * string)
    (packets : list dict) (payloads : list string) :
  length packets = length payloads ->
  forall n,
    criticals (session_events session_post url credentials n (zip packets payloads))
    = map Failure (failures session_post url n payloads).
Proof.
  revert payloads. induction packets as [|p packets IH]; intros [|s payloads] Hlen n;
    try discriminate; [reflexivity|].
  cbn [zip zip_with session_events failures]. injection Hlen as Hlen.
  match goal with
  | |- criticals (?a :: ?b :: ?l) = _ => change (a :: b :: l) with ([a; b] ++ l)
  end.
  rewrite criticals_app, (IH payloads Hlen).
  destruct (session_post n url s) as [r|x]; [|reflexivity].
  pose proof (response_level_not_critical (status_code r)) as Hr.
  unfold criticals. cbn [omap].
  destruct (response_level (status_code r)); try reflexivity. congruence.
Qed.

(** The events of the loop, packet by packet: a POST and the line logged
    for its outcome. *)
Lemma session_events_lines (url : string) (credentials : string * string)
    (packets : list dict) (payloads : list string) :
  length packets = length payloads ->
  forall n, exists lines : list (level * log_args),
    length lines = length payloads /\
    session_events session_post url credentials n (zip packets payloads)
    = flat_map (fun sl => [Posted url (fst sl) credentials;
                           Logged (fst (snd sl)) (snd (snd sl))])
        (zip payloads lines) /\
    forall (i : nat) (p : dict) (s : string) (l : level) (a : log_args),
      packets !! i = Some p -> payloads !! i = Some s -> lines !! i = Some (l, a) ->
      match session_post (n + i) url s with
      | RequestException x => l = CRITICAL /\ a = Failure x
      | Responded r =>
          l <> CRITICAL /\ a = Outcome (status_code r) p (strip (text r))
      end.
Proof.
  revert payloads. induction packets as [|p packets IH]; intros [|s payloads] Hlen n;
    try discriminate.
  - exists []. split; [reflexivity|]. split; [reflexivity|]. intros i; discriminate.
  - injection Hlen as Hlen. destruct (IH payloads Hlen (S n)) as (lines & Hl & Hev & Hi).
    exists (match session_post n url s with
            | Responded r =>
                (response_level (status_code r),
                 Outcome (status_code r) p (strip (text r)))
            | RequestException x => (CRITICAL, Failure x)
            end :: lines).
    split; [cbn [length]; now rewrite Hl|]. split.
    + cbn [zip zip_with session_events flat_map app fst snd].
      change (zip_with pair payloads lines) with (zip payloads lines).
      rewrite <- Hev. destruct (session_post n url s); reflexivity.
    + intros [|i] p' s' l a Hp Hs Hline.
      * injection Hp as <-. injection Hs as <-. rewrite Nat.add_0_r.
        cbn [lookup list_lookup] in Hline.
        destruct (session_post n url s) as [r|x]; injection Hline as <- <-.
        -- split; [apply response_level_not_critical | reflexivity].
        -- split; reflexivity.
      * replace (n + S i)%nat with (S n + i)%nat by lia.
        exact (Hi i p' s' l a Hp Hs Hline).
Qed.

(** X14: the log of a session that runs to its end, line by line.  On
    packets that serialise, the trace is the opening message, then for
    each packet in order its POST followed by exactly one log line, then
    the closing message.  The line of a POST that raised a
    [RequestException] is that exception at critical level; the line of
    a POST that was answered reports the status, the packet and the
    stripped text of the response, and is never at critical level.  So
    what is logged at critical level is exactly, and in order, the
    exceptions the POSTs raised. *)
Theorem send_logs_each_failure (url : string) (credentials : string * string)
    (packets : list dict) (payloads : list string) :
  Forall2 (fun p s => json_dumps float_repr json_string (VDict p) = Ok s)
    packets payloads ->
  exists lines : list (level * log_args),
    length lines = length packets /\
    send float_repr json_string session_post url packets credentials
    = (Ok tt, session_trace url credentials payloads lines) /\
    (forall (i : nat) (p : dict) (s : string) (l : level) (a : log_args),
       packets !! i = Some p -> payloads !! i = Some s -> lines !! i = Some (l, a) ->
       match session_post i url s with
       | RequestException x => l = CRITICAL /\ a = Failure x
       | Responded r =>
           l <> CRITICAL /\ a = Outcome (status_code r) p (strip (text r))
       end) /\
    criticals (session_trace url credentials payloads lines)
    = map Failure (failures session_post url 0 payloads).
Proof.
  intros Hpay. pose proof (Forall2_length _ _ _ Hpay) as Hlen.
  destruct (session_events_lines url credentials packets payloads Hlen 0)
    as (lines & Hl & Hev & Hi).
  exists lines. split; [congruence|].
  assert (Htrace : send float_repr json_string session_post url packets credentials
                   = (Ok tt, session_trace url credentials payloads lines)).
  { rewrite (send_trace float_repr json_string session_post url credentials
               packets payloads Hpay).
    unfold session_trace. rewrite Hev. reflexivity. }
  split; [exact Htrace|]. split; [exact Hi|].
  unfold session_trace. rewrite <- Hev.
  change (criticals (?a :: ?l)) with (criticals l).
  rewrite criticals_app, criticals_session_events by exact Hlen.
  cbn. apply app_nil_r.
Qed.

(** The lines the loop adds for responses have the level of their
    status. *)
Lemma send_loop_levels (url : string) (credentials : string * string)
    (P : event -> Prop) :
  (forall s p m, P (Logged (response_level s) (Outcome s p m))) ->
  (forall u s c, P (Posted u s c)) ->
  (forall x, P (Logged CRITICAL (Failure x))) ->
  forall (packets : list dict) (n : nat) (trace : list event),
    Forall P trace ->
    Forall P (snd (send_loop float_repr json_string session_post url credentials
                     n packets trace)).
Proof.
  intros Hout Hpost Hfail.
  induction packets as [|p packets IH]; intros n trace Htrace; [exact Htrace|].
  cbn [send_loop].
  destruct (json_dumps float_repr json_string (VDict p)) as [payload|];
    [|exact Htrace].
  destruct (session_post n url payload) as [r|x]; apply IH;
    repeat (apply Forall_app; split); try exact Htrace;
    repeat constructor; auto.
Qed.

(** X15: in the log of any session, a response with a three-digit status
    is reported at debug level only when the status is 200, at warning
    level only when it is 300, and at error level for every other status,
    those of the classes 2 and 3 included. *)
Theorem send_log_levels (url : string) (credentials : string * string)
    (packets : list dict) (l : level) (s : Z) (p : dict) (m : string) :
  In (Logged l (Outcome s p m))
     (snd (send float_repr json_string session_post url packets credentials)) ->
  100 <= s <= 999 ->
  l = if s =? 200 then DEBUG else if s =? 300 then WARNING else ERROR.
Proof.
  intros Hin Hs. rewrite <- (response_level_three_digits s Hs).
  set (P := fun ev => match ev with
                      | Logged l' (Outcome s' _ _) => l' = response_level s'
                      | _ => True
                      end).
  assert (Hall : Forall P
            (snd (send float_repr json_string session_post url packets credentials))).
  { unfold send.
    pose proof (send_loop_levels url credentials P) as Hloop.
    specialize (Hloop (fun _ _ _ => eq_refl) (fun _ _ _ => I) (fun _ => I)
                  packets 0%nat [Logged INFO (Message "Starting the swarm")]).
    destruct (send_loop _ _ _ _ _ _ _ _) as [[|e] trace]; cbn [snd] in *.
    - apply Forall_app. split; [|repeat constructor].
      apply Hloop. repeat constructor.
    - apply Hloop. repeat constructor. }
  rewrite List.Forall_forall in Hall. exact (Hall _ Hin).
Qed.
End LogFacts.

(** ** Instances *)

Lemma send_stops_at_unserialisable_witness :
  fst (send zero_repr quoted flaky_network "https://collector.example/in"
         ([sample_packet] ++ sample_unpackaged :: [sample_packet])
         ("user", "secret")) = Raise TypeError /\
  posted (snd (send zero_repr quoted flaky_network "https://collector.example/in"
                 ([sample_packet] ++ sample_unpackaged :: [sample_packet])
                 ("user", "secret"))) = [sample_payload].
Proof.
  destruct (send_stops_at_unserialisable zero_repr quoted flaky_network
              "https://collector.example/in" ("user", "secret")
              [sample_packet] [sample_payload] sample_unpackaged [sample_packet])
    as [Hsend Hposted].
  - constructor; [reflexivity | constructor].
  - reflexivity.
  - rewrite Hsend. split; [reflexivity | exact Hposted].
Defined.

Lemma prepend_padding_value_shifts_witness :
  exists out,
    _prepend_padding_value [sample_first; sample_second] 15 = Ok out /\
    length out = 3%nat.
Proof.
  pose proof (prepend_padding_value_shifts [sample_first; sample_second] 15) as H.
  assert (Hc : forallb (shift_on_calendar 15) [sample_first; sample_second] = true)
    by (vm_compute; reflexivity).
  rewrite Hc in H. destruct H as (padding & shifted & Hp & Hlen & _).
  - constructor; [eexists; split; reflexivity|].
    constructor; [eexists; split; reflexivity | constructor].
  - cbn. lia.
  - exists (padding :: shifted). split; [exact Hp|]. cbn [length]. rewrite Hlen.
    reflexivity.
Defined.

Lemma package_keeps_fields_witness :
  exists p e,
    _build_unified_packets [sample_first] "abc123" = Ok [p] /\
    [sample_first] !! 0%nat = Some e /\
    dict_get "value" p = dict_get "value" e /\
    keys p = ["tsISO8601"; "value"; "id"].
Proof.
  assert (H : _build_unified_packets [sample_first] "abc123"
              = Ok [[("tsISO8601", VStr "2020-01-01T10:00:00.000+00:00");
                     ("value", VFloat (b64_of_Z 3)); ("id", VStr "abc123")]])
    by (vm_compute; reflexivity).
  destruct (package_keeps_fields [sample_first] "abc123" _ H 0%nat _ eq_refl)
    as (e & d & He & _ & _ & _ & Hk & _).
  eexists. exists e. split; [exact H|]. split; [exact He|].
  split; [apply Hk; discriminate | reflexivity].
Defined.

Lemma fake_electric_packets_witness :
  exists packets,
    build_unified_packets (mkTimeserieProcessor [sample_first] true None) "abc123"
    = Ok packets /\
    length packets = 1%nat.
Proof.
  destruct (fake_electric_packets [sample_first] "abc123") as (packets & Hb & Hall).
  - constructor; [|constructor].
    split; eexists; reflexivity.
  - exists packets. split; [exact Hb|].
    apply Forall2_length in Hall. cbn in Hall. lia.
Defined.

Lemma electrify_electrical_records_witness :
  _electrify
    [[("tsISO8601", VDatetime (mkdatetime 2020 1 1 10 0 0 0));
      ("aP_1", literal_value "1.0"); ("aP_2", literal_value "2.0")]]
  = Raise (KeyError "value").
Proof.
  apply (electrify_electrical_records float_literal strptime_ascii
           [["2020-01-01 10:00:00"; "1.0"; "2.0"]]).
  - vm_compute. reflexivity.
  - discriminate.
Defined.

Lemma single_value_file_uploaded_witness :
  exists packets payloads trace,
    build_unified_packets
      (mkTimeserieProcessor
         [[("tsISO8601", VDatetime (mkdatetime 2020 1 1 10 0 0 0));
           ("value", literal_value "12.5")];
          [("tsISO8601", VDatetime (mkdatetime 2020 1 1 10 15 0 0));
           ("value", VNone)]] false None) "abc123" = Ok packets /\
    send zero_repr quoted flaky_network "https://collector.example/in" packets
      ("user", "secret") = (Ok tt, trace) /\
    posted trace = payloads /\ length payloads = 2%nat.
Proof.
  destruct (single_value_file_uploaded float_literal strptime_ascii
              zero_repr quoted flaky_network
              [["2020-01-01 10:00:00"; "12.5"]; ["2020-01-01 10:15:00"; "n/a"]]
              [[("tsISO8601", VDatetime (mkdatetime 2020 1 1 10 0 0 0));
                ("value", literal_value "12.5")];
               [("tsISO8601", VDatetime (mkdatetime 2020 1 1 10 15 0 0));
                ("value", VNone)]]
              "abc123" "https://collector.example/in" ("user", "secret"))
    as (packets & payloads & trace & Hb & Hs & Hp & Hall).
  - vm_compute. reflexivity.
  - exists packets, payloads, trace. split; [exact Hb|]. split; [exact Hs|].
    split; [exact Hp|]. apply Forall2_length in Hall. cbn in Hall. lia.
Defined.

Lemma electricity_file_uploaded_witness :
  exists packets payloads trace,
    build_unified_packets
      (mkTimeserieProcessor
         [[("tsISO8601", VDatetime (mkdatetime 2020 1 1 10 0 0 0));
           ("aP_1", literal_value "1.0"); ("aP_2", literal_value "2.0")]]
         false None) "abc123" = Ok packets /\
    send zero_repr quoted flaky_network "https://collector.example/in" packets
      ("user", "secret") = (Ok tt, trace) /\
    posted trace = payloads /\ length payloads = 1%nat.
Proof.
  destruct (electricity_file_uploaded float_literal strptime_ascii
              zero_repr quoted flaky_network
              [["2020-01-01 10:00:00"; "1.0"; "2.0"]]
              [[("tsISO8601", VDatetime (mkdatetime 2020 1 1 10 0 0 0));
                ("aP_1", literal_value "1.0"); ("aP_2", literal_value "2.0")]]
              "abc123" "https://collector.example/in" ("user", "secret"))
    as (packets & payloads & trace & Hb & Hs & Hp & Hall).
  - vm_compute. reflexivity.
  - exists packets, payloads, trace. split; [exact Hb|]. split; [exact Hs|].
    split; [exact Hp|]. apply Forall2_length in Hall. cbn in Hall. lia.
Defined.

Lemma fake_channel_file_witness :
  build_unified_packets
    (mkTimeserieProcessor
       [[("tsISO8601", VDatetime (mkdatetime 2020 1 1 10 0 0 0));
         ("value", literal_value "12.5")];
        [("tsISO8601", VDatetime (mkdatetime 2020 1 1 10 15 0 0));
         ("value", VNone)]] true None) "abc123" = Raise TypeError.
Proof.
  pose proof (fake_channel_file float_literal strptime_ascii
                zero_repr quoted flaky_network
                [["2020-01-01 10:00:00"; "12.5"]; ["2020-01-01 10:15:00"; "n/a"]]
                [[("tsISO8601", VDatetime (mkdatetime 2020 1 1 10 0 0 0));
                  ("value", literal_value "12.5")];
                 [("tsISO8601", VDatetime (mkdatetime 2020 1 1 10 15 0 0));
                  ("value", VNone)]]
                "abc123" "https://collector.example/in" ("user", "secret")) as H.
  assert (Hc : forallb (value_is_float float_literal)
                 [["2020-01-01 10:00:00"; "12.5"]; ["2020-01-01 10:15:00"; "n/a"]]
               = false) by (vm_compute; reflexivity).
  rewrite Hc in H. apply H. vm_compute. reflexivity.
Defined.

Lemma canonical_timestamps_pass_through_witness :
  exists ts,
    parse_single_value_csv float_literal strptime_ascii
      [["2020-01-01 10:00:00"; "12.5"]] = Ok ts /\
    build_unified_packets (mkTimeserieProcessor ts false None) "abc123"
    = Ok [[("tsISO8601", VStr "2020-01-01T10:00:00.000+00:00");
           ("value", literal_value "12.5"); ("id", VStr "abc123")]].
Proof.
  destruct (canonical_timestamps_pass_through float_literal
              [(mkdatetime 2020 1 1 10 0 0 0, "12.5")] "abc123")
    as (ts & Hp & _ & Hb & _).
  - constructor; [split; reflexivity | constructor].
  - exists ts. split; [exact Hp | exact Hb].
Defined.

Lemma send_logs_each_failure_witness :
  exists lines,
    send zero_repr quoted flaky_network "https://collector.example/in"
      [sample_packet; sample_packet] ("user", "secret")
    = (Ok tt, session_trace "https://collector.example/in" ("user", "secret")
                [sample_payload; sample_payload] lines) /\
    length lines = 2%nat /\
    criticals (session_trace "https://collector.example/in" ("user", "secret")
                 [sample_payload; sample_payload] lines)
    = [Failure "connection refused"].
Proof.
  destruct (send_logs_each_failure zero_repr quoted flaky_network
              "https://collector.example/in" ("user", "secret")
              [sample_packet; sample_packet] [sample_payload; sample_payload])
    as (lines & Hlen & Hs & _ & Hc).
  - constructor; [reflexivity|]. constructor; [reflexivity | constructor].
  - exists lines. split; [exact Hs|]. split; [exact Hlen | exact Hc].
Defined.

Lemma send_log_levels_witness :
  In (Logged ERROR (Outcome 404 sample_packet "Not Found"))
     (snd (send zero_repr quoted not_found_network "https://collector.example/in"
             [sample_packet] ("user", "secret"))) /\
  ERROR = (if 404 =? 200 then DEBUG else if 404 =? 300 then WARNING else ERROR).
Proof.
  assert (Hin : In (Logged ERROR (Outcome 404 sample_packet "Not Found"))
     (snd (send zero_repr quoted not_found_network "https://collector.example/in"
             [sample_packet] ("user", "secret")))).
  { vm_compute. right. right. left. reflexivity. }
  split; [exact Hin|].
  apply (send_log_levels zero_repr quoted not_found_network
           "https://collector.example/in" ("user", "secret") [sample_packet]
           ERROR 404 sample_packet "Not Found" Hin).
  lia.
Defined.
